(** * SICOP document manager: the browser client and the core it consumes

    A shallow embedding of the JavaScript modules of the document manager
    (ChatHandler, PdfHandler, FileHandler, TableRenderer, DocumentDetails)
    and of the parts of the core specification that these modules consume
    (the ingestion state machine and the chat query engine).

    Conventions of the embedding.
    - JavaScript values are the type [value]: the JSON values, plus the
      built-in objects that a property lookup can reach through
      [Object.prototype].  Numbers are the integers: [VNum n] is the number
      of value [n].  Fractions, [NaN] and the infinities as values are
      outside the embedding; a string is converted to a number as the
      engine does it, with the rounding of binary64, and a number is
      printed with the digits that the engine prints.
    - A string is held as its UTF-8 encoding, one [ascii] for each byte.
      [trim] removes the white space of ECMAScript, [includes] compares
      bytes, which on encoded text is the comparison of characters, and
      [toLowerCase], whose table belongs to the engine and not to the
      sources, is a parameter ([Engine]).
    - A method that can throw returns a [completion]; a method that updates
      the page or a handler object is a state transformer over [World] that
      keeps the state reached when an exception is thrown.
    - An [async] method is split at its [await]: a start part that runs up
      to the [fetch] call and records the request, and a resume part that
      receives the outcome of the request.
    - The page is a finite map from element ids (or selectors) to
      elements; [getElementById] is a lookup in that map. *)

From stdpp Require Import base strings list gmap pretty.
From Stdlib Require Import ZArith Lia Ascii.

Set Warnings "-register-all".

Open Scope Z_scope.

(** ** JavaScript values *)

Module JS.

(** Built-in objects reachable from a plain object through its prototype. *)
Inductive native :=
| ObjectPrototype
| NativeFunction (name : string).

Inductive value :=
| VUndefined
| VNull
| VBool (b : bool)
| VNum (n : Z)
| VStr (s : string)
| VArr (items : list value)
| VObj (fields : list (string * value))
| VNative (n : native).

Inductive exn :=
| Error (message : string)
| TypeError (message : string)
| SyntaxError (message : string).

(** [error.message]. *)
Definition exn_message (e : exn) : string :=
  match e with
  | Error m => m
  | TypeError m => m
  | SyntaxError m => m
  end.

(** The result of evaluating an expression that may throw. *)
Inductive completion (A : Type) :=
| Normal (a : A)
| Throw (e : exn).
Arguments Normal {A} a.
Arguments Throw {A} e.

Definition cbind {A B} (c : completion A) (k : A -> completion B)
  : completion B :=
  match c with
  | Normal a => k a
  | Throw e => Throw e
  end.

(** [ToBoolean]. *)
Definition truthy (v : value) : bool :=
  match v with
  | VUndefined | VNull => false
  | VBool b => b
  | VNum n => negb (n =? 0)
  | VStr s => negb (String.eqb s "")
  | VArr _ | VObj _ | VNative _ => true
  end.

(** [a || b] on values. *)
Definition or_else (a b : value) : value := if truthy a then a else b.

Definition nullish (v : value) : bool :=
  match v with
  | VUndefined | VNull => true
  | _ => false
  end.

Fixpoint join (sep : string) (l : list string) : string :=
  match l with
  | [] => ""
  | [s] => s
  | s :: rest => s +:+ sep +:+ join sep rest
  end.

Fixpoint own_property (fields : list (string * value)) (k : string)
  : option value :=
  match fields with
  | [] => None
  | (k', v) :: rest => if String.eqb k' k then Some v else own_property rest k
  end.

Definition cannot_convert : exn :=
  TypeError "Cannot convert object to primitive value".

(** *** Numbers as binary64 has them *)

(** The binary64 number nearest to [num / den], for [num] and [den]
    positive, ties going to the even significand: the pair [(m, e)] stands
    for [m * 2 ^ e], with [m] below [2 ^ 53], and [None] for an overflow to
    [Infinity]. *)
Definition nearest_binary64 (num den : Z) : option (Z * Z) :=
  let l := Z.log2 num - Z.log2 den in
  let below := if 0 <=? l then num <? den * 2 ^ l else num * 2 ^ (- l) <? den in
  let e := Z.max ((if below then l - 1 else l) - 52) (-1074) in
  let n := if 0 <=? e then num else num * 2 ^ (- e) in
  let d := if 0 <=? e then den * 2 ^ e else den in
  let q := n / d in
  let r := n mod d in
  let m := if 2 * r <? d then q
           else if d <? 2 * r then q + 1
           else if Z.even q then q else q + 1 in
  if 2 ^ 1024 <=? m * 2 ^ e then None
  else if m =? 2 ^ 53 then Some (2 ^ 52, e + 1)
  else Some (m, e).

(** The integer that [num / den] is as a binary64 number, if it is one. *)
Definition integer_of_quotient (num den : Z) : option Z :=
  match nearest_binary64 num den with
  | Some (m, e) =>
      if 0 <=? e then Some (m * 2 ^ e)
      else if m mod 2 ^ (- e) =? 0 then Some (m / 2 ^ (- e))
      else None
  | None => None
  end.

(** The digits that [Number::toString] prints: of the decimal numerals
    that binary64 reads as the given number, those between [low / 2] and
    [high / 2], the one with the fewest digits, which is the multiple of
    the largest power of ten, and of several the one nearest to the number
    [x / 2].  The result is the pair [(s, j)] for the numeral [s * 10 ^ j]. *)
Fixpoint shortest_decimal (j : nat) (low high x : Z) (inclusive : bool)
  : Z * Z :=
  let step := 2 * 10 ^ Z.of_nat j in
  let first := if inclusive then - ((- low) / step) else low / step + 1 in
  let last := if inclusive then high / step else - ((- high) / step) - 1 in
  let q := x / step in
  let r := x mod step in
  let nearest := if 2 * r <? step then q
                 else if step <? 2 * r then q + 1
                 else if Z.even q then q else q + 1 in
  if first <=? last then (Z.max first (Z.min last nearest), Z.of_nat j)
  else match j with
       | O => (x / 2, 0)
       | S j' => shortest_decimal j' low high x inclusive
       end.

Definition zeros (n : Z) : string :=
  String.concat "" (replicate (Z.to_nat n) "0").

(** [Number::toString] on an integer.  Below [2 ^ 53] every integer is a
    binary64 number and prints its digits; from there on the number is the
    binary64 number nearest to [n], its neighbours are further apart than
    one, and the shortest numeral that still denotes it is printed, in
    exponent notation from [10 ^ 21] on. *)
Definition number_text (n : Z) : string :=
  if Z.abs n <? 2 ^ 53 then pretty n
  else
    (if n <? 0 then "-" else "") +:+
    match nearest_binary64 (Z.abs n) 1 with
    | None => "Infinity"
    | Some (m, e) =>
        let x := m * 2 ^ e in
        let below := if m =? 2 ^ 52 then 2 ^ (e - 1) else 2 ^ e in
        let '(s, j) :=
          shortest_decimal (String.length (pretty x))
            (2 * x - below) (2 * x + 2 ^ e) (2 * x) (Z.even m) in
        let digits := pretty s in
        let point := Z.of_nat (String.length digits) + j in
        if point <=? 21 then digits +:+ zeros j
        else
          match digits with
          | String d EmptyString => digits +:+ "e+" +:+ pretty (point - 1)
          | String d more =>
              String d ("." +:+ more) +:+ "e+" +:+ pretty (point - 1)
          | EmptyString => EmptyString
          end
    end.

(** [x.toFixed(2)] on an integer: its exact digits and two zeros, and from
    [10 ^ 21] on what [toString] prints. *)
Definition fixed2_text (n : Z) : string :=
  if Z.abs n <? 2 ^ 53 then pretty n +:+ ".00"
  else
    match nearest_binary64 (Z.abs n) 1 with
    | Some (m, e) =>
        if m * 2 ^ e <? 10 ^ 21
        then (if n <? 0 then "-" else "") +:+ pretty (m * 2 ^ e) +:+ ".00"
        else number_text n
    | None => number_text n
    end.

(** [ToString] (and [ToPrimitive] on an object).  An array prints its
    elements separated by commas, with [null] and [undefined] elements
    printed as the empty string.  A plain object prints through the
    inherited [toString]; an own field of that name hides it, and as no
    JSON value is callable the conversion then throws. *)
Fixpoint ToString (v : value) : completion string :=
  match v with
  | VUndefined => Normal "undefined"
  | VNull => Normal "null"
  | VBool true => Normal "true"
  | VBool false => Normal "false"
  | VNum n => Normal (number_text n)
  | VStr s => Normal s
  | VArr items =>
      cbind
        ((fix elements (l : list value) : completion (list string) :=
            match l with
            | [] => Normal []
            | x :: rest =>
                cbind (if nullish x then Normal "" else ToString x)
                  (fun s => cbind (elements rest)
                              (fun ss => Normal (s :: ss)))
            end) items)
        (fun ss => Normal (join "," ss))
  | VObj fields =>
      match own_property fields "toString" with
      | Some _ => Throw cannot_convert
      | None => Normal "[object Object]"
      end
  | VNative ObjectPrototype => Normal "[object Object]"
  | VNative (NativeFunction f) =>
      Normal ("function " +:+ f +:+ "() { [native code] }")
  end.

(** The values whose conversion to a string cannot throw: everything but
    the arrays and the plain objects. *)
Definition scalar (v : value) : bool :=
  match v with
  | VArr _ | VObj _ => false
  | _ => true
  end.

(** [ToPrimitive]: an object is converted to its string, a primitive is
    left alone. *)
Definition ToPrimitive (v : value) : completion value :=
  match v with
  | VArr _ | VObj _ | VNative _ => cbind (ToString v) (fun s => Normal (VStr s))
  | _ => Normal v
  end.

(** The string that [el.textContent = v] stores: [null] and [undefined]
    clear the text, any other value is converted. *)
Definition textContent_of (v : value) : completion string :=
  if nullish v then Normal "" else ToString v.

(** *** Strings *)

Definition byte (n : Z) : ascii := ascii_of_nat (Z.to_nat n).

(** The UTF-8 encoding of a code point. *)
Definition utf8 (code : Z) : string :=
  if code <? 0x80 then String (byte code) ""
  else if code <? 0x800 then
    String (byte (0xC0 + code / 64)) (String (byte (0x80 + code mod 64)) "")
  else if code <? 0x10000 then
    String (byte (0xE0 + code / 4096))
      (String (byte (0x80 + code / 64 mod 64))
         (String (byte (0x80 + code mod 64)) ""))
  else
    String (byte (0xF0 + code / 262144))
      (String (byte (0x80 + code / 4096 mod 64))
         (String (byte (0x80 + code / 64 mod 64))
            (String (byte (0x80 + code mod 64)) ""))).

(** [s.length]: the number of UTF-16 code units, one for each character
    and two for a character past the basic plane (a lead byte from [0xF0]
    on). *)
Fixpoint utf16_length (s : string) : Z :=
  match s with
  | EmptyString => 0
  | String c rest =>
      let n := Z.of_nat (nat_of_ascii c) in
      (if (0x80 <=? n) && (n <? 0xC0) then 0
       else if 0xF0 <=? n then 2 else 1) + utf16_length rest
  end.

(** The code points that [trim] removes, [WhiteSpace] and [LineTerminator]
    of ECMAScript: the controls TAB, LF, VT, FF and CR, the space, the
    no-break space, the space separators of Unicode (category Zs), the
    line and paragraph separators and the byte order mark. *)
Definition white_space : list Z :=
  [ 0x09; 0x0A; 0x0B; 0x0C; 0x0D; 0x20; 0xA0; 0x1680;
    0x2000; 0x2001; 0x2002; 0x2003; 0x2004; 0x2005; 0x2006; 0x2007;
    0x2008; 0x2009; 0x200A; 0x2028; 0x2029; 0x202F; 0x205F; 0x3000;
    0xFEFF ].

(** [s] without its prefix [p]. *)
Fixpoint strip_prefix (p s : string) : option string :=
  match p, s with
  | EmptyString, _ => Some s
  | String a p', String b s' => if Ascii.eqb a b then strip_prefix p' s' else None
  | String _ _, EmptyString => None
  end.

(** [s] without the one of [chars] that it starts with. *)
Fixpoint strip_one (chars : list string) (s : string) : option string :=
  match chars with
  | [] => None
  | c :: others =>
      match strip_prefix c s with
      | Some rest => Some rest
      | None => strip_one others s
      end
  end.

(** [s] from its first character that is none of [chars]; [fuel] bounds
    the number of characters removed, and the length of [s] is enough. *)
Fixpoint strip_leading (chars : list string) (fuel : nat) (s : string) : string :=
  match fuel with
  | O => s
  | S fuel' =>
      match strip_one chars s with
      | Some rest => strip_leading chars fuel' rest
      | None => s
      end
  end.

Definition trimStart (s : string) : string :=
  strip_leading (utf8 <$> white_space) (String.length s) s.

(** The end of the text is the start of its bytes read backwards. *)
Definition trimEnd (s : string) : string :=
  String.rev
    (strip_leading (String.rev ∘ utf8 <$> white_space) (String.length s)
       (String.rev s)).

Definition trim (s : string) : string := trimEnd (trimStart s).

(** [String.prototype.toLowerCase] applies the case mappings of the
    Unicode Character Database in the version that the engine ships.  The
    table is the engine's and not part of the sources: it is taken as a
    parameter, and what is proved of the handlers holds for every table. *)
Class Engine := { toLowerCase : string -> string }.

(** [s.includes(q)]. *)
Fixpoint includes (s q : string) : bool :=
  if String.prefix q s then true
  else match s with
       | EmptyString => false
       | String _ rest => includes rest q
       end.

(** *** Property lookup *)

(** The properties every plain object inherits. *)
Definition Object_prototype (k : string) : option value :=
  if String.eqb k "__proto__" then Some (VNative ObjectPrototype)
  else if String.eqb k "constructor" then Some (VNative (NativeFunction "Object"))
  else if existsb (String.eqb k)
            ["toString"; "toLocaleString"; "valueOf"; "hasOwnProperty";
             "isPrototypeOf"; "propertyIsEnumerable"; "__defineGetter__";
             "__defineSetter__"; "__lookupGetter__"; "__lookupSetter__"]
  then Some (VNative (NativeFunction k))
  else None.

(** [o[k]] for a plain object [o] with the given own fields. *)
Definition get_member (fields : list (string * value)) (k : string) : value :=
  match own_property fields k with
  | Some v => v
  | None => default VUndefined (Object_prototype k)
  end.

(** [v.k] for the property names [k] that occur in the sources.  None of
    them is an index or a method of an array or of a string, so apart from
    [length] a primitive or an array has no such property. *)
Definition Get (v : value) (k : string) : completion value :=
  match v with
  | VUndefined | VNull =>
      Throw (TypeError ("Cannot read properties of "
                        +:+ (if v is VNull then "null" else "undefined")
                        +:+ " (reading '" +:+ k +:+ "')"))
  | VObj fields => Normal (get_member fields k)
  | VArr items =>
      Normal (if String.eqb k "length" then VNum (Z.of_nat (length items))
              else VUndefined)
  | VStr s =>
      Normal (if String.eqb k "length" then VNum (utf16_length s)
              else VUndefined)
  | VBool _ | VNum _ | VNative _ => Normal VUndefined
  end.

(** [v?.k]. *)
Definition Get_optional (v : value) (k : string) : value :=
  match Get v k with
  | Normal x => x
  | Throw _ => VUndefined
  end.

(** [v === s] against a string and [v === n] against a number. *)
Definition strict_eq_str (v : value) (s : string) : bool :=
  match v with
  | VStr s' => String.eqb s' s
  | _ => false
  end.

Definition strict_eq_num (v : value) (n : Z) : bool :=
  match v with
  | VNum n' => n' =? n
  | _ => false
  end.

(** *** Numeric coercions

    [StringToNumber] reads a [StringNumericLiteral]: white space around a
    decimal numeral with an optional sign, fraction and exponent, or around
    a numeral in radix 16, 8 or 2; white space alone reads as zero.  The
    value is rounded to binary64.  The result is the integer read; [None]
    stands for every other result ([NaN], a fraction, an infinity), none of
    which is equal to a number of the embedding. *)

Definition digit_of (radix : Z) (c : ascii) : option Z :=
  let n := Z.of_nat (nat_of_ascii c) in
  let d := if (48 <=? n) && (n <=? 57) then n - 48
           else if (97 <=? n) && (n <=? 102) then n - 87
           else if (65 <=? n) && (n <=? 70) then n - 55
           else radix in
  if d <? radix then Some d else None.

(** The decimal digits at the start of a string, and what follows them. *)
Fixpoint take_digits (s : string) : list Z * string :=
  match s with
  | EmptyString => ([], EmptyString)
  | String c rest =>
      match digit_of 10 c with
      | Some d => let '(ds, tail) := take_digits rest in (d :: ds, tail)
      | None => ([], s)
      end
  end.

Definition digits_value (radix : Z) (ds : list Z) : Z :=
  foldl (fun acc d => radix * acc + d) 0 ds.

(** A string of digits in the given radix, and nothing else. *)
Fixpoint all_digits (radix : Z) (s : string) : option (list Z) :=
  match s with
  | EmptyString => Some []
  | String c rest =>
      match digit_of radix c, all_digits radix rest with
      | Some d, Some ds => Some (d :: ds)
      | _, _ => None
      end
  end.

(** [NonDecimalIntegerLiteral]: [0x], [0o] or [0b] and at least one
    digit. *)
Definition radix_literal (s : string) : option Z :=
  match s with
  | String "0" (String c (String _ _ as digits)) =>
      let radix := if Ascii.eqb c "x" || Ascii.eqb c "X" then 16
                   else if Ascii.eqb c "o" || Ascii.eqb c "O" then 8
                   else if Ascii.eqb c "b" || Ascii.eqb c "B" then 2
                   else 0 in
      digits_value radix <$> all_digits radix digits
  | _ => None
  end.

(** [ExponentPart], or nothing: the exponent of ten. *)
Definition exponent_part (s : string) : option Z :=
  match s with
  | EmptyString => Some 0
  | String c rest =>
      if Ascii.eqb c "e" || Ascii.eqb c "E" then
        match rest with
        | String "+" (String _ _ as ds) => digits_value 10 <$> all_digits 10 ds
        | String "-" (String _ _ as ds) =>
            Z.opp <$> (digits_value 10 <$> all_digits 10 ds)
        | String _ _ => digits_value 10 <$> all_digits 10 rest
        | EmptyString => None
        end
      else None
  end.

(** [StrUnsignedDecimalLiteral] other than [Infinity]: the digits before
    and after the point, and the power of ten that multiplies them read as
    one integer. *)
Definition decimal_literal (s : string) : option (list Z * Z) :=
  let '(whole, rest) := take_digits s in
  let '(fraction, rest) :=
    match rest with
    | String "." after => take_digits after
    | _ => ([], rest)
    end in
  match whole ++ fraction with
  | [] => None
  | ds => (fun e => (ds, e - Z.of_nat (length fraction))) <$> exponent_part rest
  end.

(** The integer that the numeral [ds * 10 ^ e] denotes, if its binary64
    value is one.  A numeral of [d] digits is below [10 ^ (d + e)] and,
    unless it is zero, at least [10 ^ e]: past [10 ^ 310] it overflows to
    [Infinity], and below [10 ^ (-330)] it rounds to zero. *)
Definition integer_of_decimal (ds : list Z) (e : Z) : option Z :=
  let m := digits_value 10 ds in
  if m =? 0 then Some 0
  else if 310 <? e then None
  else if Z.of_nat (length ds) + e <? -330 then Some 0
  else if 0 <=? e then integer_of_quotient (m * 10 ^ e) 1
  else integer_of_quotient m (10 ^ (- e)).

Definition StringToNumber (s : string) : option Z :=
  match trim s with
  | EmptyString => Some 0
  | text =>
      match radix_literal text with
      | Some n => if n =? 0 then Some 0 else integer_of_quotient n 1
      | None =>
          let '(negative, unsigned) :=
            match text with
            | String "+" rest => (false, rest)
            | String "-" rest => (true, rest)
            | _ => (false, text)
            end in
          match decimal_literal unsigned with
          | Some (ds, e) =>
              (fun n => if negative : bool then - n else n)
                <$> integer_of_decimal ds e
          | None => None
          end
      end
  end.

Definition ToNumber (v : value) : completion (option Z) :=
  match v with
  | VUndefined => Normal None
  | VNull => Normal (Some 0)
  | VBool b => Normal (Some (if b then 1 else 0))
  | VNum n => Normal (Some n)
  | VStr s => Normal (StringToNumber s)
  | VArr _ | VObj _ | VNative _ =>
      cbind (ToString v) (fun s => Normal (StringToNumber s))
  end.

Definition is_object (v : value) : bool :=
  match v with
  | VArr _ | VObj _ | VNative _ => true
  | _ => false
  end.

(** [a == b].  Two objects are equal only when they are the same
    reference; the comparisons of the sources never have a reference to the
    same object on both sides. *)
Definition loose_eq (a b : value) : completion bool :=
  if orb (nullish a) (nullish b) then Normal (andb (nullish a) (nullish b))
  else if andb (is_object a) (is_object b) then Normal false
  else
    match a, b with
    | VStr s, VStr t => Normal (String.eqb s t)
    | VStr s, (VArr _ | VObj _ | VNative _) =>
        cbind (ToString b) (fun t => Normal (String.eqb s t))
    | (VArr _ | VObj _ | VNative _), VStr t =>
        cbind (ToString a) (fun s => Normal (String.eqb s t))
    | _, _ =>
        cbind (ToNumber a) (fun x =>
        cbind (ToNumber b) (fun y =>
        Normal match x, y with
               | Some x, Some y => x =? y
               | _, _ => false
               end))
    end.

(** *** Array methods with a callback that may throw *)

Fixpoint filterM (p : value -> completion bool) (l : list value)
  : completion (list value) :=
  match l with
  | [] => Normal []
  | x :: rest =>
      match p x with
      | Throw e => Throw e
      | Normal b =>
          match filterM p rest with
          | Throw e => Throw e
          | Normal kept => Normal (if b then x :: kept else kept)
          end
      end
  end.

(** The error of a call whose callee is not a function; the message
    names the callee as the source writes it, [filteredDocs.filter]
    say. *)
Definition not_a_function (callee : string) : exn :=
  TypeError (callee +:+ " is not a function").

(** [v.filter(p)]. *)
Definition array_filter (callee : string) (p : value -> completion bool)
    (v : value) : completion value :=
  match v with
  | VArr items =>
      match filterM p items with
      | Normal kept => Normal (VArr kept)
      | Throw e => Throw e
      end
  | VUndefined | VNull => Get v "filter"
  | _ => Throw (not_a_function callee)
  end.

Fixpoint findM (p : value -> completion bool) (l : list value)
  : completion value :=
  match l with
  | [] => Normal VUndefined
  | x :: rest =>
      match p x with
      | Throw e => Throw e
      | Normal true => Normal x
      | Normal false => findM p rest
      end
  end.

(** [v.find(p)]. *)
Definition array_find (callee : string) (p : value -> completion bool)
    (v : value) : completion value :=
  match v with
  | VArr items => findM p items
  | VUndefined | VNull => Get v "find"
  | _ => Throw (not_a_function callee)
  end.

Section StringMethods.

Context {engine : Engine}.

(** [v.toLowerCase()]: only a string has the method. *)
Definition call_toLowerCase (callee : string) (v : value) : completion string :=
  match v with
  | VStr s => Normal (toLowerCase s)
  | VUndefined | VNull => cbind (Get v "toLowerCase") (fun _ => Normal "")
  | _ => Throw (not_a_function callee)
  end.

End StringMethods.

End JS.

Import JS.

Notation "x <~ c ;; k" := (cbind c (fun x => k))
  (at level 100, c at next level, right associativity, only parsing).


(** ** Formatting helpers shared by the modules

    [getStatusText] and [formatFileSize] are repeated verbatim in
    TableRenderer, DocumentDetails and FileHandler; the modules below bind
    the shared embedding under each of the source names. *)

Module Format.

(** The object literal [statusMap]. *)
Definition statusMap : list (string * value) :=
  [ ("pendiente", VStr "Pendiente");
    ("procesando", VStr "Procesando");
    ("procesado", VStr "Procesado");
    ("error", VStr "Error");
    ("pending", VStr "Pendiente");
    ("processing", VStr "Procesando");
    ("completed", VStr "Completado") ].

(** [return statusMap[status] || status]. *)
Definition getStatusText (status : value) : completion value :=
  key <~ ToString status ;;
  Normal (or_else (get_member statusMap key) status).

(** [Math.floor(Math.log(n) / Math.log(k))] for an integer [n >= 1], read
    over the reals: the number of times [n] can be divided by [k] before it
    drops below [k], that is the largest [i] with [k ^ i <= n]. *)
Fixpoint floor_log_aux (fuel : nat) (k n : Z) : Z :=
  match fuel with
  | O => 0
  | S fuel' => if n <? k then 0 else 1 + floor_log_aux fuel' k (n / k)
  end.

Definition floor_log (k n : Z) : Z :=
  floor_log_aux (S (Z.to_nat (Z.log2 n))) k n.

(** [parseFloat(x.toFixed(2))] printed, for [x] given by its number of
    hundredths: the two decimals of [toFixed] without trailing zeros. *)
Definition hundredths_text (h : Z) : string :=
  let whole := h / 100 in
  let frac := h mod 100 in
  if frac =? 0 then pretty whole
  else if frac mod 10 =? 0 then pretty whole +:+ "." +:+ pretty (frac / 10)
  else pretty whole +:+ "." +:+ (if frac <? 10 then "0" else "") +:+ pretty frac.

(** [x.toFixed(2)] for [x = num / den], as a number of hundredths: the
    nearest one, the larger of two equally near. *)
Definition toFixed2_hundredths (num den : Z) : Z :=
  (200 * num + den) / (2 * den).

Definition sizes : list value := [VStr "B"; VStr "KB"; VStr "MB"; VStr "GB"].

(** [sizes[i]]. *)
Definition sizes_at (i : Z) : value :=
  if i <? 0 then VUndefined else default VUndefined (sizes !! Z.to_nat i).

(** [sizes[i]] printed: the unit, or [undefined] past the end. *)
Definition unit_text (i : Z) : string :=
  match sizes_at i with
  | VStr s => s
  | _ => "undefined"
  end.

(** On a number that is not positive the logarithm is [NaN] or
    [-Infinity], and so are the quotient and the index. *)
Definition formatFileSize (bytes : value) : completion string :=
  if negb (truthy bytes) then Normal "0 B"
  else
    let k := 1024 in
    number <~ ToNumber bytes ;;
    Normal
      match number with
      | Some b =>
          if 0 <? b then
            let i := floor_log k b in
            hundredths_text (toFixed2_hundredths b (k ^ i))
              +:+ " " +:+ unit_text i
          else "NaN undefined"
      | None => "NaN undefined"
      end.

End Format.

Import Format.

(** ** The page and the handler objects *)

Module Page.

(** What a handler puts inside an element.  Dates go through the host's
    [toLocaleDateString] and the two renderings below through code that
    rounds in binary floating point or prints JSON; they are kept as the
    call and its argument. *)
Inductive text :=
| Text (s : string)
| LocaleDate (dateString : value) (long : bool)
| Abbreviated (num : value)
| JsonText (v : value).

Record row := {
  row_name : string;
  row_date : text;
  row_status_class : string;
  row_status_text : string;
  row_size : string;
  row_id : string;
  row_drive : option string
}.

Inductive node :=
| Markup (html : string)
| TextNode (s : string)
| MessageDiv (className : string) (textContent : string)
| SystemMessage (name : string)
| Toast (className : string) (message : string)
| EmptyState
| DocumentRow (r : row).

Record element := {
  el_value : string;
  el_disabled : bool;
  el_placeholder : string;
  el_classes : list string;
  el_content : list node
}.

(** [document.createElement]. *)
Definition createElement : element :=
  {| el_value := ""; el_disabled := false; el_placeholder := "";
     el_classes := []; el_content := [] |}.

Definition set_value (s : string) (e : element) : element :=
  {| el_value := s; el_disabled := el_disabled e;
     el_placeholder := el_placeholder e; el_classes := el_classes e;
     el_content := el_content e |}.

Definition set_disabled (b : bool) (e : element) : element :=
  {| el_value := el_value e; el_disabled := b;
     el_placeholder := el_placeholder e; el_classes := el_classes e;
     el_content := el_content e |}.

Definition set_placeholder (s : string) (e : element) : element :=
  {| el_value := el_value e; el_disabled := el_disabled e;
     el_placeholder := s; el_classes := el_classes e;
     el_content := el_content e |}.

Definition set_classes (l : list string) (e : element) : element :=
  {| el_value := el_value e; el_disabled := el_disabled e;
     el_placeholder := el_placeholder e; el_classes := l;
     el_content := el_content e |}.

Definition set_content (l : list node) (e : element) : element :=
  {| el_value := el_value e; el_disabled := el_disabled e;
     el_placeholder := el_placeholder e; el_classes := el_classes e;
     el_content := l |}.

Definition appendChild (n : node) (e : element) : element :=
  set_content (el_content e ++ [n]) e.

Definition classList_add (c : string) (e : element) : element :=
  if existsb (String.eqb c) (el_classes e) then e
  else set_classes (el_classes e ++ [c]) e.

Definition classList_remove (c : string) (e : element) : element :=
  set_classes (List.filter (fun c' => negb (String.eqb c c')) (el_classes e)) e.

Record File := {
  file_name : string;
  file_type : string;
  file_size : Z
}.

Inductive request_body :=
| NoBody
| JsonBody (v : value)
| FormData (entries : list (string * File)).

Record request := {
  url : string;
  method : string;
  headers : list (string * string);
  body : request_body
}.

(** What comes back from a [fetch] followed by [response.json()]:
    the promise of [fetch] rejects, or a response arrives whose body is
    JSON ([Some]) or is not ([None], and [json()] rejects). *)
Inductive fetch_outcome :=
| NetworkError
| Response (ok : bool) (status : Z) (json : option value).

(** The fields of the [PdfHandler] instance, with the two that
    [FileHandler] keeps on it. *)
Record PdfHandlerState := {
  documents : value;
  selectedDocument : value;
  currentFilter : string;
  tableRenderer : bool;
  documentDetails : bool;
  selectedFile : option File;
  isUploading : bool
}.

Record World := {
  pdfHandler : PdfHandlerState;
  currentDocumentId : value;
  window_pdfHandler : bool;
  window_chatHandler : bool;
  page : gmap string element;
  alerts : list string;
  requests : list request;
  console : list string
}.

(** [new PdfHandler()] before [init] runs. *)
Definition new_PdfHandler : PdfHandlerState :=
  {| documents := VArr []; selectedDocument := VNull;
     currentFilter := "todos"; tableRenderer := false;
     documentDetails := false; selectedFile := None; isUploading := false |}.

Definition set_documents (v : value) (p : PdfHandlerState) :=
  {| documents := v; selectedDocument := selectedDocument p;
     currentFilter := currentFilter p; tableRenderer := tableRenderer p;
     documentDetails := documentDetails p; selectedFile := selectedFile p;
     isUploading := isUploading p |}.

Definition set_selectedDocument (v : value) (p : PdfHandlerState) :=
  {| documents := documents p; selectedDocument := v;
     currentFilter := currentFilter p; tableRenderer := tableRenderer p;
     documentDetails := documentDetails p; selectedFile := selectedFile p;
     isUploading := isUploading p |}.

Definition set_currentFilter (f : string) (p : PdfHandlerState) :=
  {| documents := documents p; selectedDocument := selectedDocument p;
     currentFilter := f; tableRenderer := tableRenderer p;
     documentDetails := documentDetails p; selectedFile := selectedFile p;
     isUploading := isUploading p |}.

Definition set_selectedFile (f : option File) (p : PdfHandlerState) :=
  {| documents := documents p; selectedDocument := selectedDocument p;
     currentFilter := currentFilter p; tableRenderer := tableRenderer p;
     documentDetails := documentDetails p; selectedFile := f;
     isUploading := isUploading p |}.

Definition set_isUploading (b : bool) (p : PdfHandlerState) :=
  {| documents := documents p; selectedDocument := selectedDocument p;
     currentFilter := currentFilter p; tableRenderer := tableRenderer p;
     documentDetails := documentDetails p; selectedFile := selectedFile p;
     isUploading := b |}.

Definition with_pdfHandler (f : PdfHandlerState -> PdfHandlerState) (w : World) :=
  {| pdfHandler := f (pdfHandler w); currentDocumentId := currentDocumentId w;
     window_pdfHandler := window_pdfHandler w;
     window_chatHandler := window_chatHandler w; page := page w;
     alerts := alerts w; requests := requests w; console := console w |}.

Definition with_currentDocumentId (v : value) (w : World) :=
  {| pdfHandler := pdfHandler w; currentDocumentId := v;
     window_pdfHandler := window_pdfHandler w;
     window_chatHandler := window_chatHandler w; page := page w;
     alerts := alerts w; requests := requests w; console := console w |}.

Definition with_page (f : gmap string element -> gmap string element) (w : World) :=
  {| pdfHandler := pdfHandler w; currentDocumentId := currentDocumentId w;
     window_pdfHandler := window_pdfHandler w;
     window_chatHandler := window_chatHandler w; page := f (page w);
     alerts := alerts w; requests := requests w; console := console w |}.

Definition with_alert (msg : string) (w : World) :=
  {| pdfHandler := pdfHandler w; currentDocumentId := currentDocumentId w;
     window_pdfHandler := window_pdfHandler w;
     window_chatHandler := window_chatHandler w; page := page w;
     alerts := alerts w ++ [msg]; requests := requests w;
     console := console w |}.

Definition with_request (r : request) (w : World) :=
  {| pdfHandler := pdfHandler w; currentDocumentId := currentDocumentId w;
     window_pdfHandler := window_pdfHandler w;
     window_chatHandler := window_chatHandler w; page := page w;
     alerts := alerts w; requests := requests w ++ [r];
     console := console w |}.

Definition with_console (msg : string) (w : World) :=
  {| pdfHandler := pdfHandler w; currentDocumentId := currentDocumentId w;
     window_pdfHandler := window_pdfHandler w;
     window_chatHandler := window_chatHandler w; page := page w;
     alerts := alerts w; requests := requests w;
     console := console w ++ [msg] |}.

(** *** Handlers as state transformers that may throw *)

Definition M (A : Type) : Type := World -> World * completion A.

Definition ret {A} (a : A) : M A := fun w => (w, Normal a).

Definition bind {A B} (m : M A) (k : A -> M B) : M B :=
  fun w =>
    match m w with
    | (w', Normal a) => k a w'
    | (w', Throw e) => (w', Throw e)
    end.

Definition throw {A} (e : exn) : M A := fun w => (w, Throw e).

Definition lift {A} (c : completion A) : M A := fun w => (w, c).

Definition gets {A} (f : World -> A) : M A := fun w => (w, Normal (f w)).

Definition modify (f : World -> World) : M unit := fun w => (f w, Normal tt).

(** [try { m } catch (e) { h e }]. *)
Definition try_catch {A} (m : M A) (h : exn -> M A) : M A :=
  fun w =>
    match m w with
    | (w', Throw e) => h e w'
    | done => done
    end.

(** [try { m } finally { f }]. *)
Definition try_finally {A} (m : M A) (f : M unit) : M A :=
  fun w =>
    match m w with
    | (w', r) =>
        match f w' with
        | (w'', Normal _) => (w'', r)
        | (w'', Throw e) => (w'', Throw e)
        end
    end.

Definition when (b : bool) (m : M unit) : M unit := if b then m else ret tt.

(** [document.getElementById(id)] (or [querySelector]) followed by the
    guarded update [if (el) { ... }]. *)
Definition getElementById (id : string) : M (option element) :=
  gets (fun w => page w !! id).

Definition update_if_present (id : string) (f : element -> element) : M unit :=
  modify (with_page (alter f id)).

(** The same lookup followed by an unguarded update: a [TypeError] when the
    element is missing, with the message [missing] that the engine gives to
    the access that fails. *)
Definition update (id missing : string) (f : element -> element) : M unit :=
  fun w =>
    match page w !! id with
    | Some _ => (with_page (alter f id) w, Normal tt)
    | None => (w, Throw (TypeError missing))
    end.

(** Replacing one element of the page. *)
Definition set_element (id : string) (e : element) (w : World) : World :=
  with_page (insert id e) w.

Definition alert (msg : string) : M unit := modify (with_alert msg).

Definition console_error (msg : string) : M unit := modify (with_console msg).

(** [fetch(url, {method, body})]: the request leaves the page. *)
Definition fetch (r : request) : M unit := modify (with_request r).

(** A handler that maintains a property of the state, also when it
    throws. *)
Definition maintains {A} (P : World -> Prop) (m : M A) : Prop :=
  forall w, P w -> P (m w).1.

(** A handler that leaves the fields of the PdfHandler alone. *)
Definition keeps_pdfHandler {A} (m : M A) : Prop :=
  forall w, pdfHandler (m w).1 = pdfHandler w.

End Page.

Import Page.

Declare Scope js_scope.
Delimit Scope js_scope with js.
Notation "x <- m ;; k" := (bind m (fun x => k))
  (at level 100, m at next level, right associativity, only parsing) : js_scope.
Notation "m ;; k" := (bind m (fun _ => k))
  (at level 100, right associativity, only parsing) : js_scope.

(** A rejected [fetch] and a body that [response.json()] cannot parse. *)
Definition failed_to_fetch : exn := TypeError "Failed to fetch".
Definition invalid_json : exn := SyntaxError "Unexpected token in JSON".

Definition dquote : string := String (ascii_of_nat 34) EmptyString.

(** ** chatHandler.js *)

Module ChatHandler.

Open Scope js_scope.

Definition clearMessages : M unit :=
  update_if_present "chatMessages" (set_content []).

Definition enableChat (documentId : value) : M unit :=
  modify (with_currentDocumentId documentId) ;;
  update_if_present "chatInput"
    (fun e => set_placeholder "Escribe tu pregunta sobre el documento..."
                (set_disabled false e)) ;;
  update_if_present "sendChatBtn" (set_disabled false) ;;
  update_if_present "chat-status"
    (set_content [Markup "<p>Documento seleccionado. ¡Puedes hacer preguntas!</p>"]) ;;
  clearMessages.

Definition disableChat : M unit :=
  modify (with_currentDocumentId VNull) ;;
  update_if_present "chatInput"
    (fun e => set_value ""
                (set_placeholder "Selecciona un documento para hacer preguntas..."
                   (set_disabled true e))) ;;
  update_if_present "sendChatBtn" (set_disabled true) ;;
  update_if_present "chat-status"
    (set_content
       [Markup "<p>Selecciona un documento de la tabla para comenzar a chatear</p>"]) ;;
  clearMessages.

(** [scrollToBottom] only moves the scroll position of the list, which the
    page model does not record. *)
Definition addMessage (text : value) (sender : string) : M unit :=
  chatMessages <- getElementById "chatMessages" ;;
  match chatMessages with
  | None => ret tt
  | Some _ =>
      textContent <- lift (textContent_of text) ;;
      update_if_present "chatMessages"
        (appendChild (MessageDiv ("message " +:+ sender) textContent))
  end.

Definition setLoading (loading : bool) : M unit :=
  update_if_present "sendChatBtn"
    (fun e => set_content [TextNode (if loading then "Enviando..." else "Enviar")]
                (set_disabled loading e)) ;;
  update_if_present "chatInput" (set_disabled loading).

Definition chat_request (message : string) (documentId : value) : request :=
  {| url := "/chat/message";
     method := "POST";
     headers := [("Content-Type", "application/json")];
     body := JsonBody (VObj [("message", VStr message);
                             ("document_id", documentId)]) |}.

(** [sendMessage] up to [await fetch(...)]: the request on which the call
    is suspended, or [None] when it returned before sending one. *)
Definition sendMessage_start : M (option request) :=
  chatInput <- getElementById "chatInput" ;;
  match chatInput with
  | None => throw (TypeError "Cannot read properties of null (reading 'value')")
  | Some input =>
      let message := trim (el_value input) in
      if String.eqb message "" then
        alert "Escribe una pregunta" ;; ret None
      else
        documentId <- gets currentDocumentId ;;
        if negb (truthy documentId) then
          alert "Selecciona un documento primero" ;; ret None
        else
          addMessage (VStr message) "user" ;;
          update_if_present "chatInput" (set_value "") ;;
          setLoading true ;;
          fetch (chat_request message documentId) ;;
          ret (Some (chat_request message documentId))
  end.

(** The [try] block of [sendMessage] from the point where the outcome of
    the request is known. *)
Definition sendMessage_try (o : fetch_outcome) : M unit :=
  match o with
  | NetworkError => throw failed_to_fetch
  | Response _ _ None => throw invalid_json
  | Response ok _ (Some data) =>
      answered <-
        (if ok then r <- lift (Get data "response") ;; ret (truthy r)
         else ret false) ;;
      if answered : bool then
        r <- lift (Get data "response") ;;
        addMessage r "assistant"
      else
        e <- lift (Get data "error") ;;
        reason <- lift (ToString
                          (or_else e (VStr "No se pudo procesar la pregunta"))) ;;
        addMessage (VStr ("Error: " +:+ reason)) "assistant"
  end.

Definition sendMessage_resume (o : fetch_outcome) : M unit :=
  try_finally
    (try_catch (sendMessage_try o)
       (fun _ => addMessage (VStr "Error de conexión") "assistant"))
    (setLoading false).

End ChatHandler.

(** ** modules/TableRenderer.js *)

Module TableRenderer.

Open Scope js_scope.

Section Methods.

Context {engine : Engine}.

Definition getStatusText : value -> completion value := Format.getStatusText.

Definition formatFileSize : value -> completion string := Format.formatFileSize.

(** [div.textContent = text; return div.innerHTML]: the text as the
    serialisation of HTML escapes it, which replaces the ampersand, the two
    angle brackets and the no-break space (the bytes [0xC2 0xA0]). *)
Fixpoint escapeHtml (text : string) : string :=
  match text with
  | EmptyString => EmptyString
  | String c rest =>
      if Ascii.eqb c "&" then "&amp;" +:+ escapeHtml rest
      else if Ascii.eqb c "<" then "&lt;" +:+ escapeHtml rest
      else if Ascii.eqb c ">" then "&gt;" +:+ escapeHtml rest
      else
        match rest with
        | String c' rest' =>
            if Ascii.eqb c (byte 0xC2) && Ascii.eqb c' (byte 0xA0)
            then "&nbsp;" +:+ escapeHtml rest'
            else String c (escapeHtml rest)
        | EmptyString => String c EmptyString
        end
  end.

(** [new Date(dateString).toLocaleDateString('es-ES')]: the constructor
    converts its argument to a primitive. *)
Definition formatDate (dateString : value) : completion text :=
  if negb (truthy dateString) then Normal (Text "N/A")
  else _ <~ ToPrimitive dateString ;; Normal (LocaleDate dateString false).

Definition tbody : string := "#documentsTable tbody".

Definition showEmptyState : M unit :=
  update_if_present tbody (set_content [EmptyState]).

(** The status filter: [doc.estado_procesamiento === currentFilter]. *)
Definition status_matches (currentFilter : string) (doc : value)
  : completion bool :=
  estado <~ Get doc "estado_procesamiento" ;;
  Normal (strict_eq_str estado currentFilter).

(** One disjunct of the search:
    [(doc.field || '').toLowerCase().includes(query)]. *)
Definition field_includes (doc : value) (field query : string)
  : completion bool :=
  v <~ Get doc field ;;
  lowered <~ call_toLowerCase
               ("(doc." +:+ field +:+ " || " +:+ dquote +:+ dquote +:+ ").toLowerCase")
               (or_else v (VStr "")) ;;
  Normal (includes lowered query).

Definition query_matches (query : string) (doc : value) : completion bool :=
  by_name <~ field_includes doc "nombre_pdf" query ;;
  if by_name : bool then Normal true
  else
    by_filename <~ field_includes doc "filename" query ;;
    if by_filename : bool then Normal true
    else field_includes doc "dominio_origen" query.

(** The cells of the row template. *)
Definition render_row (doc : value) : completion row :=
  nombre_pdf <~ Get doc "nombre_pdf" ;;
  filename <~ Get doc "filename" ;;
  fecha <~ Get doc "fecha_hora_recepcion" ;;
  estado <~ Get doc "estado_procesamiento" ;;
  tamano <~ Get doc "tamano_archivo" ;;
  id <~ Get doc "id" ;;
  drive <~ Get doc "url_google_drive" ;;
  name <~ ToString (or_else nombre_pdf (or_else filename (VStr "Sin nombre"))) ;;
  status_class <~ ToString estado ;;
  status <~ getStatusText estado ;;
  status_text <~ ToString status ;;
  size <~ formatFileSize tamano ;;
  date <~ formatDate fecha ;;
  id_text <~ ToString id ;;
  drive_url <~ (if truthy drive
                then url <~ ToString drive ;; Normal (Some url)
                else Normal None) ;;
  Normal
    {| row_name := escapeHtml name;
       row_date := date;
       row_status_class := "status-" +:+ status_class;
       row_status_text := status_text;
       row_size := size;
       row_id := id_text;
       row_drive := drive_url |}.

Fixpoint forEachM (f : value -> M unit) (l : list value) : M unit :=
  match l with
  | [] => ret tt
  | x :: rest => f x ;; forEachM f rest
  end.

(** [v.forEach(f)]. *)
Definition array_forEach (callee : string) (f : value -> M unit) (v : value)
  : M unit :=
  match v with
  | VArr items => forEachM f items
  | VUndefined | VNull => lift (Get v "forEach") ;; ret tt
  | _ => throw (not_a_function callee)
  end.

Definition renderTable (documents : value) (currentFilter searchQuery : string)
  : M unit :=
  body <- getElementById tbody ;;
  match body with
  | None => ret tt
  | Some _ =>
      filteredDocs <-
        (if negb (String.eqb currentFilter "todos")
         then lift (array_filter "filteredDocs.filter"
                      (status_matches currentFilter) documents)
         else ret documents) ;;
      filteredDocs <-
        (if negb (String.eqb (trim searchQuery) "")
         then lift (array_filter "filteredDocs.filter"
                      (query_matches (toLowerCase searchQuery)) filteredDocs)
         else ret filteredDocs) ;;
      update_if_present tbody (set_content []) ;;
      len <- lift (Get filteredDocs "length") ;;
      if strict_eq_num len 0 then showEmptyState
      else
        array_forEach "filteredDocs.forEach"
          (fun doc =>
             r <- lift (render_row doc) ;;
             update_if_present tbody (appendChild (DocumentRow r)))
          filteredDocs
  end.

End Methods.

End TableRenderer.

(** ** modules/PdfHandler.js *)

Module PdfHandler.

Open Scope js_scope.

Section Methods.

Context {engine : Engine}.

(** The toast removes itself after five seconds; the page model keeps what
    was appended. *)
Definition showMessage (message type : string) : M unit :=
  update "messageContainer" "Cannot read properties of null (reading 'appendChild')"
    (appendChild (Toast ("message " +:+ type) message)).

Definition renderTable (searchQuery : string) : M unit :=
  this <- gets pdfHandler ;;
  when (tableRenderer this)
    (TableRenderer.renderTable (documents this) (currentFilter this) searchQuery).

Definition filterDocuments : M unit := renderTable "".

Definition searchDocuments (query : string) : M unit := renderTable query.

Definition documents_request : request :=
  {| url := "/api/documents"; method := "GET"; headers := []; body := NoBody |}.

Definition loadDocuments_start : M (option request) :=
  fetch documents_request ;; ret (Some documents_request).

Definition loadDocuments_try (o : fetch_outcome) : M unit :=
  match o with
  | NetworkError => throw failed_to_fetch
  | Response ok status json =>
      if negb ok then throw (Error ("HTTP error! status: " +:+ pretty status))
      else
        match json with
        | None => throw invalid_json
        | Some data =>
            inner <- lift (Get data "data") ;;
            modify (with_pdfHandler
                      (set_documents
                         (or_else (Get_optional inner "documentos") (VArr [])))) ;;
            renderTable "" ;;
            this <- gets pdfHandler ;;
            chat <- gets window_chatHandler ;;
            when (andb (negb (truthy (selectedDocument this))) chat)
              ChatHandler.disableChat
        end
  end.

Definition loadDocuments_resume (o : fetch_outcome) : M unit :=
  try_catch (loadDocuments_try o)
    (fun error =>
       console_error ("Error loading documents: " +:+ exn_message error) ;;
       showMessage ("Error al cargar documentos: " +:+ exn_message error) "error").

Definition selectDocument (docId : value) : M unit :=
  this <- gets pdfHandler ;;
  doc <- lift (array_find "this.documents.find"
                 (fun d => id <~ Get d "id" ;; loose_eq id docId)
                 (documents this)) ;;
  if negb (truthy doc) then alert "Documento no encontrado"
  else
    modify (with_pdfHandler (set_selectedDocument doc)) ;;
    nombre_pdf <- lift (Get doc "nombre_pdf") ;;
    filename <- lift (Get doc "filename") ;;
    chatTitle <- getElementById "#chatSection h3" ;;
    when (bool_decide (is_Some chatTitle))
      (title <- lift (ToString (or_else nombre_pdf
                                  (or_else filename (VStr "Sin nombre")))) ;;
       update_if_present "#chatSection h3"
         (set_content [TextNode ("Chat con Documento: " +:+ title)])) ;;
    chatMessages <- getElementById "chatMessages" ;;
    when (bool_decide (is_Some chatMessages))
      (name <- lift (ToString (or_else nombre_pdf filename)) ;;
       update_if_present "chatMessages" (set_content [SystemMessage name])) ;;
    chat <- gets window_chatHandler ;;
    when chat (ChatHandler.enableChat docId) ;;
    name <- lift (ToString (or_else nombre_pdf filename)) ;;
    showMessage ("Documento " +:+ dquote +:+ name +:+ dquote
                 +:+ " seleccionado para chat") "success".

(** The listeners that [bindEvents] registers on [filterSelect] and on
    [searchInput], applied to [e.target.value]. *)
Definition filterSelect_change (chosen : string) : M unit :=
  modify (with_pdfHandler (set_currentFilter chosen)) ;;
  filterDocuments.

Definition searchInput_input (typed : string) : M unit := searchDocuments typed.

(** [deleteDocument] asks for confirmation in a dialog and deletes from the
    callback that the dialog runs on its confirm button.  The dialog
    ([showConfirmModal]) works on inline styles and on listeners, which the
    page model does not record; what follows is the question that the
    dialog is given and the callback, split at its [await]. *)
Definition deleteDocument_question (docId : value) : M string :=
  this <- gets pdfHandler ;;
  doc <- lift (array_find "this.documents.find"
                 (fun d => id <~ Get d "id" ;; loose_eq id docId)
                 (documents this)) ;;
  docName <-
    (if truthy doc then
       nombre_pdf <- lift (Get doc "nombre_pdf") ;;
       filename <- lift (Get doc "filename") ;;
       ret (or_else nombre_pdf (or_else filename (VStr "documento")))
     else ret (VStr "documento")) ;;
  name <- lift (ToString docName) ;;
  ret ("¿Estás seguro de que quieres eliminar " +:+ dquote +:+ name +:+ dquote
       +:+ "?").

Definition delete_request (docId : string) : request :=
  {| url := "/api/documents/" +:+ docId; method := "DELETE"; headers := [];
     body := NoBody |}.

(** The [catch] branch of the callback. *)
Definition deleteDocument_failed (error : exn) : M unit :=
  console_error ("Error deleting document: " +:+ exn_message error) ;;
  showMessage ("Error al eliminar documento: " +:+ exn_message error) "error".

Definition deleteDocument_start (docId : value) : M (option request) :=
  try_catch
    (id <- lift (ToString docId) ;;
     fetch (delete_request id) ;;
     ret (Some (delete_request id)))
    (fun error => deleteDocument_failed error ;; ret None).

(** The body of the reply is not read. *)
Definition deleteDocument_try (docId : value) (o : fetch_outcome) : M unit :=
  match o with
  | NetworkError => throw failed_to_fetch
  | Response ok status _ =>
      if negb ok then throw (Error ("HTTP error! status: " +:+ pretty status))
      else
        showMessage "Documento eliminado correctamente" "success" ;;
        this <- gets pdfHandler ;;
        selected <-
          (if truthy (selectedDocument this)
           then id <- lift (Get (selectedDocument this) "id") ;;
                lift (loose_eq id docId)
           else ret false) ;;
        when selected
          (modify (with_pdfHandler (set_selectedDocument VNull)) ;;
           chat <- gets window_chatHandler ;;
           when chat ChatHandler.disableChat) ;;
        loadDocuments_start ;;
        ret tt
  end.

Definition deleteDocument_resume (docId : value) (o : fetch_outcome) : M unit :=
  try_catch (deleteDocument_try docId o) deleteDocument_failed.

End Methods.

End PdfHandler.

(** ** modules/DocumentDetails.js *)

Module DocumentDetails.

Inductive section :=
| Grid (heading : string) (rows : list (string * text))
| JsonContent (heading : string) (content : text).

Definition getStatusText : value -> completion value := Format.getStatusText.

Definition formatFileSize : value -> completion string := Format.formatFileSize.

(** [new Date(dateString).toLocaleDateString('es-ES', {...})]. *)
Definition formatDate (dateString : value) : completion text :=
  if negb (truthy dateString) then Normal (Text "N/A")
  else _ <~ ToPrimitive dateString ;; Normal (LocaleDate dateString true).

(** [formatNumber] compares its argument with a number, which converts it,
    and then divides and rounds in floating point. *)
Definition formatNumber (num : value) : completion text :=
  if negb (truthy num) then Normal (Text "0")
  else _ <~ ToNumber num ;; Normal (Abbreviated num).

(** [v.toFixed(2)]: only a number has the method. *)
Definition call_toFixed2 (callee : string) (v : value) : completion value :=
  match v with
  | VNum n => Normal (VStr (fixed2_text n))
  | VUndefined | VNull => Get v "toFixed"
  | _ => Throw (not_a_function callee)
  end.

(** [processingInfo.processing_time?.toFixed(2) || 'N/A'] followed by
    the literal text of the template. *)
Definition processing_time_text (processingInfo : value) : completion string :=
  time <~ Get processingInfo "processing_time" ;;
  fixed <~ (if nullish time then Normal VUndefined
            else call_toFixed2 "processingInfo.processing_time?.toFixed" time) ;;
  shown <~ ToString (or_else fixed (VStr "N/A")) ;;
  Normal (shown +:+ " segundos").

(** [processingInfo.version || 'N/A']. *)
Definition version_text (processingInfo : value) : completion string :=
  version <~ Get processingInfo "version" ;;
  ToString (or_else version (VStr "N/A")).

Definition basic_section (doc : value) : completion section :=
  nombre_pdf <~ Get doc "nombre_pdf" ;;
  filename <~ Get doc "filename" ;;
  name <~ ToString (or_else nombre_pdf (or_else filename (VStr "Sin nombre"))) ;;
  estado <~ Get doc "estado_procesamiento" ;;
  status <~ getStatusText estado ;;
  status_text <~ ToString status ;;
  tamano <~ Get doc "tamano_archivo" ;;
  size <~ formatFileSize tamano ;;
  fecha <~ Get doc "fecha_hora_recepcion" ;;
  date <~ formatDate fecha ;;
  dominio <~ Get doc "dominio_origen" ;;
  origin <~ ToString (or_else dominio (VStr "N/A")) ;;
  Normal (Grid "📄 Información Básica"
            [ ("Nombre:", Text name);
              ("Estado:", Text status_text);
              ("Tamaño:", Text size);
              ("Fecha de recepción:", date);
              ("Dominio origen:", Text origin) ]).

Definition content_section (contentInfo : value) : completion section :=
  total_pages <~ Get contentInfo "total_pages" ;;
  pages <~ ToString total_pages ;;
  total_chars <~ Get contentInfo "total_chars" ;;
  chars <~ formatNumber total_chars ;;
  has_images <~ Get contentInfo "has_images" ;;
  with_text <~ (if truthy has_images
                then images_with_text <~ Get contentInfo "images_with_text" ;;
                     shown <~ ToString images_with_text ;;
                     Normal [("Imágenes con texto:", Text shown)]
                else Normal []) ;;
  has_text <~ Get contentInfo "has_text" ;;
  Normal (Grid "📊 Análisis de Contenido"
            ([ ("Total de páginas:", Text pages);
               ("Caracteres totales:", chars);
               ("Contiene imágenes:", Text (if truthy has_images then "Sí" else "No")) ]
             ++ with_text
             ++ [ ("Contiene texto:", Text (if truthy has_text then "Sí" else "No")) ])).

Definition processing_section (processingInfo : value) : completion section :=
  processed_at <~ Get processingInfo "processed_at" ;;
  date <~ formatDate processed_at ;;
  time <~ processing_time_text processingInfo ;;
  version <~ version_text processingInfo ;;
  Normal (Grid "⚙️ Información de Procesamiento"
            [ ("Fecha de procesamiento:", date);
              ("Tiempo de procesamiento:", Text time);
              ("Versión del procesador:", Text version) ]).

Definition json_section (contenido_json : value) : section :=
  JsonContent "🔍 Contenido JSON Procesado"
    (if truthy contenido_json then JsonText contenido_json
     else Text "No hay contenido procesado disponible para este documento.").

Definition generateDetailContent (doc : value) : completion (list section) :=
  aiInfo <~ Get doc "ai_info" ;;
  contentInfo <~ Get doc "content_info" ;;
  processingInfo <~ Get doc "processing_info" ;;
  basic <~ basic_section doc ;;
  analysis <~ (if truthy contentInfo
               then sec <~ content_section contentInfo ;; Normal [sec]
               else Normal []) ;;
  processing <~ (if truthy processingInfo
                 then sec <~ processing_section processingInfo ;; Normal [sec]
                 else Normal []) ;;
  contenido_json <~ Get doc "contenido_json" ;;
  Normal ([basic] ++ analysis ++ processing ++ [json_section contenido_json]).

(** The modal of the details view: the element [documentDetailsModal] and
    what the element [documentDetailsContent] inside it holds.  The
    constructor creates both ([createModal]), so the methods below find
    them. *)
Record Modal := {
  modal_element : element;
  modal_details : list section
}.

Definition createModal : Modal :=
  {| modal_element := set_classes ["document-modal"] createElement;
     modal_details := [] |}.

Open Scope js_scope.

(** [showDocumentDetails] reads the list of the PdfHandler it was built
    with.  The state of the modal is passed through: a call that throws
    does so before it touches the modal. *)
Definition showDocumentDetails (docId : value) (m : Modal) : M Modal :=
  this <- gets pdfHandler ;;
  doc <- lift (array_find "this.pdfHandler.documents.find"
                 (fun d => id <~ Get d "id" ;; loose_eq id docId)
                 (documents this)) ;;
  if negb (truthy doc) then
    alert "Documento no encontrado" ;; ret m
  else
    details <- lift (generateDetailContent doc) ;;
    ret {| modal_element := classList_add "show" (modal_element m);
           modal_details := details |}.

Definition closeModal (m : Modal) : Modal :=
  {| modal_element := classList_remove "show" (modal_element m);
     modal_details := modal_details m |}.

End DocumentDetails.

(** ** modules/FileHandler.js *)

Module FileHandler.

Open Scope js_scope.

(** The [change] event of the file input [pdfFile], the only element the
    handler is registered on: [event.target] is that input and
    [event.target.files] the files chosen in it. *)
Record change_event := {
  files : list File
}.

(** The message element is created on first use; its [show] class is
    removed again after four seconds, which the page model does not
    follow. *)
Definition showMessage (text : value) (type : string) : M unit :=
  messageEl <- getElementById "uploadMessage" ;;
  when (bool_decide (messageEl = None))
    (modify (with_page (insert "uploadMessage" createElement))) ;;
  textContent <- lift (textContent_of text) ;;
  update_if_present "uploadMessage"
    (fun e => set_classes ["upload-message-compact"; type; "show"]
                (set_content [TextNode textContent] e)).

Definition upload_request (file : File) : request :=
  {| url := "/api/upload-pdf";
     method := "POST";
     headers := [];
     body := FormData [("pdf_file", file)] |}.

Definition uploadFile_start (file : File) : M (option request) :=
  this <- gets pdfHandler ;;
  if isUploading this then ret None
  else
    modify (with_pdfHandler (set_isUploading true)) ;;
    showMessage (VStr "Subiendo archivo...") "info" ;;
    fetch (upload_request file) ;;
    ret (Some (upload_request file)).

Definition uploadFile_try (o : fetch_outcome) : M unit :=
  match o with
  | NetworkError => throw failed_to_fetch
  | Response _ _ None => throw invalid_json
  | Response ok _ (Some result) =>
      if ok then
        showMessage (VStr "Archivo subido exitosamente") "success" ;;
        update "pdfFile" "Cannot set properties of null (setting 'value')"
          (set_value "") ;;
        modify (with_pdfHandler (set_selectedFile None)) ;;
        installed <- gets window_pdfHandler ;;
        when installed (PdfHandler.loadDocuments_start ;; ret tt)
      else
        e <- lift (Get result "error") ;;
        showMessage (or_else e (VStr "Error al subir el archivo")) "error"
  end.

Definition uploadFile_resume (o : fetch_outcome) : M unit :=
  try_finally
    (try_catch (uploadFile_try o)
       (fun _ => console_error "Error:" ;;
                 showMessage (VStr "Error de conexión") "error"))
    (modify (with_pdfHandler (set_isUploading false))).

Definition handleFileSelect (event : change_event) : M (option request) :=
  match files event with
  | [] => ret None
  | file :: _ =>
      if negb (String.eqb (file_type file) "application/pdf") then
        showMessage (VStr "Solo se permiten archivos PDF") "error" ;;
        update_if_present "pdfFile" (set_value "") ;;
        ret None
      else
        modify (with_pdfHandler (set_selectedFile (Some file))) ;;
        uploadFile_start file
  end.

Definition removeFile : M unit :=
  update_if_present "pdfFile" (set_value "") ;;
  update_if_present "fileInfo" (set_content []) ;;
  update_if_present "progressContainer" (classList_remove "show") ;;
  update_if_present "uploadMessage" (classList_remove "show") ;;
  modify (with_pdfHandler (set_selectedFile None)).

Definition showProgress (show : bool) : M unit :=
  if show then
    update_if_present "progressContainer" (classList_add "show") ;;
    update_if_present "submitContainer" (classList_remove "show")
  else
    update_if_present "progressContainer" (classList_remove "show") ;;
    update_if_present "submitContainer" (classList_add "show").

Definition handleUpload_start : M (option request) :=
  this <- gets pdfHandler ;;
  if isUploading this then ret None
  else
    match selectedFile this with
    | None => showMessage (VStr "Selecciona un archivo PDF") "error" ;; ret None
    | Some file =>
        modify (with_pdfHandler (set_isUploading true)) ;;
        showProgress true ;;
        fetch (upload_request file) ;;
        ret (Some (upload_request file))
    end.

Definition handleUpload_try (o : fetch_outcome) : M unit :=
  match o with
  | NetworkError => throw failed_to_fetch
  | Response _ _ None => throw invalid_json
  | Response _ _ (Some data) =>
      success <- lift (Get data "success") ;;
      if truthy success then
        showMessage (VStr "Documento subido exitosamente") "success" ;;
        removeFile ;;
        PdfHandler.loadDocuments_start ;; ret tt
      else
        e <- lift (Get data "error") ;;
        reason <- lift (ToString (or_else e (VStr "No se pudo subir el archivo"))) ;;
        showMessage (VStr ("Error: " +:+ reason)) "error"
  end.

Definition handleUpload_resume (o : fetch_outcome) : M unit :=
  try_finally
    (try_catch (handleUpload_try o)
       (fun _ => console_error "Error:" ;;
                 showMessage (VStr "Error de conexión") "error"))
    (modify (with_pdfHandler (set_isUploading false)) ;; showProgress false).

Definition formatFileSize : value -> completion string := Format.formatFileSize.

(** What can happen to the upload widget: the user chooses files, the
    form is submitted, a pending upload is answered, the chosen file is
    removed. *)
Inductive action :=
| HandleFileSelect (event : change_event)
| UploadFileResume (o : fetch_outcome)
| HandleUpload
| HandleUploadResume (o : fetch_outcome)
| RemoveFile.

Definition perform (w : World) (a : action) : World :=
  match a with
  | HandleFileSelect event => (handleFileSelect event w).1
  | UploadFileResume o => (uploadFile_resume o w).1
  | HandleUpload => (handleUpload_start w).1
  | HandleUploadResume o => (handleUpload_resume o w).1
  | RemoveFile => (removeFile w).1
  end.

Definition is_pdf (file : File) : Prop := file_type file = "application/pdf".

(** Every upload that has left the page carries one PDF under the field
    [pdf_file], and so will the next one that [handleUpload] sends. *)
Definition uploads_are_pdf (w : World) : Prop :=
  (forall file, selectedFile (pdfHandler w) = Some file -> is_pdf file) /\
  (forall r, r ∈ requests w -> url r = "/api/upload-pdf" ->
     method r = "POST" /\
     exists file, body r = FormData [("pdf_file", file)] /\ is_pdf file).

End FileHandler.

(** ** The core behind the REST surface

    The ingestion coordinator, the document store and the chat query
    engine run on the server; the sources at hand are their browser-side
    callers.  The definitions of this module follow sections 3, 4.4, 4.5
    and 4.6 of the specification. *)

Module Core.

(** Modelled from the spec: the [status] field of a Document (section 3),
    whose server-side type is missing. *)
Inductive status := pending | processing | processed | error.

#[global] Instance status_eq_dec : EqDecision status.
Proof. solve_decision. Defined.

(** Modelled from the spec: [content_info] as the content analyzer returns
    it (sections 3 and 4.3). *)
Record ContentInfo := {
  total_pages : Z;
  total_chars : Z;
  has_images : bool;
  has_text : bool;
  images_with_text : Z
}.

(** Modelled from the spec: [processing_info] (section 3). *)
Record ProcessingInfo := {
  processed_at : string;
  processing_time_seconds : Z;
  pipeline_version : string
}.

(** Modelled from the spec: the structured extraction result that becomes
    [content_json] (section 3: raw text per page, keywords, OCR excerpts). *)
Record Extraction := {
  page_texts : list string;
  keywords : list string;
  ocr_excerpts : list string
}.

(** Modelled from the spec: the Document record of section 3, with the
    optional contents held as the JSON that is stored and served. *)
Record Document := {
  id : Z;
  filename : string;
  size_bytes : Z;
  received_at : string;
  origin_domain : option string;
  doc_status : status;
  content_info : option value;
  processing_info : option ProcessingInfo;
  content_json : option value;
  storage_ref : option string
}.

Definition strings (l : list string) : value := VArr (VStr <$> l).

(** Modelled from the spec: the stored form of [content_info], one field
    per entry of the record in section 3. *)
Definition content_info_json (c : ContentInfo) : value :=
  VObj [ ("total_pages", VNum (total_pages c));
         ("total_chars", VNum (total_chars c));
         ("has_images", VBool (has_images c));
         ("has_text", VBool (has_text c));
         ("images_with_text", VNum (images_with_text c)) ].

(** Modelled from the spec: the stored form of the extraction result. *)
Definition content_json_of (x : Extraction) : value :=
  VObj [ ("pages", strings (page_texts x));
         ("keywords", strings (keywords x));
         ("ocr", strings (ocr_excerpts x)) ].

(** Modelled from the spec: "present and non-empty" for an optional JSON
    content (invariant of section 3). *)
Definition present_nonempty (content : option value) : bool :=
  match content with
  | Some (VObj (_ :: _)) => true
  | Some (VArr (_ :: _)) => true
  | Some (VStr s) => negb (String.eqb s "")
  | _ => false
  end.

(** Modelled from the spec: what the ingestion coordinator and the store
    accept (sections 3, 4.4 and 4.5). *)
Inductive event :=
| Upload (new_id : Z) (name : string) (size : Z) (at_time : string)
    (origin : option string)
| Claim (doc_id : Z)
| Complete (doc_id : Z) (info : ContentInfo) (result : Extraction)
    (metrics : ProcessingInfo)
| Fail (doc_id : Z) (metrics : ProcessingInfo) (partial : option value)
| Delete (doc_id : Z).

Definition with_status (s : status) (d : Document) : Document :=
  {| id := id d; filename := filename d; size_bytes := size_bytes d;
     received_at := received_at d; origin_domain := origin_domain d;
     doc_status := s; content_info := content_info d;
     processing_info := processing_info d; content_json := content_json d;
     storage_ref := storage_ref d |}.

Definition with_results (s : status) (info : option value)
    (metrics : ProcessingInfo) (json : option value) (d : Document) : Document :=
  {| id := id d; filename := filename d; size_bytes := size_bytes d;
     received_at := received_at d; origin_domain := origin_domain d;
     doc_status := s; content_info := info;
     processing_info := Some metrics; content_json := json;
     storage_ref := storage_ref d |}.

(** Modelled from the spec: a document is created at upload with status
    [pending] and none of the optional contents (section 3, lifecycle). *)
Definition new_document (new_id : Z) (name : string) (size : Z)
    (at_time : string) (origin : option string) : Document :=
  {| id := new_id; filename := name; size_bytes := size;
     received_at := at_time; origin_domain := origin;
     doc_status := pending; content_info := None; processing_info := None;
     content_json := None; storage_ref := None |}.

(** Modelled from the spec: the transitions of section 4.4 on the store
    of section 4.5.  [None] is a rejected event: an id that is taken or
    unknown, a claim on a document that is not [pending], a completion or
    failure of a run that is not [processing], a deletion during a run
    (section 5). *)
Definition apply_event (e : event) (store : gmap Z Document)
  : option (gmap Z Document) :=
  match e with
  | Upload new_id name size at_time origin =>
      match store !! new_id with
      | Some _ => None
      | None => Some (<[new_id := new_document new_id name size at_time origin]> store)
      end
  | Claim doc_id =>
      d ← store !! doc_id;
      if decide (doc_status d = pending)
      then Some (<[doc_id := with_status processing d]> store)
      else None
  | Complete doc_id info result metrics =>
      d ← store !! doc_id;
      if decide (doc_status d = processing)
      then Some (<[doc_id := with_results processed
                               (Some (content_info_json info)) metrics
                               (Some (content_json_of result)) d]> store)
      else None
  | Fail doc_id metrics partial =>
      d ← store !! doc_id;
      if decide (doc_status d = processing)
      then Some (<[doc_id := with_results error (content_info d) metrics
                               partial d]> store)
      else None
  | Delete doc_id =>
      d ← store !! doc_id;
      if decide (doc_status d = processing) then None
      else Some (delete doc_id store)
  end.

(** Modelled from the spec: a write either fully succeeds or leaves the
    prior record unchanged (section 4.5), so a rejected event leaves the
    store as it was. *)
Definition step (store : gmap Z Document) (e : event) : gmap Z Document :=
  default store (apply_event e store).

Definition run (events : list event) (store : gmap Z Document)
  : gmap Z Document :=
  foldl step store events.

(** Modelled from the spec: the invariant of section 3, a document reads
    as [processed] exactly when both contents are present and non-empty. *)
Definition coherent (d : Document) : Prop :=
  doc_status d = processed <->
  present_nonempty (content_info d) = true /\
  present_nonempty (content_json d) = true.

(** What the transitions maintain: the contents of a processed document
    are in place, and no other document has a [content_info]. *)
Definition settled (d : Document) : Prop :=
  match doc_status d with
  | processed =>
      present_nonempty (content_info d) = true /\
      present_nonempty (content_json d) = true
  | _ => content_info d = None
  end.

(** Modelled from the spec: the stores that the pipeline can produce from
    the empty one by the transitions above. *)
Definition reachable (store : gmap Z Document) : Prop :=
  exists events, run events ∅ = store.

(** Modelled from the spec: the failures of the chat query engine
    (sections 4.6 and 7). *)
Inductive chat_error := DocumentNotReady | GenerationUnavailable.

Definition chat_error_name (e : chat_error) : string :=
  match e with
  | DocumentNotReady => "DocumentNotReady"
  | GenerationUnavailable => "GenerationUnavailable"
  end.

Section ChatQueryEngine.

(** The generation backend: an answer grounded in the given content, or
    nothing when the backend cannot be reached. *)
Variable generate : value -> string -> option string.

(** Modelled from the spec: [answer(document_id, question)] of section
    4.6, whose implementation is on the server.  The precondition is
    [document.status == processed]; otherwise it fails with
    [DocumentNotReady]. *)
Definition answer (store : gmap Z Document) (document_id : Z)
    (question : string) : chat_error + string :=
  match store !! document_id with
  | None => inl DocumentNotReady
  | Some d =>
      if decide (doc_status d = processed) then
        match content_json d with
        | None => inl DocumentNotReady
        | Some content =>
            match generate content question with
            | Some text => inr text
            | None => inl GenerationUnavailable
            end
        end
      else inl DocumentNotReady
  end.

End ChatQueryEngine.

(** Modelled from the spec: the body of the reply to [POST /chat/message]
    (section 6): [{response}] or [{error}]. *)
Definition chat_reply (result : chat_error + string) : value :=
  match result with
  | inr text => VObj [("response", VStr text)]
  | inl e => VObj [("error", VStr (chat_error_name e))]
  end.

End Core.

(** ** The contract of the REST surface, as the client relies on it

    Section 6 of the specification lists the fields of a document as it is
    served by [GET /api/documents].  The definitions below state that
    contract, and what the table is expected to show, in the words of the
    specification, for comparison with the handlers. *)

Module Contract.

Definition optional_string (v : value) : bool :=
  match v with
  | VStr _ | VNull | VUndefined => true
  | _ => false
  end.

Definition optional_number (v : value) : bool :=
  match v with
  | VNum _ | VNull | VUndefined => true
  | _ => false
  end.

Definition identifier (v : value) : bool :=
  match v with
  | VNum _ | VStr _ => true
  | _ => false
  end.

(** A document as served: an object whose [id] is a number or a string,
    whose size is a number and whose other scalar fields are strings, each
    of them possibly missing or [null]. *)
Definition is_document (doc : value) : bool :=
  match doc with
  | VObj fields =>
      identifier (get_member fields "id")
      && optional_string (get_member fields "nombre_pdf")
      && optional_string (get_member fields "filename")
      && optional_string (get_member fields "estado_procesamiento")
      && optional_number (get_member fields "tamano_archivo")
      && optional_string (get_member fields "fecha_hora_recepcion")
      && optional_string (get_member fields "dominio_origen")
      && optional_string (get_member fields "url_google_drive")
  | _ => false
  end.

(** The text of a field, a missing field being the empty string. *)
Definition field_text (doc : value) (field : string) : string :=
  match Get_optional doc field with
  | VStr s => s
  | _ => ""
  end.

Section Table.

Context {engine : Engine}.

(** Whether the table is expected to show a document: the filter is
    [todos] or equals the document's status, and the trimmed query is empty
    or the lowercased query occurs in one of the three searched fields,
    lowercased. *)
Definition row_expected (currentFilter searchQuery : string) (doc : value)
  : bool :=
  (String.eqb currentFilter "todos"
   || strict_eq_str (Get_optional doc "estado_procesamiento") currentFilter)
  && (String.eqb (trim searchQuery) ""
      || includes (toLowerCase (field_text doc "nombre_pdf"))
           (toLowerCase searchQuery)
      || includes (toLowerCase (field_text doc "filename"))
           (toLowerCase searchQuery)
      || includes (toLowerCase (field_text doc "dominio_origen"))
           (toLowerCase searchQuery)).

End Table.

(** The row that the template yields for a document. *)
Definition rendered (doc : value) (n : node) : Prop :=
  exists r, TableRenderer.render_row doc = Normal r /\ n = DocumentRow r.

(** The name under which a document is listed: its [nombre_pdf], without
    one its [filename], and without either [Sin nombre]. *)
Definition display_name (doc : value) : string :=
  if negb (String.eqb (field_text doc "nombre_pdf") "")
  then field_text doc "nombre_pdf"
  else if negb (String.eqb (field_text doc "filename") "")
       then field_text doc "filename"
       else "Sin nombre".

(** A row that belongs to a document: its first cell holds the name of the
    document, escaped, and its buttons carry the document's id. *)
Definition row_of (doc : value) (n : node) : Prop :=
  exists r,
    n = DocumentRow r /\
    row_name r = TableRenderer.escapeHtml (display_name doc) /\
    ToString (Get_optional doc "id") = Normal (row_id r).

(** A chat exchange that ends in an error: the backend cannot be reached,
    the reply is not JSON, the response is not ok, or the reply has no
    [response] to show. *)
Definition chat_failed (o : fetch_outcome) : bool :=
  match o with
  | NetworkError => true
  | Response _ _ None => true
  | Response ok _ (Some data) =>
      negb ok || negb (truthy (Get_optional data "response"))
  end.

Definition spanish_statuses : list string :=
  ["pendiente"; "procesando"; "procesado"; "error"].

Definition legacy_aliases : list string :=
  ["pending"; "processing"; "completed"].

End Contract.

Import Contract.

(** ** Notions used to state what the handlers leave alone *)

Module Frame.

(** [d.id == docId], an id that cannot be read or compared counting as no
    match. *)
Definition has_id (docId d : value) : bool :=
  match (id <~ Get d "id" ;; loose_eq id docId) with
  | Normal b => b
  | Throw _ => false
  end.

(** The state [w'] differs from [w] in the page at most. *)
Definition same_off_page (w w' : World) : Prop :=
  pdfHandler w' = pdfHandler w /\
  currentDocumentId w' = currentDocumentId w /\
  window_pdfHandler w' = window_pdfHandler w /\
  window_chatHandler w' = window_chatHandler w /\
  alerts w' = alerts w /\
  requests w' = requests w /\
  console w' = console w.

(** The content of the table body when it shows the given documents: one
    row for each, in their order, or the empty-state row when there is
    none. *)
Definition shows (shown : list value) (content : list node) : Prop :=
  match shown with
  | [] => content = [EmptyState]
  | _ => Forall2 rendered shown content
  end.

(** The rows that the loop of [renderTable] appends for the given
    documents, and how the loop ends: it stops at the first document whose
    row template throws. *)
Fixpoint rows_of (docs : list value) : list node * completion unit :=
  match docs with
  | [] => ([], Normal tt)
  | d :: rest =>
      match TableRenderer.render_row d with
      | Normal r => (DocumentRow r :: (rows_of rest).1, (rows_of rest).2)
      | Throw e => ([], Throw e)
      end
  end.

(** A text of ASCII characters, the ones with a code below 128. *)
Fixpoint is_ascii_text (s : string) : bool :=
  match s with
  | EmptyString => true
  | String c rest => Nat.ltb (nat_of_ascii c) 128 && is_ascii_text rest
  end.

End Frame.

Import Frame.

(** ** Sample pages and data *)

Module Examples.

(** A page with the elements that the handlers look up. *)
Definition loaded_page : gmap string element :=
  list_to_map
    ((fun id => (id, createElement)) <$>
       [ "chatInput"; "sendChatBtn"; "chat-status"; "chatMessages";
         "#chatSection h3"; "messageContainer"; "#documentsTable tbody";
         "pdfFile" ]).

(** The application once both scripts have run and before any document
    is loaded. *)
Definition loaded_world : World :=
  {| pdfHandler :=
       {| documents := VArr []; selectedDocument := VNull;
          currentFilter := "todos"; tableRenderer := true;
          documentDetails := true; selectedFile := None;
          isUploading := false |};
     currentDocumentId := VNull;
     window_pdfHandler := true;
     window_chatHandler := true;
     page := loaded_page;
     alerts := [];
     requests := [];
     console := [] |}.

(** The user types into the chat input. *)
Definition typing (text : string) (w : World) : World :=
  with_page (alter (set_value text) "chatInput") w.

Definition informe : value :=
  VObj [ ("id", VNum 1); ("nombre_pdf", VStr "Informe.pdf");
         ("estado_procesamiento", VStr "pendiente");
         ("tamano_archivo", VNum 1536) ].

Definition acta : value :=
  VObj [ ("id", VNum 2); ("filename", VStr "acta.pdf");
         ("estado_procesamiento", VStr "pending");
         ("dominio_origen", VStr "informes.example") ].

Definition indice : value :=
  VObj [ ("id", VNum 3); ("nombre_pdf", VStr "Índice.pdf");
         ("estado_procesamiento", VStr "procesado");
         ("tamano_archivo", VNum 2048) ].

(** A [processing_info] with the field names of section 3 of the
    specification. *)
Definition info_named_as_specified : value :=
  VObj [ ("processed_at", VStr "2024-05-01T10:00:00");
         ("processing_time_seconds", VNum 12);
         ("pipeline_version", VStr "1.0") ].

(** A [processing_info] with the field names that the details view reads. *)
Definition info_named_as_read : value :=
  VObj [ ("processed_at", VStr "2024-05-01T10:00:00");
         ("processing_time", VNum 12);
         ("version", VStr "1.0") ].

Definition notes_txt : File :=
  {| file_name := "notas.txt"; file_type := "text/plain"; file_size := 120 |}.

Definition informe_pdf : File :=
  {| file_name := "informe.pdf"; file_type := "application/pdf";
     file_size := 1536 |}.

(** The reply to [GET /api/documents] that lists the two documents. *)
Definition listing : value :=
  VObj [("data", VObj [("documentos", VArr [informe; acta])])].

(** A run of the pipeline: two uploads, of which the first is processed
    to the end and the second is still waiting. *)
Definition sample_run : list Core.event :=
  [ Core.Upload 1 "informe.pdf" 1536 "2024-05-01T09:59:00" None;
    Core.Upload 2 "acta.pdf" 2048 "2024-05-01T10:05:00" None;
    Core.Claim 1;
    Core.Complete 1
      {| Core.total_pages := 3; Core.total_chars := 9; Core.has_images := true;
         Core.has_text := true; Core.images_with_text := 1 |}
      {| Core.page_texts := ["Hola"; "Mundo"; ""]; Core.keywords := ["hola"];
         Core.ocr_excerpts := ["Mundo"] |}
      {| Core.processed_at := "2024-05-01T10:00:00";
         Core.processing_time_seconds := 12;
         Core.pipeline_version := "1.0" |} ].

Definition sample_store : gmap Z Core.Document := Core.run sample_run ∅.

(** A case table for the samples: the capital letters of Basic Latin (A
    to Z) and of Latin-1 (U+00C0 to U+00DE, but for the multiplication
    sign U+00D7), each of which every version of the Unicode tables maps to
    the letter 32 places further on.  In UTF-8 a letter of Latin-1 is the
    byte [0xC3] and one more byte. *)
Fixpoint lower_latin1 (s : string) : string :=
  match s with
  | EmptyString => EmptyString
  | String c rest =>
      let n := Z.of_nat (nat_of_ascii c) in
      if (0x41 <=? n) && (n <=? 0x5A) then String (byte (n + 32)) (lower_latin1 rest)
      else
        match rest with
        | String c' rest' =>
            let n' := Z.of_nat (nat_of_ascii c') in
            if (n =? 0xC3) && (0x80 <=? n') && (n' <=? 0x9E) && negb (n' =? 0x97)
            then String c (String (byte (n' + 32)) (lower_latin1 rest'))
            else String c (lower_latin1 rest)
        | EmptyString => String c EmptyString
        end
  end.

Definition latin1 : Engine := {| toLowerCase := lower_latin1 |}.

(** A generation backend that always answers. *)
Definition echo (content : value) (question : string) : option string :=
  Some ("Respuesta a: " +:+ question).

End Examples.

Import Examples.

(** * Properties

    What follows holds for every engine: the case table is a parameter of
    every statement that reaches [toLowerCase]. *)

Section Properties.

Context {engine : Engine}.

(** ** The status labels *)

Lemma getStatusText_table :
  Format.getStatusText (VStr "pendiente") = Normal (VStr "Pendiente") /\
  Format.getStatusText (VStr "procesando") = Normal (VStr "Procesando") /\
  Format.getStatusText (VStr "procesado") = Normal (VStr "Procesado") /\
  Format.getStatusText (VStr "error") = Normal (VStr "Error") /\
  Format.getStatusText (VStr "pending") = Normal (VStr "Pendiente") /\
  Format.getStatusText (VStr "processing") = Normal (VStr "Procesando") /\
  Format.getStatusText (VStr "completed") = Normal (VStr "Completado").
Proof. repeat split; reflexivity. Qed.

(** A string that is neither a key of the table nor the name of an
    inherited property comes back unchanged. *)
Lemma getStatusText_unlisted (s : string) :
  own_property statusMap s = None ->
  Object_prototype s = None ->
  Format.getStatusText (VStr s) = Normal (VStr s).
Proof.
  intros Hown Hproto. unfold Format.getStatusText. simpl.
  unfold get_member. rewrite Hown, Hproto. reflexivity.
Qed.

Lemma getStatusText_unlisted_example :
  Format.getStatusText (VStr "archivado") = Normal (VStr "archivado").
Proof. apply getStatusText_unlisted; reflexivity. Qed.

(** C3, at the input where the code leaves the claim: the string
    [constructor] is not one of the seven statuses, yet the lookup in the
    object literal finds the inherited [Object] function, which is truthy,
    so both copies of [getStatusText] return that function and not the
    input. *)
Theorem getStatusText_inherited_property :
  TableRenderer.getStatusText (VStr "constructor")
    = Normal (VNative (NativeFunction "Object")) /\
  DocumentDetails.getStatusText (VStr "constructor")
    = Normal (VNative (NativeFunction "Object")) /\
  TableRenderer.getStatusText (VStr "constructor")
    <> Normal (VStr "constructor").
Proof. split; [reflexivity | split; [reflexivity | discriminate]]. Qed.

(** ** File sizes *)

Lemma floor_log_aux_spec (fuel : nat) :
  forall k n, 2 <= k -> 1 <= n -> n < 2 ^ Z.of_nat fuel ->
    0 <= floor_log_aux fuel k n /\
    k ^ floor_log_aux fuel k n <= n < k ^ (floor_log_aux fuel k n + 1).
Proof.
  induction fuel as [|fuel IH]; intros k n Hk Hn Hfuel.
  - simpl in Hfuel. lia.
  - cbn [floor_log_aux]. destruct (Z.ltb_spec n k) as [Hlt|Hge].
    + rewrite Z.pow_0_r, Z.pow_1_r. lia.
    + assert (Hq : 1 <= n / k) by (apply Z.div_le_lower_bound; lia).
      assert (Hq2 : n / k < 2 ^ Z.of_nat fuel).
      { apply Z.div_lt_upper_bound; [lia|].
        rewrite Nat2Z.inj_succ, Z.pow_succ_r in Hfuel by lia.
        assert (0 < 2 ^ Z.of_nat fuel) by (apply Z.pow_pos_nonneg; lia). nia. }
      destruct (IH k (n / k) Hk Hq Hq2) as (Hnonneg & Hlow & Hhigh).
      set (j := floor_log_aux fuel k (n / k)) in *.
      split; [lia|].
      replace (1 + j + 1) with (Z.succ (1 + j)) by lia.
      replace (1 + j) with (Z.succ j) by lia.
      rewrite !Z.pow_succ_r by lia.
      replace (Z.succ j) with (j + 1) in * by lia.
      rewrite Z.pow_add_r, Z.pow_1_r in Hhigh by lia.
      pose proof (Z.mul_div_le n k ltac:(lia)).
      pose proof (Z.mul_succ_div_gt n k ltac:(lia)).
      assert (0 < k ^ j) by (apply Z.pow_pos_nonneg; lia).
      nia.
Qed.

Lemma floor_log_spec (k n : Z) :
  2 <= k -> 1 <= n ->
  0 <= floor_log k n /\ k ^ floor_log k n <= n < k ^ (floor_log k n + 1).
Proof.
  intros Hk Hn. unfold floor_log. apply floor_log_aux_spec; [done..|].
  rewrite Nat2Z.inj_succ, Z2Nat.id by apply Z.log2_nonneg.
  apply Z.log2_spec. lia.
Qed.

Lemma floor_log_below (n : Z) :
  1 <= n < 1024 ^ 4 -> 0 <= floor_log 1024 n <= 3.
Proof.
  intros [Hlo Hhi].
  destruct (floor_log_spec 1024 n ltac:(lia) Hlo) as (H0 & Hle & _).
  split; [done|].
  destruct (Z_le_gt_dec 4 (floor_log 1024 n)) as [Hbig|]; [|lia].
  pose proof (Z.pow_le_mono_r 1024 4 (floor_log 1024 n) ltac:(lia) Hbig). lia.
Qed.

Lemma floor_log_above (n : Z) :
  1024 ^ 4 <= n -> 4 <= floor_log 1024 n.
Proof.
  intros Hn.
  destruct (floor_log_spec 1024 n ltac:(lia) ltac:(lia)) as (H0 & _ & Hlt).
  destruct (Z_le_gt_dec 4 (floor_log 1024 n)) as [|Hsmall]; [done|].
  pose proof (Z.pow_le_mono_r 1024 (floor_log 1024 n + 1) 4 ltac:(lia) ltac:(lia)).
  lia.
Qed.

Lemma unit_text_listed (i : Z) :
  0 <= i <= 3 -> unit_text i ∈ ["B"; "KB"; "MB"; "GB"].
Proof.
  intros Hi.
  assert (i = 0 \/ i = 1 \/ i = 2 \/ i = 3) as Hcases by lia. clear Hi.
  destruct Hcases as [-> | [-> | [-> | ->]]]; vm_compute; set_solver.
Qed.

Lemma unit_text_past_the_end (i : Z) : 4 <= i -> unit_text i = "undefined".
Proof.
  intros Hi. unfold unit_text, sizes_at.
  destruct (Z.ltb_spec i 0); [lia|].
  rewrite lookup_ge_None_2; [done|]. simpl. lia.
Qed.

Lemma formatFileSize_positive (n : Z) :
  1 <= n ->
  Format.formatFileSize (VNum n)
  = Normal (hundredths_text (toFixed2_hundredths n (1024 ^ floor_log 1024 n))
            +:+ " " +:+ unit_text (floor_log 1024 n)).
Proof.
  intros Hn. unfold Format.formatFileSize. simpl.
  destruct (Z.eqb_spec n 0); [lia|]. simpl.
  destruct (Z.ltb_spec 0 n); [done|lia].
Qed.

Lemma toFixed2_hundredths_range (n i : Z) :
  0 <= i -> 1024 ^ i <= n < 1024 ^ (i + 1) ->
  100 <= toFixed2_hundredths n (1024 ^ i) <= 102400.
Proof.
  intros Hi [Hlo Hhi]. unfold toFixed2_hundredths.
  rewrite Z.pow_add_r, Z.pow_1_r in Hhi by lia.
  assert (0 < 1024 ^ i) by (apply Z.pow_pos_nonneg; lia).
  split.
  - apply Z.div_le_lower_bound; lia.
  - apply Z.lt_succ_r, Z.div_lt_upper_bound; lia.
Qed.

Lemma formatFileSize_scalar bytes :
  scalar bytes = true -> exists s, Format.formatFileSize bytes = Normal s.
Proof.
  intros Hscalar. unfold Format.formatFileSize.
  destruct (negb (truthy bytes)); [by eexists|].
  destruct bytes as [| |b|n|s|items|fields|[|f]]; try discriminate;
    cbn [ToNumber ToString cbind]; by eexists.
Qed.

(** C10: [formatFileSize] by range of its argument.  It returns a string,
    without throwing, for every argument that is not an object ([null],
    [undefined], a number, a boolean, a string).  A falsy argument gives
    ['0 B']; an integer from 1 up to (not including) 1024^4 gives a number,
    the quotient rounded to hundredths, followed by one of the four units;
    from 1024^4 on the index is past the end of the unit array and the
    text ends in ['undefined']. *)
Theorem formatFileSize_by_range (bytes : value) :
  (scalar bytes = true -> exists s, Format.formatFileSize bytes = Normal s) /\
  (truthy bytes = false -> Format.formatFileSize bytes = Normal "0 B") /\
  (forall n, bytes = VNum n -> 1 <= n < 1024 ^ 4 ->
     exists h unit,
       Format.formatFileSize bytes = Normal (hundredths_text h +:+ " " +:+ unit) /\
       100 <= h <= 102400 /\
       unit ∈ ["B"; "KB"; "MB"; "GB"]) /\
  (forall n, bytes = VNum n -> 1024 ^ 4 <= n ->
     Z.of_nat (length sizes) <= floor_log 1024 n /\
     exists h,
       Format.formatFileSize bytes = Normal (hundredths_text h +:+ " undefined")).
Proof.
  split; [apply formatFileSize_scalar|]. split; [|split].
  - intros Hfalsy. unfold Format.formatFileSize. rewrite Hfalsy. reflexivity.
  - intros n -> Hn.
    pose proof (floor_log_below n Hn) as Hi.
    destruct (floor_log_spec 1024 n ltac:(lia) ltac:(lia)) as (_ & Hpow).
    eexists _, _. split; [apply formatFileSize_positive; lia|].
    split; [apply toFixed2_hundredths_range; lia|].
    by apply unit_text_listed.
  - intros n -> Hn.
    pose proof (floor_log_above n Hn) as Hi.
    split; [simpl; lia|].
    eexists. rewrite formatFileSize_positive by lia.
    by rewrite unit_text_past_the_end.
Qed.

Lemma formatFileSize_by_range_witness :
  truthy (VNum 0) = false /\
  Format.formatFileSize (VNum 0) = Normal "0 B" /\
  1 <= 1536 < 1024 ^ 4 /\
  Format.formatFileSize (VNum 1536) = Normal "1.5 KB".
Proof.
  split; [reflexivity|].
  split; [exact (proj1 (proj2 (formatFileSize_by_range (VNum 0))) eq_refl)|].
  split; [lia|].
  destruct (proj1 (proj2 (proj2 (formatFileSize_by_range (VNum 1536)))) 1536
              eq_refl ltac:(lia)) as (h & unit & Heq & _).
  reflexivity.
Defined.

(** ** Running handlers *)

Lemma update_if_present_Some id f e w :
  page w !! id = Some e ->
  update_if_present id f w = (set_element id (f e) w, Normal tt).
Proof.
  intros Hid. unfold update_if_present, modify, set_element. f_equal.
  destruct w as [p c wp wc pg a r co]; unfold with_page; simpl in *. f_equal.
  apply map_eq. intros j. rewrite lookup_alter, lookup_insert.
  repeat case_decide; subst; try done. by rewrite Hid.
Qed.

Lemma update_if_present_None id f w :
  page w !! id = None -> update_if_present id f w = (w, Normal tt).
Proof.
  intros Hid. unfold update_if_present, modify. f_equal.
  destruct w as [p c wp wc pg a r co]; unfold with_page; simpl in *. f_equal.
  apply map_eq. intros j. rewrite lookup_alter.
  case_decide; subst; try done. by rewrite Hid.
Qed.

Lemma set_element_twice id e1 e2 w :
  set_element id e2 (set_element id e1 w) = set_element id e2 w.
Proof.
  destruct w; unfold set_element, with_page; simpl. f_equal.
  apply insert_insert_eq.
Qed.

Lemma page_set_element id e w : page (set_element id e w) !! id = Some e.
Proof. destruct w; simpl. apply lookup_insert_eq. Qed.

Lemma page_set_element_ne id j e w :
  id <> j -> page (set_element id e w) !! j = page w !! j.
Proof. intros. destruct w; simpl. by apply lookup_insert_ne. Qed.

Lemma set_element_same id e w : page w !! id = Some e -> set_element id e w = w.
Proof.
  intros Hid. destruct w; unfold set_element, with_page; simpl in *. f_equal.
  by apply insert_id.
Qed.

(** ** Conversions that cannot throw *)

Lemma ToString_scalar v : scalar v = true -> exists s, ToString v = Normal s.
Proof.
  destruct v as [| |[]| | | | |[]]; simpl; intros; try discriminate; eauto.
Qed.

Lemma optional_string_scalar v : optional_string v = true -> scalar v = true.
Proof. by destruct v. Qed.

Lemma own_property_elem_of fields k v :
  own_property fields k = Some v -> (k, v) ∈ fields.
Proof.
  induction fields as [|[k' v'] fields IH]; [done|].
  cbn [own_property]. destruct (String.eqb_spec k' k) as [->|_].
  - intros [= ->]. set_solver.
  - intros ?%IH. set_solver.
Qed.

Lemma Object_prototype_scalar k v : Object_prototype k = Some v -> scalar v = true.
Proof.
  unfold Object_prototype.
  destruct (String.eqb k "__proto__"); [by intros [= <-]|].
  destruct (String.eqb k "constructor"); [by intros [= <-]|].
  destruct (existsb _ _); [by intros [= <-]|done].
Qed.

Lemma get_member_statusMap_scalar key : scalar (get_member statusMap key) = true.
Proof.
  unfold get_member.
  destruct (own_property statusMap key) as [v|] eqn:Hown.
  - apply own_property_elem_of in Hown. unfold statusMap in Hown.
    rewrite !elem_of_cons, elem_of_nil in Hown.
    destruct Hown as [[= _ ->]|[[= _ ->]|[[= _ ->]|[[= _ ->]|[[= _ ->]|[[= _ ->]|[[= _ ->]|[]]]]]]]];
      done.
  - destruct (Object_prototype key) as [v|] eqn:Hproto; [|done].
    by apply Object_prototype_scalar in Hproto.
Qed.

(** ** The document table *)

Lemma filterM_pure (p : value -> completion bool) (f : value -> bool) l :
  (forall x, x ∈ l -> p x = Normal (f x)) ->
  filterM p l = Normal (List.filter f l).
Proof.
  induction l as [|x l IH]; intros Hp; [done|].
  simpl. rewrite (Hp x) by set_solver. rewrite IH by set_solver. done.
Qed.

Lemma is_document_fields doc :
  is_document doc = true -> exists fields, doc = VObj fields.
Proof. destruct doc; try discriminate. eauto. Qed.

Lemma status_matches_document currentFilter doc :
  is_document doc = true ->
  TableRenderer.status_matches currentFilter doc
  = Normal (strict_eq_str (Get_optional doc "estado_procesamiento") currentFilter).
Proof. intros (fields & ->)%is_document_fields. reflexivity. Qed.

Lemma field_includes_optional_string fields field query :
  optional_string (get_member fields field) = true ->
  TableRenderer.field_includes (VObj fields) field query
  = Normal (includes (toLowerCase (field_text (VObj fields) field)) query).
Proof.
  unfold TableRenderer.field_includes, field_text, Get_optional. simpl.
  destruct (get_member fields field) as [| | | |s| | |]; try discriminate; intros _;
    try reflexivity.
  unfold or_else. simpl. destruct (String.eqb_spec s ""); subst; reflexivity.
Qed.

Lemma query_matches_document query doc :
  is_document doc = true ->
  TableRenderer.query_matches query doc
  = Normal (includes (toLowerCase (field_text doc "nombre_pdf")) query
            || includes (toLowerCase (field_text doc "filename")) query
            || includes (toLowerCase (field_text doc "dominio_origen")) query).
Proof.
  intros Hdoc. destruct (is_document_fields doc Hdoc) as (fields & ->).
  simpl in Hdoc. repeat (apply andb_prop in Hdoc as [Hdoc ?]).
  unfold TableRenderer.query_matches.
  rewrite !field_includes_optional_string by done. simpl.
  destruct (includes _ query); [done|]. simpl.
  destruct (includes _ query); done.
Qed.

Lemma scalar_or_else a b : scalar a = true -> scalar b = true -> scalar (or_else a b) = true.
Proof. unfold or_else. by destruct (truthy a). Qed.

Lemma getStatusText_scalar v :
  scalar v = true ->
  exists label, Format.getStatusText v = Normal label /\ scalar label = true.
Proof.
  intros Hv. unfold Format.getStatusText.
  destruct (ToString_scalar v Hv) as [key ->]. cbn [cbind].
  eexists. split; [done|]. apply scalar_or_else; [|done].
  apply get_member_statusMap_scalar.
Qed.

Lemma formatFileSize_optional_number v :
  optional_number v = true -> exists s, Format.formatFileSize v = Normal s.
Proof.
  destruct v as [| | |n| | | |]; try discriminate; intros _;
    unfold Format.formatFileSize; simpl; try (by eexists).
  destruct (negb (negb (n =? 0))); by eexists.
Qed.

Lemma formatDate_optional_string v :
  optional_string v = true -> exists t, TableRenderer.formatDate v = Normal t.
Proof.
  destruct v as [| | | |s| | |]; try discriminate; intros _;
    unfold TableRenderer.formatDate; simpl; try (by eexists).
  destruct (negb (negb (String.eqb s ""))); by eexists.
Qed.

(** Uses an equation [c = Normal x] to take one step of a computation. *)
Ltac step_with H :=
  let x := fresh "x" in
  let E := fresh "E" in
  destruct H as [x E]; rewrite E; cbn [cbind].

(** The row template does not throw on a document that meets the
    contract. *)
Lemma render_row_document doc :
  is_document doc = true -> exists r, TableRenderer.render_row doc = Normal r.
Proof.
  intros Hdoc. destruct (is_document_fields doc Hdoc) as (fields & ->).
  simpl in Hdoc. repeat (apply andb_prop in Hdoc as [Hdoc ?]).
  unfold TableRenderer.render_row. cbn [Get cbind].
  step_with (ToString_scalar
               (or_else (get_member fields "nombre_pdf")
                  (or_else (get_member fields "filename") (VStr "Sin nombre")))
               ltac:(auto using scalar_or_else, optional_string_scalar)).
  step_with (ToString_scalar (get_member fields "estado_procesamiento")
               ltac:(auto using optional_string_scalar)).
  destruct (getStatusText_scalar (get_member fields "estado_procesamiento")
              ltac:(auto using optional_string_scalar)) as (label & E1 & Hlabel).
  unfold TableRenderer.getStatusText. rewrite E1. cbn [cbind].
  step_with (ToString_scalar label Hlabel).
  unfold TableRenderer.formatFileSize.
  step_with (formatFileSize_optional_number (get_member fields "tamano_archivo")
               ltac:(done)).
  step_with (formatDate_optional_string
               (get_member fields "fecha_hora_recepcion") ltac:(done)).
  step_with (ToString_scalar (get_member fields "id")
               ltac:(by destruct (get_member fields "id"))).
  destruct (truthy (get_member fields "url_google_drive")).
  - step_with (ToString_scalar (get_member fields "url_google_drive")
                 ltac:(auto using optional_string_scalar)).
    by eexists.
  - cbn [cbind]. by eexists.
Qed.

Lemma forEachM_rows docs :
  forall w body,
    page w !! TableRenderer.tbody = Some body ->
    Forall (fun d => is_document d = true) docs ->
    exists rows,
      Forall2 rendered docs rows /\
      TableRenderer.forEachM
        (fun doc =>
           bind (lift (TableRenderer.render_row doc))
             (fun r => update_if_present TableRenderer.tbody
                         (appendChild (DocumentRow r))))
        docs w
      = (set_element TableRenderer.tbody
           (set_content (el_content body ++ rows) body) w, Normal tt).
Proof.
  induction docs as [|d docs IH]; intros w body Hbody Hdocs.
  - exists []. split; [constructor|]. simpl. unfold ret.
    rewrite app_nil_r. f_equal. symmetry. apply set_element_same.
    rewrite Hbody. by destruct body.
  - apply Forall_cons in Hdocs as [Hd Hdocs].
    destruct (render_row_document d Hd) as [r Hr].
    cbn [TableRenderer.forEachM]. unfold bind at 1. unfold bind at 1.
    unfold lift at 1. rewrite Hr.
    rewrite (update_if_present_Some _ _ body) by done.
    destruct (IH (set_element TableRenderer.tbody (appendChild (DocumentRow r) body) w)
                (appendChild (DocumentRow r) body)
                (page_set_element _ _ _) Hdocs) as (rows & Hrows & ->).
    exists (DocumentRow r :: rows). split.
    + constructor; [by exists r|done].
    + rewrite set_element_twice. simpl. by rewrite <- app_assoc.
Qed.

Lemma filter_filter_andb {A} (f g : A -> bool) l :
  List.filter f (List.filter g l) = List.filter (fun x => g x && f x) l.
Proof.
  induction l as [|x l IH]; [done|]. simpl.
  destruct (g x); simpl; [destruct (f x)|]; by rewrite IH.
Qed.

Lemma filter_ext_Forall {A} (f g : A -> bool) (P : A -> Prop) l :
  Forall P l -> (forall x, P x -> f x = g x) ->
  List.filter f l = List.filter g l.
Proof.
  induction 1 as [|x l Hx _ IH]; intros Hfg; [done|].
  simpl. rewrite (Hfg x Hx), IH; done.
Qed.

Lemma filter_true {A} (l : list A) : List.filter (fun _ => true) l = l.
Proof. induction l; simpl; congruence. Qed.

Lemma Forall_filter_keeps {A} (P : A -> Prop) (f : A -> bool) l :
  Forall P l -> Forall P (List.filter f l).
Proof.
  induction 1 as [|x l Hx _ IH]; [constructor|].
  simpl. destruct (f x); [by constructor|done].
Qed.

Lemma array_filter_documents callee (p : value -> completion bool)
    (f : value -> bool) docs :
  Forall (fun d => is_document d = true) docs ->
  (forall d, is_document d = true -> p d = Normal (f d)) ->
  array_filter callee p (VArr docs) = Normal (VArr (List.filter f docs)).
Proof.
  intros Hdocs Hp. unfold array_filter.
  rewrite (filterM_pure p f); [done|].
  intros d Hd. apply Hp. by eapply (proj1 (Forall_forall _ _) Hdocs).
Qed.

(** A legacy English status never equals a Spanish filter value. *)
Lemma alias_is_not_spanish alias spanish :
  alias ∈ legacy_aliases -> spanish ∈ spanish_statuses ->
  String.eqb alias spanish = false.
Proof.
  unfold legacy_aliases, spanish_statuses.
  rewrite !elem_of_cons, !elem_of_nil.
  intros [->|[->|[->|[]]]] [->|[->|[->|[->|[]]]]]; reflexivity.
Qed.

Lemma set_content_same body : set_content (el_content body) body = body.
Proof. by destruct body. Qed.

Lemma forEachM_rows_of docs :
  forall w body,
    page w !! TableRenderer.tbody = Some body ->
    TableRenderer.forEachM
      (fun doc =>
         bind (lift (TableRenderer.render_row doc))
           (fun r => update_if_present TableRenderer.tbody
                       (appendChild (DocumentRow r))))
      docs w
    = (set_element TableRenderer.tbody
         (set_content (el_content body ++ (rows_of docs).1) body) w,
       (rows_of docs).2).
Proof.
  induction docs as [|d docs IH]; intros w body Hbody.
  - cbn [TableRenderer.forEachM rows_of fst snd]. unfold ret.
    rewrite app_nil_r, set_content_same. f_equal. symmetry.
    by apply set_element_same.
  - cbn [TableRenderer.forEachM rows_of].
    unfold bind at 1. unfold bind at 1. unfold lift at 1.
    destruct (TableRenderer.render_row d) as [r|e].
    + rewrite (update_if_present_Some _ _ body) by done.
      rewrite (IH _ (appendChild (DocumentRow r) body)) by apply page_set_element.
      cbn [fst snd]. rewrite set_element_twice. simpl. by rewrite <- app_assoc.
    + cbn [fst snd]. rewrite app_nil_r, set_content_same. f_equal. symmetry.
      by apply set_element_same.
Qed.

Lemma rows_of_rendered docs :
  (rows_of docs).2 = Normal tt -> Forall2 rendered docs (rows_of docs).1.
Proof.
  induction docs as [|d docs IH]; [constructor|].
  cbn [rows_of]. destruct (TableRenderer.render_row d) as [r|e] eqn:Hrow; [|done].
  cbn [fst snd]. intros Hrest. constructor; [by exists r|by apply IH].
Qed.

(** What a filter that returns has kept. *)
Lemma filterM_sound (p : value -> completion bool) (f : value -> bool) l kept :
  (forall x b, p x = Normal b -> b = f x) ->
  filterM p l = Normal kept -> kept = List.filter f l.
Proof.
  intros Hp. revert kept. induction l as [|x l IH]; intros kept; cbn [filterM].
  - by intros [= <-].
  - destruct (p x) as [b|] eqn:Hx; [|done].
    destruct (filterM p l) as [rest|]; [|done].
    intros [= <-]. cbn [List.filter].
    by rewrite <- (Hp x b Hx), <- (IH rest eq_refl).
Qed.

Lemma Get_optional_value v k x : Get v k = Normal x -> Get_optional v k = x.
Proof. unfold Get_optional. by intros ->. Qed.

(** The tests of the two filters, on any value whatever: when a test
    returns, it returns what the specification says of the value. *)
Lemma status_matches_value currentFilter doc b :
  TableRenderer.status_matches currentFilter doc = Normal b ->
  b = strict_eq_str (Get_optional doc "estado_procesamiento") currentFilter.
Proof.
  unfold TableRenderer.status_matches.
  destruct (Get doc "estado_procesamiento") as [estado|] eqn:Hget; [|done].
  rewrite (Get_optional_value _ _ _ Hget). by intros [= <-].
Qed.

Lemma field_includes_value doc field query b :
  TableRenderer.field_includes doc field query = Normal b ->
  b = includes (toLowerCase (field_text doc field)) query.
Proof.
  unfold TableRenderer.field_includes, field_text.
  destruct (Get doc field) as [v|] eqn:Hget; [|done].
  rewrite (Get_optional_value _ _ _ Hget). cbn [cbind]. unfold or_else.
  destruct v as [| |[]|n|s| | |]; cbn [truthy call_toLowerCase cbind];
    try discriminate; try (by intros [= <-]).
  - destruct (n =? 0); cbn [negb call_toLowerCase cbind];
      [by intros [= <-]|discriminate].
  - destruct (String.eqb_spec s "") as [->|_]; cbn [negb call_toLowerCase cbind];
      by intros [= <-].
Qed.

Lemma query_matches_value query doc b :
  TableRenderer.query_matches query doc = Normal b ->
  b = includes (toLowerCase (field_text doc "nombre_pdf")) query
      || includes (toLowerCase (field_text doc "filename")) query
      || includes (toLowerCase (field_text doc "dominio_origen")) query.
Proof.
  unfold TableRenderer.query_matches.
  destruct (TableRenderer.field_includes doc "nombre_pdf" query)
    as [by_name|] eqn:Hname; [|done].
  apply field_includes_value in Hname as <-. cbn [cbind].
  destruct by_name; [by intros [= <-]|].
  destruct (TableRenderer.field_includes doc "filename" query)
    as [by_filename|] eqn:Hfilename; [|done].
  apply field_includes_value in Hfilename as <-. cbn [cbind].
  destruct by_filename; [by intros [= <-]|].
  by intros ->%field_includes_value.
Qed.

(** The table on a list of documents that meet the contract. *)
Lemma renderTable_documents docs currentFilter searchQuery w body :
  page w !! TableRenderer.tbody = Some body ->
  Forall (fun d => is_document d = true) docs ->
  exists content,
    TableRenderer.renderTable (VArr docs) currentFilter searchQuery w
    = (set_element TableRenderer.tbody (set_content content body) w, Normal tt) /\
    shows (List.filter (row_expected currentFilter searchQuery) docs) content.
Proof.
  intros Hbody Hdocs.
  set (by_status := fun d =>
         String.eqb currentFilter "todos"
         || strict_eq_str (Get_optional d "estado_procesamiento") currentFilter).
  set (by_query := fun d =>
         String.eqb (trim searchQuery) ""
         || includes (toLowerCase (field_text d "nombre_pdf")) (toLowerCase searchQuery)
         || includes (toLowerCase (field_text d "filename")) (toLowerCase searchQuery)
         || includes (toLowerCase (field_text d "dominio_origen")) (toLowerCase searchQuery)).
  assert (List.filter (row_expected currentFilter searchQuery) docs
          = List.filter by_query (List.filter by_status docs)) as ->
    by (by rewrite filter_filter_andb).
  assert (Hstatus :
    (if negb (String.eqb currentFilter "todos")
     then lift (array_filter "filteredDocs.filter"
           (TableRenderer.status_matches currentFilter) (VArr docs))
     else ret (VArr docs)) w
    = (w, Normal (VArr (List.filter by_status docs)))).
  { subst by_status. destruct (String.eqb currentFilter "todos"); simpl.
    - by rewrite filter_true.
    - unfold lift. f_equal.
      apply (array_filter_documents "filteredDocs.filter"); [done|].
      intros d Hd. by apply status_matches_document. }
  assert (Hquery :
    (if negb (String.eqb (trim searchQuery) "")
     then lift (array_filter "filteredDocs.filter"
           (TableRenderer.query_matches (toLowerCase searchQuery))
                  (VArr (List.filter by_status docs)))
     else ret (VArr (List.filter by_status docs))) w
    = (w, Normal (VArr (List.filter by_query (List.filter by_status docs))))).
  { subst by_query. destruct (String.eqb (trim searchQuery) ""); simpl.
    - by rewrite filter_true.
    - unfold lift. f_equal.
      apply (array_filter_documents "filteredDocs.filter");
        [by apply Forall_filter_keeps|].
      intros d Hd. by apply query_matches_document. }
  assert (Hshown : Forall (fun d => is_document d = true)
                     (List.filter by_query (List.filter by_status docs)))
    by (by do 2 apply Forall_filter_keeps).
  set (shown := List.filter by_query (List.filter by_status docs)) in *.
  unfold TableRenderer.renderTable.
  unfold bind at 1. unfold getElementById at 1, gets. rewrite Hbody.
  unfold bind at 1. rewrite Hstatus.
  unfold bind at 1. rewrite Hquery.
  unfold bind at 1. rewrite (update_if_present_Some _ _ body) by done.
  unfold bind at 1. unfold lift at 1.
  change (Get (VArr shown) "length") with (Normal (VNum (Z.of_nat (length shown)))).
  destruct shown as [|d shown].
  - exists [EmptyState]. split; [|done].
    simpl. unfold TableRenderer.showEmptyState.
    rewrite (update_if_present_Some _ _ (set_content [] body))
      by apply page_set_element.
    by rewrite set_element_twice.
  - change (strict_eq_num (VNum (Z.of_nat (length (d :: shown)))) 0) with false.
    cbv iota. unfold TableRenderer.array_forEach.
    destruct (forEachM_rows (d :: shown)
                (set_element TableRenderer.tbody (set_content [] body) w)
                (set_content [] body) (page_set_element _ _ _) Hshown)
      as (rows & Hrows & ->).
    exists rows. split; [|done]. by rewrite set_element_twice.
Qed.

(** The table on any list whatever, once [renderTable] has returned. *)
Lemma renderTable_returned docs currentFilter searchQuery w body w' :
  page w !! TableRenderer.tbody = Some body ->
  TableRenderer.renderTable (VArr docs) currentFilter searchQuery w
  = (w', Normal tt) ->
  exists content,
    w' = set_element TableRenderer.tbody (set_content content body) w /\
    shows (List.filter (row_expected currentFilter searchQuery) docs) content.
Proof.
  intros Hbody Hrun.
  set (by_status := fun d =>
         String.eqb currentFilter "todos"
         || strict_eq_str (Get_optional d "estado_procesamiento") currentFilter).
  set (by_query := fun d =>
         String.eqb (trim searchQuery) ""
         || includes (toLowerCase (field_text d "nombre_pdf")) (toLowerCase searchQuery)
         || includes (toLowerCase (field_text d "filename")) (toLowerCase searchQuery)
         || includes (toLowerCase (field_text d "dominio_origen")) (toLowerCase searchQuery)).
  assert (List.filter (row_expected currentFilter searchQuery) docs
          = List.filter by_query (List.filter by_status docs)) as ->
    by (by rewrite filter_filter_andb).
  unfold TableRenderer.renderTable in Hrun.
  unfold bind at 1 in Hrun. unfold getElementById at 1, gets in Hrun.
  rewrite Hbody in Hrun.
  (* the status filter *)
  unfold bind at 1 in Hrun.
  destruct ((if negb (String.eqb currentFilter "todos")
             then lift (array_filter "filteredDocs.filter"
                   (TableRenderer.status_matches currentFilter)
                          (VArr docs))
             else ret (VArr docs)) w) as [w1 [filtered|e]] eqn:Hstatus;
    [|by injection Hrun].
  assert (w1 = w /\ filtered = VArr (List.filter by_status docs)) as [-> ->].
  { subst by_status. destruct (String.eqb currentFilter "todos"); cbn [negb orb] in *.
    - injection Hstatus as <- <-. by rewrite filter_true.
    - unfold lift, array_filter in Hstatus.
      destruct (filterM _ docs) as [kept|] eqn:Hkept; [|by injection Hstatus].
      injection Hstatus as <- <-. split; [done|]. f_equal.
      apply (filterM_sound _ _ _ _ (status_matches_value currentFilter) Hkept). }
  clear Hstatus.
  (* the search *)
  unfold bind at 1 in Hrun.
  destruct ((if negb (String.eqb (trim searchQuery) "")
             then lift (array_filter "filteredDocs.filter"
                   (TableRenderer.query_matches (toLowerCase searchQuery))
                          (VArr (List.filter by_status docs)))
             else ret (VArr (List.filter by_status docs))) w)
    as [w1 [shown|e]] eqn:Hquery; [|by injection Hrun].
  assert (w1 = w /\ shown = VArr (List.filter by_query (List.filter by_status docs)))
    as [-> ->].
  { subst by_query. destruct (String.eqb (trim searchQuery) ""); cbn [negb orb] in *.
    - injection Hquery as <- <-. by rewrite filter_true.
    - unfold lift, array_filter in Hquery.
      destruct (filterM _ (List.filter by_status docs)) as [kept|] eqn:Hkept;
        [|by injection Hquery].
      injection Hquery as <- <-. split; [done|]. f_equal.
      apply (filterM_sound _ _ _ _
               (query_matches_value (toLowerCase searchQuery)) Hkept). }
  clear Hquery.
  set (shown := List.filter by_query (List.filter by_status docs)) in *.
  (* the body is emptied, then filled *)
  unfold bind at 1 in Hrun.
  rewrite (update_if_present_Some _ _ body) in Hrun by done.
  unfold bind at 1 in Hrun. unfold lift at 1 in Hrun.
  change (Get (VArr shown) "length")
    with (Normal (VNum (Z.of_nat (length shown)))) in Hrun.
  destruct shown as [|d shown].
  - exists [EmptyState]. split; [|done].
    change (strict_eq_num (VNum (Z.of_nat (length (@nil value)))) 0)
      with true in Hrun.
    cbv iota in Hrun. unfold TableRenderer.showEmptyState in Hrun.
    rewrite (update_if_present_Some _ _ (set_content [] body)) in Hrun
      by apply page_set_element.
    injection Hrun as <-. by rewrite set_element_twice.
  - change (strict_eq_num (VNum (Z.of_nat (length (d :: shown)))) 0)
      with false in Hrun.
    cbv iota in Hrun. unfold TableRenderer.array_forEach in Hrun.
    rewrite (forEachM_rows_of (d :: shown) _ (set_content [] body)) in Hrun
      by apply page_set_element.
    injection Hrun as <- Hrows. exists (rows_of (d :: shown)).1.
    split; [by rewrite set_element_twice|].
    by apply rows_of_rendered.
Qed.

(** On a document that meets the contract the name that the row shows is
    the name of the document, and its buttons carry the id. *)
Lemma rendered_row_of doc n :
  is_document doc = true -> rendered doc n -> row_of doc n.
Proof.
  intros Hdoc (r & Hrow & ->).
  destruct (is_document_fields doc Hdoc) as (fields & ->).
  simpl in Hdoc. repeat (apply andb_prop in Hdoc as [Hdoc ?]).
  exists r. split; [done|]. revert Hrow.
  unfold TableRenderer.render_row, display_name, field_text, Get_optional.
  cbn [Get cbind].
  destruct (ToString (or_else (get_member fields "nombre_pdf") _))
    as [name|] eqn:Hname; [|done]. cbn [cbind].
  destruct (ToString (get_member fields "estado_procesamiento"))
    as [status_class|] eqn:Hclass; [|done]. cbn [cbind].
  destruct (TableRenderer.getStatusText _) as [status|]; [|done]. cbn [cbind].
  destruct (ToString status) as [status_text|]; [|done]. cbn [cbind].
  destruct (TableRenderer.formatFileSize _) as [size|]; [|done]. cbn [cbind].
  destruct (TableRenderer.formatDate _) as [date|]; [|done]. cbn [cbind].
  destruct (ToString (get_member fields "id")) as [id_text|] eqn:Hid; [|done].
  cbn [cbind].
  destruct (if truthy _ then _ else _) as [drive|]; [|done]. cbn [cbind].
  intros [= <-]. cbn [row_name row_id].
  split; [|done].
  f_equal. revert Hname. unfold or_else.
  destruct (get_member fields "nombre_pdf") as [| | | |s| | |]; try discriminate;
    destruct (get_member fields "filename") as [| | | |t| | |]; try discriminate;
    cbn [truthy negb ToString];
    repeat match goal with
           | |- context [String.eqb ?x ""] => destruct (String.eqb_spec x "")
           end; cbn [negb ToString]; congruence.
Qed.

Lemma filter_sublist {A} (f : A -> bool) l : sublist (List.filter f l) l.
Proof.
  induction l as [|x l IH]; [constructor|]. cbn [List.filter].
  destruct (f x); by constructor.
Qed.

(** C9: with the table body on the page, [renderTable] replaces the
    content of the body by one row for each document of the list that
    passes the status filter and the search, in the order of the list, or
    by the empty-state row when there is none.  A document passes if and
    only if the filter is [todos] or equals its status, and the trimmed
    query is empty or the lowercased query occurs in its name, file name
    or origin domain, lowercased, a field that is missing counting as the
    empty text; the lowercase forms are those of the engine's
    [toLowerCase], whatever its table.  This holds on every list whatever
    it contains, whenever the call returns; and it returns on every list
    of documents as they are served, where each row shows the name and
    carries the id of its document.  A document whose status is a legacy
    English alias passes no Spanish filter value. *)
Theorem renderTable_rows docs currentFilter searchQuery w body :
  page w !! TableRenderer.tbody = Some body ->
  let expected := List.filter (row_expected currentFilter searchQuery) docs in
  (forall w',
     TableRenderer.renderTable (VArr docs) currentFilter searchQuery w
     = (w', Normal tt) ->
     exists content,
       w' = set_element TableRenderer.tbody (set_content content body) w /\
       match expected with
       | [] => content = [EmptyState]
       | shown => Forall2 rendered shown content
       end) /\
  (Forall (fun d => is_document d = true) docs ->
   exists content,
     TableRenderer.renderTable (VArr docs) currentFilter searchQuery w
     = (set_element TableRenderer.tbody (set_content content body) w, Normal tt) /\
     match expected with
     | [] => content = [EmptyState]
     | shown => Forall2 row_of shown content
     end) /\
  (forall d,
     d ∈ expected <-> d ∈ docs /\ row_expected currentFilter searchQuery d = true) /\
  sublist expected docs /\
  (forall d alias,
     d ∈ docs -> alias ∈ legacy_aliases ->
     currentFilter ∈ spanish_statuses ->
     Get_optional d "estado_procesamiento" = VStr alias ->
     d ∉ expected).
Proof.
  intros Hbody expected. subst expected.
  split; [|split; [|split; [|split]]].
  - intros w' Hrun. by apply (renderTable_returned docs currentFilter searchQuery w).
  - intros Hdocs.
    destruct (renderTable_documents docs currentFilter searchQuery w body Hbody Hdocs)
      as (content & Hrun & Hshows).
    exists content. split; [done|].
    assert (Hkept : Forall (fun d => is_document d = true)
                      (List.filter (row_expected currentFilter searchQuery) docs))
      by by apply Forall_filter_keeps.
    unfold shows in Hshows.
    destruct (List.filter (row_expected currentFilter searchQuery) docs)
      as [|d shown]; [done|].
    revert Hkept Hshows. generalize (d :: shown). clear.
    intros shown Hkept Hshows. revert Hkept.
    induction Hshows as [|doc n shown content Hrow _ IH]; [constructor|].
    intros [Hdoc Hrest]%Forall_cons.
    constructor; [by apply rendered_row_of|by apply IH].
  - intros d. rewrite !list_elem_of_In. apply filter_In.
  - apply filter_sublist.
  - intros d alias Hd Halias Hfilter Hestado Hin.
    apply list_elem_of_In, filter_In in Hin as [_ Hexp].
    unfold row_expected in Hexp. rewrite Hestado in Hexp. simpl in Hexp.
    rewrite (alias_is_not_spanish alias currentFilter) in Hexp by done.
    assert (String.eqb currentFilter "todos" = false) as Htodos.
    { revert Hfilter. unfold spanish_statuses.
      rewrite !elem_of_cons, elem_of_nil.
      intros [->|[->|[->|[->|[]]]]]; reflexivity. }
    rewrite Htodos in Hexp. done.
Qed.

(** ** The chat panel *)

Lemma page_update_if_present_ne id j f w :
  id <> j -> page (update_if_present id f w).1 !! j = page w !! j.
Proof. intros. destruct w; simpl. by apply lookup_alter_ne. Qed.

Lemma page_update_if_present_eq id f w :
  page (update_if_present id f w).1 !! id = f <$> page w !! id.
Proof. destruct w; simpl. apply lookup_alter_eq. Qed.

(** With a string for its text, [addMessage] is the guarded append. *)
Lemma addMessage_string s sender w :
  ChatHandler.addMessage (VStr s) sender w
  = update_if_present "chatMessages"
      (appendChild (MessageDiv ("message " +:+ sender) s)) w.
Proof.
  unfold ChatHandler.addMessage, bind, getElementById, gets.
  destruct (page w !! "chatMessages") eqn:Hpanel; [done|].
  by rewrite update_if_present_None.
Qed.


(** What [sendMessage] does before it waits for the reply, from any state
    of the page that has the chat input. *)
Lemma sendMessage_start_cases w input :
  page w !! "chatInput" = Some input ->
  let message := trim (el_value input) in
  let documentId := currentDocumentId w in
  if String.eqb message "" || negb (truthy documentId) then
    (ChatHandler.sendMessage_start w).2 = Normal None /\
    requests (ChatHandler.sendMessage_start w).1 = requests w
  else
    (ChatHandler.sendMessage_start w).2
    = Normal (Some (ChatHandler.chat_request message documentId)) /\
    requests (ChatHandler.sendMessage_start w).1
    = requests w ++ [ChatHandler.chat_request message documentId].
Proof.
  intros Hinput message documentId. subst message documentId.
  destruct w as [p c wp wc pg a r co]. cbn [page currentDocumentId] in *.
  unfold ChatHandler.sendMessage_start, bind, getElementById, gets.
  cbn [page]. rewrite Hinput.
  destruct (String.eqb (trim (el_value input)) "") eqn:Hmessage;
    [split; reflexivity|].
  cbn [currentDocumentId orb].
  destruct (truthy c) eqn:Hid; [|split; reflexivity].
  cbn [negb]. rewrite addMessage_string. split; reflexivity.
Qed.




(** The [try] block of [sendMessage] on a failed exchange: either it
    reports the error of the reply, or it throws before touching anything. *)
Lemma sendMessage_try_failed o w :
  chat_failed o = true ->
  (exists reason,
     ChatHandler.sendMessage_try o w
     = ChatHandler.addMessage (VStr ("Error: " +:+ reason)) "assistant" w) \/
  (exists e, ChatHandler.sendMessage_try o w = (w, Throw e)).
Proof.
  intros Hfailed.
  destruct o as [|ok status [data|]];
    [right; by eexists| |right; by eexists].
  set (reported :=
         bind (lift (Get data "error"))
           (fun e =>
              bind (lift (ToString
                            (or_else e (VStr "No se pudo procesar la pregunta"))))
                (fun reason =>
                   ChatHandler.addMessage (VStr ("Error: " +:+ reason))
                     "assistant")) w).
  assert (Helse :
    (exists reason,
       reported
       = ChatHandler.addMessage (VStr ("Error: " +:+ reason)) "assistant" w) \/
    (exists e, reported = (w, Throw e))).
  { subst reported. unfold bind, lift.
    destruct (Get data "error") as [e|e]; [|right; by eexists].
    destruct (ToString _) as [reason|e']; [left|right]; by eexists. }
  cbn [chat_failed] in Hfailed. unfold Get_optional in Hfailed.
  destruct ok; cbn [negb orb] in Hfailed.
  - destruct (Get data "response") as [r|e] eqn:Hresponse.
    + apply negb_true_iff in Hfailed.
      assert (ChatHandler.sendMessage_try (Response true status (Some data)) w
              = reported) as ->; [|done].
      subst reported. unfold ChatHandler.sendMessage_try, bind, lift, ret.
      by rewrite Hresponse, Hfailed.
    + right. exists e.
      unfold ChatHandler.sendMessage_try, bind, lift, ret.
      by rewrite Hresponse.
  - assert (ChatHandler.sendMessage_try (Response false status (Some data)) w
            = reported) as ->; done.
Qed.

Lemma addMessage_effect text sender w panel :
  page w !! "chatMessages" = Some panel ->
  ChatHandler.addMessage (VStr text) sender w
  = (set_element "chatMessages"
       (appendChild (MessageDiv ("message " +:+ sender) text) panel) w, Normal tt).
Proof. intros. rewrite addMessage_string. by apply update_if_present_Some. Qed.

Lemma setLoading_effect loading w :
  (ChatHandler.setLoading loading w).2 = Normal tt /\
  pdfHandler (ChatHandler.setLoading loading w).1 = pdfHandler w /\
  currentDocumentId (ChatHandler.setLoading loading w).1 = currentDocumentId w /\
  requests (ChatHandler.setLoading loading w).1 = requests w /\
  page (ChatHandler.setLoading loading w).1 !! "chatMessages"
  = page w !! "chatMessages" /\
  el_disabled <$> page (ChatHandler.setLoading loading w).1 !! "chatInput"
  = (fun _ => loading) <$> page w !! "chatInput" /\
  el_disabled <$> page (ChatHandler.setLoading loading w).1 !! "sendChatBtn"
  = (fun _ => loading) <$> page w !! "sendChatBtn".
Proof.
  destruct w as [p c wp wc pg a r co]. simpl.
  repeat split.
  - by rewrite !lookup_alter_ne.
  - rewrite lookup_alter_eq, lookup_alter_ne by done.
    by destruct (pg !! "chatInput").
  - rewrite lookup_alter_ne, lookup_alter_eq by done.
    by destruct (pg !! "sendChatBtn").
Qed.

(** C7: a chat exchange that ends in an error (the backend is unreachable,
    the reply is not JSON, the response is not ok, or the reply has no
    [response]) appends one assistant message, which reports the error, to
    the message list; it leaves the current document id, the selected
    document, the document list and every other field of the PdfHandler as
    they were; and the input and the send button end up enabled. *)
Theorem sendMessage_failure_frame o w panel :
  chat_failed o = true ->
  page w !! "chatMessages" = Some panel ->
  let w' := (ChatHandler.sendMessage_resume o w).1 in
  (ChatHandler.sendMessage_resume o w).2 = Normal tt /\
  (exists text,
     String.prefix "Error" text = true /\
     page w' !! "chatMessages"
     = Some (appendChild (MessageDiv "message assistant" text) panel)) /\
  currentDocumentId w' = currentDocumentId w /\
  pdfHandler w' = pdfHandler w /\
  requests w' = requests w /\
  el_disabled <$> page w' !! "chatInput" = (fun _ => false) <$> page w !! "chatInput" /\
  el_disabled <$> page w' !! "sendChatBtn"
  = (fun _ => false) <$> page w !! "sendChatBtn".
Proof.
  intros Hfailed Hpanel w'.
  assert (Hreported : exists text,
    String.prefix "Error" text = true /\
    try_catch (ChatHandler.sendMessage_try o)
      (fun _ => ChatHandler.addMessage (VStr "Error de conexión") "assistant") w
    = (set_element "chatMessages"
         (appendChild (MessageDiv "message assistant" text) panel) w, Normal tt)).
  { unfold try_catch.
    destruct (sendMessage_try_failed o w Hfailed) as [[reason ->]|[e ->]].
    - exists ("Error: " +:+ reason). split; [reflexivity|].
      by rewrite (addMessage_effect _ _ _ panel).
    - exists "Error de conexión". split; [reflexivity|].
      by rewrite (addMessage_effect _ _ _ panel). }
  destruct Hreported as (text & Hprefix & Hcatch).
  set (w1 := set_element "chatMessages"
               (appendChild (MessageDiv "message assistant" text) panel) w) in *.
  assert (Hresume : ChatHandler.sendMessage_resume o w
                    = ((ChatHandler.setLoading false w1).1, Normal tt)).
  { unfold ChatHandler.sendMessage_resume, try_finally. rewrite Hcatch.
    destruct (setLoading_effect false w1) as (Hnormal & _).
    destruct (ChatHandler.setLoading false w1) as [w2 r]. simpl in Hnormal.
    by rewrite Hnormal. }
  subst w'. rewrite Hresume. cbn [fst snd].
  destruct (setLoading_effect false w1)
    as (_ & Hpdf & Hid & Hreq & Hmessages & Hinput & Hbutton).
  split; [done|]. split.
  { exists text. split; [done|]. rewrite Hmessages. apply page_set_element. }
  rewrite Hpdf, Hid, Hreq, Hinput, Hbutton.
  subst w1. rewrite !page_set_element_ne by done.
  by destruct w.
Qed.

(** ** Handlers that do not touch the PdfHandler *)

Lemma keeps_ret {A} (a : A) : keeps_pdfHandler (ret a).
Proof. done. Qed.

Lemma keeps_lift {A} (c : completion A) : keeps_pdfHandler (lift c).
Proof. done. Qed.

Lemma keeps_throw {A} e : keeps_pdfHandler (@throw A e).
Proof. done. Qed.

Lemma keeps_gets {A} (f : World -> A) : keeps_pdfHandler (gets f).
Proof. done. Qed.

Lemma keeps_bind {A B} (m : M A) (k : A -> M B) :
  keeps_pdfHandler m -> (forall a, keeps_pdfHandler (k a)) ->
  keeps_pdfHandler (bind m k).
Proof.
  intros Hm Hk w. unfold bind. specialize (Hm w).
  destruct (m w) as [w1 [a|e]]; simpl in *; [|done].
  by rewrite Hk.
Qed.

Lemma keeps_when b (m : M unit) : keeps_pdfHandler m -> keeps_pdfHandler (when b m).
Proof. destruct b; [done|]. intros _. apply keeps_ret. Qed.

Lemma keeps_update_if_present id f : keeps_pdfHandler (update_if_present id f).
Proof. by intros []. Qed.

Lemma keeps_update id missing f : keeps_pdfHandler (update id missing f).
Proof. intros w. unfold update. by destruct (page w !! id); destruct w. Qed.

Lemma keeps_getElementById id : keeps_pdfHandler (getElementById id).
Proof. done. Qed.

Lemma keeps_console_error msg : keeps_pdfHandler (console_error msg).
Proof. by intros []. Qed.

Lemma keeps_with_currentDocumentId v :
  keeps_pdfHandler (modify (with_currentDocumentId v)).
Proof. by intros []. Qed.

Lemma keeps_disableChat : keeps_pdfHandler ChatHandler.disableChat.
Proof.
  unfold ChatHandler.disableChat, ChatHandler.clearMessages.
  apply keeps_bind; [apply keeps_with_currentDocumentId|intros _].
  repeat (apply keeps_bind; [apply keeps_update_if_present|intros _]).
  apply keeps_update_if_present.
Qed.

Lemma keeps_showMessage message type : keeps_pdfHandler (PdfHandler.showMessage message type).
Proof. apply keeps_update. Qed.

Lemma keeps_forEachM f l :
  (forall x, keeps_pdfHandler (f x)) -> keeps_pdfHandler (TableRenderer.forEachM f l).
Proof.
  intros Hf. induction l as [|x l IH]; simpl; [apply keeps_ret|].
  apply keeps_bind; [apply Hf|done].
Qed.

Lemma keeps_array_forEach callee f v :
  (forall x, keeps_pdfHandler (f x)) ->
  keeps_pdfHandler (TableRenderer.array_forEach callee f v).
Proof.
  intros Hf. destruct v; simpl;
    try apply keeps_throw;
    try (apply keeps_bind; [apply keeps_lift|intros _; apply keeps_ret]).
  by apply keeps_forEachM.
Qed.

Lemma keeps_TableRenderer_renderTable docs currentFilter searchQuery :
  keeps_pdfHandler (TableRenderer.renderTable docs currentFilter searchQuery).
Proof.
  unfold TableRenderer.renderTable.
  apply keeps_bind; [apply keeps_getElementById|]. intros [body|]; [|apply keeps_ret].
  apply keeps_bind; [destruct (negb _); [apply keeps_lift|apply keeps_ret]|].
  intros filtered.
  apply keeps_bind; [destruct (negb _); [apply keeps_lift|apply keeps_ret]|].
  intros shown.
  apply keeps_bind; [apply keeps_update_if_present|intros _].
  apply keeps_bind; [apply keeps_lift|intros len].
  destruct (strict_eq_num len 0); [apply keeps_update_if_present|].
  apply keeps_array_forEach. intros doc.
  apply keeps_bind; [apply keeps_lift|intros r]. apply keeps_update_if_present.
Qed.

Lemma keeps_renderTable searchQuery : keeps_pdfHandler (PdfHandler.renderTable searchQuery).
Proof.
  unfold PdfHandler.renderTable. apply keeps_bind; [apply keeps_gets|]. intros this.
  apply keeps_when, keeps_TableRenderer_renderTable.
Qed.

Lemma Get_not_nullish v k : nullish v = false -> Get v k = Normal (Get_optional v k).
Proof. unfold Get_optional. by destruct v. Qed.

(** ** Loading the document list *)

Lemma loadDocuments_handler_keeps error :
  keeps_pdfHandler
    (bind (console_error ("Error loading documents: " +:+ exn_message error))
       (fun _ => PdfHandler.showMessage
                   ("Error al cargar documentos: " +:+ exn_message error) "error")).
Proof. apply keeps_bind; [apply keeps_console_error|]. intros _. apply keeps_showMessage. Qed.

Lemma loadDocuments_try_ok status data w :
  nullish data = false ->
  pdfHandler (PdfHandler.loadDocuments_try (Response true status (Some data)) w).1
  = set_documents
      (or_else (Get_optional (Get_optional data "data") "documentos") (VArr []))
      (pdfHandler w).
Proof.
  intros Hdata. unfold PdfHandler.loadDocuments_try. cbn [negb].
  unfold bind at 1. unfold lift at 1. rewrite (Get_not_nullish data) by done.
  unfold bind at 1. unfold modify at 1.
  set (w1 := with_pdfHandler _ w).
  assert (Hrest : keeps_pdfHandler
            (bind (PdfHandler.renderTable "")
               (fun _ =>
                  bind (gets pdfHandler)
                    (fun this =>
                       bind (gets window_chatHandler)
                         (fun chat =>
                            when (negb (truthy (selectedDocument this)) && chat)
                              ChatHandler.disableChat))))).
  { apply keeps_bind; [apply keeps_renderTable|]. intros _.
    apply keeps_bind; [apply keeps_gets|]. intros this.
    apply keeps_bind; [apply keeps_gets|]. intros chat.
    apply keeps_when, keeps_disableChat. }
  rewrite Hrest. subst w1. by destruct w.
Qed.

(** The catch branch of [loadDocuments], entered from a state [w] that
    has the message container. *)
Lemma loadDocuments_reports error w container :
  page w !! "messageContainer" = Some container ->
  let handled :=
    bind (console_error ("Error loading documents: " +:+ exn_message error))
      (fun _ => PdfHandler.showMessage
                  ("Error al cargar documentos: " +:+ exn_message error) "error") w in
  pdfHandler handled.1 = pdfHandler w /\
  page handled.1 !! "messageContainer"
  = Some (appendChild
            (Toast "message error"
               ("Error al cargar documentos: " +:+ exn_message error)) container).
Proof.
  intros Hcontainer handled. subst handled.
  destruct w as [p c wp wc pg a r co]. cbn [page] in Hcontainer.
  unfold bind, console_error, modify, PdfHandler.showMessage, update. simpl.
  rewrite Hcontainer. simpl. split; [done|].
  by rewrite lookup_alter_eq, Hcontainer.
Qed.

(** An HTTP-ok response whose JSON body is [null] is handled like a
    failed one: the thrown error is reported and the list stays. *)
Lemma null_body_is_reported status w container :
  page w !! "messageContainer" = Some container ->
  let w' := (PdfHandler.loadDocuments_resume (Response true status (Some VNull)) w).1 in
  documents (pdfHandler w') = documents (pdfHandler w) /\
  exists message,
    page w' !! "messageContainer"
    = Some (appendChild
              (Toast "message error" ("Error al cargar documentos: " +:+ message))
              container).
Proof.
  intros Hcontainer w'. subst w'.
  unfold PdfHandler.loadDocuments_resume, try_catch.
  unfold PdfHandler.loadDocuments_try. cbn [negb].
  unfold bind at 1. unfold lift at 1.
  change (Get VNull "data")
    with (@Throw value
            (TypeError "Cannot read properties of null (reading 'data')")).
  cbv iota.
  destruct (loadDocuments_reports
              (TypeError ("Cannot read properties of null (reading 'data')"))
              w container Hcontainer) as [Hpdf Hpage].
  split; [by rewrite Hpdf|]. eexists. exact Hpage.
Qed.

(** C8, amended: for an HTTP-ok response whose JSON body is not [null],
    the document list becomes [data.data.documentos] when that value is
    there and truthy (any array is), and the empty list when [data.data] or
    [documentos] is missing or falsy.  For a response that is not ok an
    error toast with the HTTP status is shown and the list loaded before
    is left as it was. *)
Theorem loadDocuments_resume_documents w :
  (forall status data,
     nullish data = false ->
     documents (pdfHandler
                  (PdfHandler.loadDocuments_resume
                     (Response true status (Some data)) w).1)
     = or_else (Get_optional (Get_optional data "data") "documentos") (VArr [])) /\
  (forall status json container,
     page w !! "messageContainer" = Some container ->
     let w' := (PdfHandler.loadDocuments_resume (Response false status json) w).1 in
     documents (pdfHandler w') = documents (pdfHandler w) /\
     page w' !! "messageContainer"
     = Some (appendChild
               (Toast "message error"
                  ("Error al cargar documentos: HTTP error! status: "
                   +:+ pretty status)) container)).
Proof.
  split.
  - intros status data Hdata.
    pose proof (loadDocuments_try_ok status data w Hdata) as Htry.
    unfold PdfHandler.loadDocuments_resume, try_catch.
    destruct (PdfHandler.loadDocuments_try _ w) as [w1 [[]|error]];
      cbn [fst] in Htry |- *.
    + by rewrite Htry.
    + rewrite loadDocuments_handler_keeps, Htry. done.
  - intros status json container Hcontainer w'. subst w'.
    unfold PdfHandler.loadDocuments_resume, try_catch.
    unfold PdfHandler.loadDocuments_try. cbn [negb]. unfold throw.
    destruct (loadDocuments_reports
                (Error ("HTTP error! status: " +:+ pretty status)) w container
                Hcontainer) as [Hpdf Hpage].
    split; [by rewrite Hpdf|exact Hpage].
Qed.

(** ** Uploads *)

Section Maintains.

Context (P : World -> Prop).

Lemma maintains_ret {A} (a : A) : maintains P (ret a).
Proof. by intros w. Qed.

Lemma maintains_lift {A} (c : completion A) : maintains P (lift c).
Proof. by intros w. Qed.

Lemma maintains_throw {A} e : maintains P (@throw A e).
Proof. by intros w. Qed.

Lemma maintains_gets {A} (f : World -> A) : maintains P (gets f).
Proof. by intros w. Qed.

Lemma maintains_bind {A B} (m : M A) (k : A -> M B) :
  maintains P m -> (forall a, maintains P (k a)) -> maintains P (bind m k).
Proof.
  intros Hm Hk w Hw. unfold bind. specialize (Hm w Hw).
  destruct (m w) as [w1 [a|e]]; simpl in *; [|done].
  by apply Hk.
Qed.

Lemma maintains_try_catch {A} (m : M A) h :
  maintains P m -> (forall e, maintains P (h e)) -> maintains P (try_catch m h).
Proof.
  intros Hm Hh w Hw. unfold try_catch. specialize (Hm w Hw).
  destruct (m w) as [w1 [a|e]]; simpl in *; [done|].
  by apply Hh.
Qed.

Lemma maintains_try_finally {A} (m : M A) f :
  maintains P m -> maintains P f -> maintains P (try_finally m f).
Proof.
  intros Hm Hf w Hw. unfold try_finally. specialize (Hm w Hw).
  destruct (m w) as [w1 r]. specialize (Hf w1 Hm).
  by destruct (f w1) as [w2 [[]|e]].
Qed.

Lemma maintains_when b (m : M unit) : maintains P m -> maintains P (when b m).
Proof. destruct b; [done|]. intros _. apply maintains_ret. Qed.

Lemma maintains_modify f : (forall w, P w -> P (f w)) -> maintains P (modify f).
Proof. intros Hf w Hw. by apply Hf. Qed.

End Maintains.

Lemma uploads_are_pdf_with_page f w :
  FileHandler.uploads_are_pdf w -> FileHandler.uploads_are_pdf (with_page f w).
Proof. by destruct w. Qed.

Lemma uploads_are_pdf_with_console msg w :
  FileHandler.uploads_are_pdf w -> FileHandler.uploads_are_pdf (with_console msg w).
Proof. by destruct w. Qed.

Lemma uploads_are_pdf_isUploading b w :
  FileHandler.uploads_are_pdf w ->
  FileHandler.uploads_are_pdf (with_pdfHandler (set_isUploading b) w).
Proof. by destruct w. Qed.

Lemma uploads_are_pdf_selectedFile file w :
  (forall f, file = Some f -> FileHandler.is_pdf f) ->
  FileHandler.uploads_are_pdf w ->
  FileHandler.uploads_are_pdf (with_pdfHandler (set_selectedFile file) w).
Proof. intros Hfile [_ Hrequests]. destruct w. split; [exact Hfile|exact Hrequests]. Qed.

Lemma uploads_are_pdf_upload file w :
  FileHandler.is_pdf file ->
  FileHandler.uploads_are_pdf w ->
  FileHandler.uploads_are_pdf (with_request (FileHandler.upload_request file) w).
Proof.
  intros Hfile [Hselected Hrequests]. destruct w as [p c wp wc pg a r co].
  split; [exact Hselected|]. cbn [requests with_request] in *.
  intros r' [Hr|Hr]%elem_of_app Hurl; [by apply Hrequests|].
  apply list_elem_of_singleton in Hr as ->. split; [done|]. by exists file.
Qed.

Lemma uploads_are_pdf_documents_request w :
  FileHandler.uploads_are_pdf w ->
  FileHandler.uploads_are_pdf (with_request PdfHandler.documents_request w).
Proof.
  intros [Hselected Hrequests]. destruct w as [p c wp wc pg a r co].
  split; [exact Hselected|]. cbn [requests with_request] in *.
  intros r' [Hr|Hr]%elem_of_app Hurl; [by apply Hrequests|].
  apply list_elem_of_singleton in Hr as ->. discriminate.
Qed.

Lemma maintains_update_if_present id f :
  maintains FileHandler.uploads_are_pdf (update_if_present id f).
Proof. apply maintains_modify. intros w. apply uploads_are_pdf_with_page. Qed.

Lemma maintains_update id missing f :
  maintains FileHandler.uploads_are_pdf (update id missing f).
Proof.
  intros w Hw. unfold update. destruct (page w !! id); [|done].
  by apply uploads_are_pdf_with_page.
Qed.

Lemma maintains_console_error msg :
  maintains FileHandler.uploads_are_pdf (console_error msg).
Proof. apply maintains_modify. intros w. apply uploads_are_pdf_with_console. Qed.

Lemma maintains_showMessage text type :
  maintains FileHandler.uploads_are_pdf (FileHandler.showMessage text type).
Proof.
  unfold FileHandler.showMessage.
  apply maintains_bind; [apply maintains_gets|]. intros messageEl.
  apply maintains_bind;
    [apply maintains_when, maintains_modify; intros w;
     apply uploads_are_pdf_with_page|intros _].
  apply maintains_bind; [apply maintains_lift|intros textContent].
  apply maintains_update_if_present.
Qed.

Lemma maintains_showProgress show :
  maintains FileHandler.uploads_are_pdf (FileHandler.showProgress show).
Proof.
  destruct show; simpl;
    (apply maintains_bind; [|intros _]; apply maintains_update_if_present).
Qed.

Lemma maintains_removeFile : maintains FileHandler.uploads_are_pdf FileHandler.removeFile.
Proof.
  unfold FileHandler.removeFile.
  repeat (apply maintains_bind; [apply maintains_update_if_present|intros _]).
  apply maintains_modify. intros w. by apply uploads_are_pdf_selectedFile.
Qed.

Lemma maintains_loadDocuments_start :
  maintains FileHandler.uploads_are_pdf
    (bind PdfHandler.loadDocuments_start (fun _ => ret tt)).
Proof.
  apply maintains_bind; [|intros _; apply maintains_ret].
  apply maintains_bind; [|intros _; apply maintains_ret].
  apply maintains_modify. intros w. apply uploads_are_pdf_documents_request.
Qed.

Lemma maintains_uploadFile_start file :
  FileHandler.is_pdf file ->
  maintains FileHandler.uploads_are_pdf (FileHandler.uploadFile_start file).
Proof.
  intros Hfile. unfold FileHandler.uploadFile_start.
  apply maintains_bind; [apply maintains_gets|]. intros this.
  destruct (isUploading this); [apply maintains_ret|].
  apply maintains_bind;
    [apply maintains_modify; intros w; apply uploads_are_pdf_isUploading|intros _].
  apply maintains_bind; [apply maintains_showMessage|intros _].
  apply maintains_bind; [|intros _; apply maintains_ret].
  apply maintains_modify. intros w. by apply uploads_are_pdf_upload.
Qed.

Lemma maintains_handler_of_failure :
  maintains FileHandler.uploads_are_pdf
    (bind (console_error "Error:")
       (fun _ => FileHandler.showMessage (VStr "Error de conexión") "error")).
Proof.
  apply maintains_bind; [apply maintains_console_error|intros _].
  apply maintains_showMessage.
Qed.

Lemma maintains_uploadFile_resume o :
  maintains FileHandler.uploads_are_pdf (FileHandler.uploadFile_resume o).
Proof.
  unfold FileHandler.uploadFile_resume.
  apply maintains_try_finally;
    [|apply maintains_modify; intros w; apply uploads_are_pdf_isUploading].
  apply maintains_try_catch; [|intros _; apply maintains_handler_of_failure].
  destruct o as [|ok status [result|]]; try apply maintains_throw.
  cbn [FileHandler.uploadFile_try]. destruct ok.
  - apply maintains_bind; [apply maintains_showMessage|intros _].
    apply maintains_bind; [apply maintains_update|intros _].
    apply maintains_bind;
      [apply maintains_modify; intros w; by apply uploads_are_pdf_selectedFile|intros _].
    apply maintains_bind; [apply maintains_gets|intros installed].
    apply maintains_when, maintains_loadDocuments_start.
  - apply maintains_bind; [apply maintains_lift|intros e].
    apply maintains_showMessage.
Qed.

Lemma maintains_handleUpload_resume o :
  maintains FileHandler.uploads_are_pdf (FileHandler.handleUpload_resume o).
Proof.
  unfold FileHandler.handleUpload_resume.
  apply maintains_try_finally.
  - apply maintains_try_catch; [|intros _; apply maintains_handler_of_failure].
    destruct o as [|ok status [data|]]; try apply maintains_throw.
    cbn [FileHandler.handleUpload_try].
    apply maintains_bind; [apply maintains_lift|intros success].
    destruct (truthy success).
    + apply maintains_bind; [apply maintains_showMessage|intros _].
      apply maintains_bind; [apply maintains_removeFile|intros _].
      apply maintains_loadDocuments_start.
    + apply maintains_bind; [apply maintains_lift|intros e].
      apply maintains_bind; [apply maintains_lift|intros reason].
      apply maintains_showMessage.
  - apply maintains_bind; [|intros _; apply maintains_showProgress].
    apply maintains_modify. intros w. apply uploads_are_pdf_isUploading.
Qed.

Lemma maintains_handleFileSelect event :
  maintains FileHandler.uploads_are_pdf (FileHandler.handleFileSelect event).
Proof.
  unfold FileHandler.handleFileSelect.
  destruct (FileHandler.files event) as [|file rest]; [apply maintains_ret|].
  destruct (String.eqb_spec (file_type file) "application/pdf") as [Hpdf|_];
    cbn [negb].
  - apply maintains_bind; [|intros _; by apply maintains_uploadFile_start].
    apply maintains_modify. intros w. apply uploads_are_pdf_selectedFile.
    by intros f [= <-].
  - apply maintains_bind; [apply maintains_showMessage|intros _].
    apply maintains_bind; [apply maintains_update_if_present|intros _].
    apply maintains_ret.
Qed.

Lemma maintains_handleUpload_start :
  maintains FileHandler.uploads_are_pdf FileHandler.handleUpload_start.
Proof.
  intros w Hw. unfold FileHandler.handleUpload_start.
  unfold bind at 1. unfold gets at 1.
  destruct (isUploading (pdfHandler w)); [done|].
  destruct (selectedFile (pdfHandler w)) as [file|] eqn:Hselected.
  - assert (FileHandler.is_pdf file) as Hfile by by apply Hw.
    clear Hselected. revert w Hw.
    change (maintains FileHandler.uploads_are_pdf
              (bind (modify (with_pdfHandler (set_isUploading true)))
                 (fun _ =>
                    bind (FileHandler.showProgress true)
                      (fun _ =>
                         bind (fetch (FileHandler.upload_request file))
                           (fun _ =>
                              ret (Some (FileHandler.upload_request file))))))).
    apply maintains_bind;
      [apply maintains_modify; intros w; apply uploads_are_pdf_isUploading|intros _].
    apply maintains_bind; [apply maintains_showProgress|intros _].
    apply maintains_bind; [|intros _; apply maintains_ret].
    apply maintains_modify. intros w. by apply uploads_are_pdf_upload.
  - revert Hw. apply maintains_bind; [apply maintains_showMessage|].
    intros _. apply maintains_ret.
Qed.

Lemma perform_maintains a w :
  FileHandler.uploads_are_pdf w -> FileHandler.uploads_are_pdf (FileHandler.perform w a).
Proof.
  destruct a; simpl.
  - apply maintains_handleFileSelect.
  - apply maintains_uploadFile_resume.
  - apply maintains_handleUpload_start.
  - apply maintains_handleUpload_resume.
  - apply maintains_removeFile.
Qed.

(** C5: when the first file chosen in the input is not of type
    [application/pdf], [handleFileSelect] shows the error message, clears
    the file input and returns without a request, and the file is not
    kept as the selected one; a PDF chosen while no upload is running is
    posted to [/api/upload-pdf] under the field [pdf_file]; and whatever
    the widget goes through, every upload that leaves the page carries a
    file of type [application/pdf] under that field. *)
Theorem handleFileSelect_uploads_only_pdf :
  (forall event file rest w,
     FileHandler.files event = file :: rest ->
     file_type file <> "application/pdf" ->
     let w' := (FileHandler.handleFileSelect event w).1 in
     (FileHandler.handleFileSelect event w).2 = Normal None /\
     requests w' = requests w /\
     selectedFile (pdfHandler w') = selectedFile (pdfHandler w) /\
     (exists messageEl,
        page w' !! "uploadMessage" = Some messageEl /\
        el_content messageEl = [TextNode "Solo se permiten archivos PDF"] /\
        el_classes messageEl = ["upload-message-compact"; "error"; "show"]) /\
     el_value <$> page w' !! "pdfFile" = (fun _ => "") <$> page w !! "pdfFile") /\
  (forall event file rest w,
     FileHandler.files event = file :: rest ->
     file_type file = "application/pdf" ->
     isUploading (pdfHandler w) = false ->
     let w' := (FileHandler.handleFileSelect event w).1 in
     (FileHandler.handleFileSelect event w).2
     = Normal (Some (FileHandler.upload_request file)) /\
     requests w' = requests w ++ [FileHandler.upload_request file] /\
     body (FileHandler.upload_request file) = FormData [("pdf_file", file)]) /\
  (forall actions w,
     FileHandler.uploads_are_pdf w ->
     FileHandler.uploads_are_pdf (foldl FileHandler.perform w actions)).
Proof.
  split; [|split].
  - intros event file rest w Hfiles Htype w'. subst w'.
    apply String.eqb_neq in Htype.
    unfold FileHandler.handleFileSelect. rewrite Hfiles, Htype. cbn [negb].
    destruct w as [p c wp wc pg a r co].
    unfold bind, FileHandler.showMessage, getElementById, gets, when, bind,
      update_if_present, modify, ret. cbn [page].
    destruct (pg !! "uploadMessage") as [messageEl|] eqn:HmessageEl.
    + rewrite bool_decide_eq_false_2 by done. cbn.
      repeat split.
      * eexists. rewrite lookup_alter_ne, lookup_alter_eq, HmessageEl by done.
        done.
      * rewrite lookup_alter_eq, lookup_alter_ne by done.
        by destruct (pg !! "pdfFile").
    + rewrite bool_decide_eq_true_2 by done. cbn.
      repeat split.
      * eexists. rewrite lookup_alter_ne, lookup_alter_eq, lookup_insert_eq by done.
        done.
      * rewrite lookup_alter_eq, lookup_alter_ne, lookup_insert_ne by done.
        by destruct (pg !! "pdfFile").
  - intros event file rest w Hfiles Htype Hidle w'. subst w'.
    apply String.eqb_eq in Htype.
    unfold FileHandler.handleFileSelect. rewrite Hfiles, Htype. cbn [negb].
    destruct w as [p c wp wc pg a r co]. cbn [pdfHandler] in Hidle.
    unfold FileHandler.uploadFile_start, FileHandler.showMessage, bind,
      getElementById, gets, when, update_if_present, modify, fetch, ret.
    cbn [with_pdfHandler pdfHandler set_selectedFile isUploading page].
    rewrite Hidle. by case_bool_decide.
  - intros actions. induction actions as [|a actions IH]; intros w Hw; [done|].
    simpl. by apply IH, perform_maintains.
Qed.

(** ** The details view *)

(** C4, at the input where the code leaves the claim: a [processing_info]
    that carries the duration and the version under the names
    [processing_time_seconds] and [pipeline_version] is shown without
    them; the details view prints ['N/A'] for both. *)
Lemma specified_field_names_are_not_read :
  DocumentDetails.processing_section info_named_as_specified
  = Normal (DocumentDetails.Grid "⚙️ Información de Procesamiento"
              [ ("Fecha de procesamiento:",
                 LocaleDate (VStr "2024-05-01T10:00:00") true);
                ("Tiempo de procesamiento:", Text "N/A segundos");
                ("Versión del procesador:", Text "N/A") ]) /\
  DocumentDetails.processing_section info_named_as_read
  = Normal (DocumentDetails.Grid "⚙️ Información de Procesamiento"
              [ ("Fecha de procesamiento:",
                 LocaleDate (VStr "2024-05-01T10:00:00") true);
                ("Tiempo de procesamiento:", Text "12.00 segundos");
                ("Versión del procesador:", Text "1.0") ]).
Proof. split; reflexivity. Qed.

Lemma append_assoc (a b c : string) : (a +:+ b) +:+ c = a +:+ (b +:+ c).
Proof.
  induction a as [|x a IH]; [done|].
  change (String x ((a +:+ b) +:+ c) = String x (a +:+ (b +:+ c))).
  by rewrite IH.
Qed.

Lemma processing_section_by_fields info :
  nullish info = false ->
  DocumentDetails.processing_section info
  = (date <~ DocumentDetails.formatDate (Get_optional info "processed_at") ;;
     fixed <~ (if nullish (Get_optional info "processing_time") then Normal VUndefined
               else DocumentDetails.call_toFixed2
                      "processingInfo.processing_time?.toFixed"
                      (Get_optional info "processing_time")) ;;
     shown <~ ToString (or_else fixed (VStr "N/A")) ;;
     version <~ ToString (or_else (Get_optional info "version") (VStr "N/A")) ;;
     Normal (DocumentDetails.Grid "⚙️ Información de Procesamiento"
               [ ("Fecha de procesamiento:", date);
                 ("Tiempo de procesamiento:", Text (shown +:+ " segundos"));
                 ("Versión del procesador:", Text version) ])).
Proof.
  intros Hinfo.
  unfold DocumentDetails.processing_section, DocumentDetails.processing_time_text,
    DocumentDetails.version_text.
  rewrite !(Get_not_nullish info) by done. cbn [cbind].
  destruct (DocumentDetails.formatDate _) as [date|]; [|done]. cbn [cbind].
  destruct (if nullish _ then _ else _) as [fixed|]; [|done]. cbn [cbind].
  destruct (ToString (or_else fixed _)) as [shown|]; [|done]. cbn [cbind].
  by destruct (ToString (or_else (Get_optional info "version") _)).
Qed.

Lemma append_empty (a b : string) : a +:+ b = "" -> a = "" /\ b = "".
Proof. by destruct a. Qed.

Lemma pretty_N_go_nonempty (x : N) s : s <> "" -> pretty_N_go x s <> "".
Proof.
  revert s. induction (N.lt_wf_0 x) as [x _ IH]; intros s Hs.
  destruct (N.eq_0_gt_0_cases x) as [->|Hpos]; [by rewrite pretty_N_go_0|].
  rewrite pretty_N_go_step by done. apply IH; [by apply N.div_lt|done].
Qed.

Lemma pretty_positive_nonempty (p : positive) : pretty p <> "".
Proof.
  unfold pretty, pretty_positive, pretty, pretty_N.
  rewrite decide_False by done.
  rewrite pretty_N_go_step by done. by apply pretty_N_go_nonempty.
Qed.

Lemma pretty_Z_nonempty (n : Z) : pretty n <> "".
Proof.
  destruct n as [|p|p]; [done|apply pretty_positive_nonempty|].
  unfold pretty, pretty_Z. by intros [[=] _]%append_empty.
Qed.

(** A number never prints as the empty text. *)
Lemma number_text_nonempty n : number_text n <> "".
Proof.
  unfold number_text. destruct (Z.abs n <? 2 ^ 53); [apply pretty_Z_nonempty|].
  intros [_ Hempty]%append_empty. revert Hempty.
  destruct (nearest_binary64 (Z.abs n) 1) as [[m e]|]; [|done].
  destruct (shortest_decimal _ _ _ _ _) as [s j].
  pose proof (pretty_Z_nonempty s) as Hdigits.
  destruct (_ <=? 21).
  - by intros [? _]%append_empty.
  - destruct (pretty s) as [|d [|d' more]]; done.
Qed.

Lemma fixed2_text_nonempty n : fixed2_text n <> "".
Proof.
  unfold fixed2_text. destruct (Z.abs n <? 2 ^ 53).
  - by intros [_ [=]]%append_empty.
  - destruct (nearest_binary64 (Z.abs n) 1) as [[m e]|];
      [|apply number_text_nonempty].
    destruct (_ <? 10 ^ 21); [|apply number_text_nonempty].
    by intros [_ [_ [=]]%append_empty]%append_empty.
Qed.

(** C4, amended: the details view reads the processing date from
    [processing_info.processed_at], the duration from
    [processing_info.processing_time] and the processor version from
    [processing_info.version].  Its processing section is the same for two
    objects that agree on these three fields; for an object that holds a
    date string, a number and a version string under them it shows the
    localized date, the number with two decimals followed by [segundos],
    and the version; and a duration or a version that is missing under
    these names is shown as ['N/A'], whatever else the object carries.
    The two decimals are those of [toFixed]: the digits of the number and
    [.00] for every integer below [2 ^ 53]. *)
Theorem processing_section_reads info :
  nullish info = false ->
  (forall other,
     nullish other = false ->
     Get_optional other "processed_at" = Get_optional info "processed_at" ->
     Get_optional other "processing_time" = Get_optional info "processing_time" ->
     Get_optional other "version" = Get_optional info "version" ->
     DocumentDetails.processing_section other
     = DocumentDetails.processing_section info) /\
  (forall date seconds version,
     Get_optional info "processed_at" = VStr date -> date <> "" ->
     Get_optional info "processing_time" = VNum seconds ->
     Get_optional info "version" = VStr version -> version <> "" ->
     DocumentDetails.processing_section info
     = Normal (DocumentDetails.Grid "⚙️ Información de Procesamiento"
                 [ ("Fecha de procesamiento:", LocaleDate (VStr date) true);
                   ("Tiempo de procesamiento:",
                    Text (fixed2_text seconds +:+ " segundos"));
                   ("Versión del procesador:", Text version) ])) /\
  (nullish (Get_optional info "processing_time") = true ->
   DocumentDetails.processing_time_text info = Normal "N/A segundos") /\
  (nullish (Get_optional info "version") = true ->
   DocumentDetails.version_text info = Normal "N/A") /\
  (forall seconds,
     Z.abs seconds < 2 ^ 53 -> fixed2_text seconds = pretty seconds +:+ ".00").
Proof.
  intros Hinfo. split; [|split; [|split; [|split]]].
  5: { intros seconds Hsafe. unfold fixed2_text.
       destruct (Z.ltb_spec (Z.abs seconds) (2 ^ 53)); [done|lia]. }
  3: { intros Htime. unfold DocumentDetails.processing_time_text.
       rewrite (Get_not_nullish info) by done. cbn [cbind]. by rewrite Htime. }
  3: { intros Hversion. unfold DocumentDetails.version_text.
       rewrite (Get_not_nullish info) by done. cbn [cbind].
       by destruct (Get_optional info "version"). }
  - intros other Hother Hdate Htime Hversion.
    rewrite !processing_section_by_fields by done.
    by rewrite Hdate, Htime, Hversion.
  - intros date seconds version Hdate Hnonempty Htime Hversion Hnamed.
    rewrite processing_section_by_fields by done.
    rewrite Hdate, Htime, Hversion.
    unfold DocumentDetails.formatDate, or_else. cbn [truthy nullish].
    apply String.eqb_neq in Hnonempty, Hnamed. rewrite Hnonempty, Hnamed.
    cbn [negb ToPrimitive cbind DocumentDetails.call_toFixed2 truthy ToString].
    destruct (String.eqb_spec (fixed2_text seconds) "") as [Hempty|_].
    + by destruct (fixed2_text_nonempty seconds).
    + reflexivity.
Qed.

Lemma processing_section_reads_witness :
  nullish info_named_as_read = false /\
  DocumentDetails.processing_section info_named_as_read
  = Normal (DocumentDetails.Grid "⚙️ Información de Procesamiento"
              [ ("Fecha de procesamiento:",
                 LocaleDate (VStr "2024-05-01T10:00:00") true);
                ("Tiempo de procesamiento:", Text (pretty 12 +:+ ".00 segundos"));
                ("Versión del procesador:", Text "1.0") ]).
Proof.
  split; [reflexivity|].
  apply (proj1 (proj2 (processing_section_reads info_named_as_read eq_refl))
           "2024-05-01T10:00:00" 12 "1.0"); (reflexivity || discriminate).
Defined.

(** ** The ingestion state machine and the chat engine *)

Lemma settled_coherent d : Core.settled d -> Core.coherent d.
Proof.
  unfold Core.settled, Core.coherent.
  destruct (Core.doc_status d) eqn:Hstatus; try done;
    intros ->; split; try done; intros [[=] _].
Qed.

Lemma content_info_json_nonempty info :
  Core.present_nonempty (Some (Core.content_info_json info)) = true.
Proof. reflexivity. Qed.

Lemma content_json_of_nonempty result :
  Core.present_nonempty (Some (Core.content_json_of result)) = true.
Proof. reflexivity. Qed.

Lemma step_settled store e :
  map_Forall (fun _ d => Core.settled d) store ->
  map_Forall (fun _ d => Core.settled d) (Core.step store e).
Proof.
  intros Hstore. unfold Core.step.
  destruct (Core.apply_event e store) as [store'|] eqn:Happly; [|done]. simpl.
  destruct e as [new_id name size at_time origin|doc_id|doc_id info result metrics
                |doc_id metrics partial|doc_id]; simpl in Happly.
  - destruct (store !! new_id); [done|]. injection Happly as <-.
    by apply map_Forall_insert_2.
  - destruct (store !! doc_id) as [d|] eqn:Hd; [|done]. simpl in Happly.
    case_decide as Hpending; [|done]. injection Happly as <-.
    apply map_Forall_insert_2; [|done].
    specialize (Hstore doc_id d Hd). unfold Core.settled in *.
    by rewrite Hpending in Hstore.
  - destruct (store !! doc_id) as [d|] eqn:Hd; [|done]. simpl in Happly.
    case_decide; [|done]. injection Happly as <-.
    by apply map_Forall_insert_2.
  - destruct (store !! doc_id) as [d|] eqn:Hd; [|done]. simpl in Happly.
    case_decide as Hprocessing; [|done]. injection Happly as <-.
    apply map_Forall_insert_2; [|done].
    specialize (Hstore doc_id d Hd). unfold Core.settled in *.
    by rewrite Hprocessing in Hstore.
  - destruct (store !! doc_id) as [d|] eqn:Hd; [|done]. simpl in Happly.
    case_decide; [done|]. injection Happly as <-.
    by apply map_Forall_delete.
Qed.

Lemma run_settled events :
  forall store,
    map_Forall (fun _ d => Core.settled d) store ->
    map_Forall (fun _ d => Core.settled d) (Core.run events store).
Proof.
  induction events as [|e events IH]; intros store Hstore; [done|].
  apply IH. by apply step_settled.
Qed.

(** C2: in every store that the pipeline can produce, a document has
    status [processed] if and only if its [content_info] and its
    [content_json] are both present and non-empty; the details view then
    shows the stored content of a processed document, and not the notice
    that there is none. *)
Theorem processed_iff_contents store doc_id d :
  Core.reachable store ->
  store !! doc_id = Some d ->
  (Core.doc_status d = Core.processed <->
   Core.present_nonempty (Core.content_info d) = true /\
   Core.present_nonempty (Core.content_json d) = true) /\
  (Core.doc_status d = Core.processed ->
   exists content,
     Core.content_json d = Some content /\
     DocumentDetails.json_section content
     = DocumentDetails.JsonContent "🔍 Contenido JSON Procesado" (JsonText content)).
Proof.
  intros [events <-] Hd.
  assert (Hsettled : Core.settled d).
  { eapply (run_settled events ∅); [apply map_Forall_empty|exact Hd]. }
  split; [by apply settled_coherent|].
  intros Hprocessed. unfold Core.settled in Hsettled.
  rewrite Hprocessed in Hsettled. destruct Hsettled as [_ Hjson].
  destruct (Core.content_json d) as [content|]; [|done].
  exists content. split; [done|].
  unfold DocumentDetails.json_section.
  replace (truthy content) with true; [done|].
  destruct content as [| | | |s|[]|[]|]; try done.
Qed.

Lemma processed_iff_contents_witness :
  Core.reachable sample_store /\
  (exists d, sample_store !! 1 = Some d /\ Core.doc_status d = Core.processed /\
             Core.present_nonempty (Core.content_info d) = true /\
             Core.present_nonempty (Core.content_json d) = true) /\
  (exists d, sample_store !! 2 = Some d /\ Core.doc_status d = Core.pending /\
             Core.present_nonempty (Core.content_info d) = false).
Proof.
  assert (Hreachable : Core.reachable sample_store) by (by exists sample_run).
  split; [exact Hreachable|]. split.
  - destruct (sample_store !! 1) as [d|] eqn:Hd; [|by vm_compute in Hd].
    exists d.
    destruct (processed_iff_contents sample_store 1 d Hreachable Hd) as [Hiff _].
    assert (Core.doc_status d = Core.processed) as Hstatus
      by (vm_compute in Hd; by injection Hd as <-).
    split; [done|]. split; [done|]. by apply Hiff.
  - destruct (sample_store !! 2) as [d|] eqn:Hd; [|by vm_compute in Hd].
    exists d.
    destruct (processed_iff_contents sample_store 2 d Hreachable Hd) as [Hiff _].
    assert (Core.doc_status d = Core.pending) as Hstatus
      by (vm_compute in Hd; by injection Hd as <-).
    split; [done|]. split; [done|].
    destruct (Core.present_nonempty (Core.content_info d)) eqn:Hinfo; [|done].
    vm_compute in Hd. injection Hd as <-. discriminate.
Defined.

(** The client does not look at the status of a document: selecting a
    pending document enables the chat for it, and the question that follows
    is posted with its id.  Whether the question is answered is decided by
    the reply. *)
Lemma client_forwards_question_about_pending_document :
  let listed := with_pdfHandler (set_documents (VArr [informe; acta])) loaded_world in
  let selected := (PdfHandler.selectDocument (VNum 1) (typing "hola" listed)).1 in
  currentDocumentId selected = VNum 1 /\
  (ChatHandler.sendMessage_start selected).2
  = Normal (Some (ChatHandler.chat_request "hola" (VNum 1))).
Proof. vm_compute. done. Qed.

(** C1: the chat query engine answers a question only for a processed
    document.  For a stored document in any other status [answer] fails
    with [DocumentNotReady] and produces no text, and when that failure
    comes back as the reply to [POST /chat/message] the chat panel shows
    it as an error message and shows no answer. *)
Theorem chat_rejects_unprocessed_document
    (generate : value -> string -> option string) store document_id d question :
  store !! document_id = Some d ->
  Core.doc_status d <> Core.processed ->
  Core.answer generate store document_id question = inl Core.DocumentNotReady /\
  (forall ok status w panel,
     page w !! "chatMessages" = Some panel ->
     page (ChatHandler.sendMessage_resume
             (Response ok status
                (Some (Core.chat_reply
                         (Core.answer generate store document_id question)))) w).1
       !! "chatMessages"
     = Some (appendChild (MessageDiv "message assistant" "Error: DocumentNotReady")
               panel)).
Proof.
  intros Hd Hstatus.
  assert (Hanswer : Core.answer generate store document_id question
                    = inl Core.DocumentNotReady).
  { unfold Core.answer. rewrite Hd. by case_decide. }
  split; [exact Hanswer|].
  intros ok status w panel Hpanel. rewrite Hanswer.
  assert (Htry :
    ChatHandler.sendMessage_try
      (Response ok status (Some (Core.chat_reply (inl Core.DocumentNotReady)))) w
    = ChatHandler.addMessage (VStr "Error: DocumentNotReady") "assistant" w)
    by (destruct ok; reflexivity).
  unfold ChatHandler.sendMessage_resume, try_finally, try_catch.
  rewrite Htry, (addMessage_effect _ _ _ panel Hpanel).
  set (w1 := set_element "chatMessages" _ w).
  destruct (setLoading_effect false w1) as (Hnormal & _ & _ & _ & Hmessages & _).
  destruct (ChatHandler.setLoading false w1) as [w2 r]. cbn [fst snd] in *.
  rewrite Hnormal. cbn [fst]. rewrite Hmessages. apply page_set_element.
Qed.

Lemma chat_rejects_unprocessed_document_witness :
  (exists d, sample_store !! 2 = Some d /\ Core.doc_status d <> Core.processed) /\
  Core.answer echo sample_store 2 "¿Qué dice?" = inl Core.DocumentNotReady /\
  Core.answer echo sample_store 1 "¿Qué dice?" = inr "Respuesta a: ¿Qué dice?".
Proof.
  destruct (sample_store !! 2) as [d|] eqn:Hd; [|by vm_compute in Hd].
  assert (Core.doc_status d <> Core.processed) as Hstatus
    by (vm_compute in Hd; by injection Hd as <-).
  split; [by exists d|]. split.
  - exact (proj1 (chat_rejects_unprocessed_document echo sample_store 2 d
                    "¿Qué dice?" Hd Hstatus)).
  - by vm_compute.
Defined.

Lemma sendMessage_failure_frame_witness :
  chat_failed (Response false 500 (Some (VObj [("error", VStr "sin servicio")]))) = true /\
  page loaded_world !! "chatMessages" = Some createElement /\
  page (ChatHandler.sendMessage_resume
          (Response false 500 (Some (VObj [("error", VStr "sin servicio")])))
          loaded_world).1 !! "chatMessages"
  = Some (appendChild (MessageDiv "message assistant" "Error: sin servicio")
            createElement) /\
  pdfHandler (ChatHandler.sendMessage_resume
                (Response false 500 (Some (VObj [("error", VStr "sin servicio")])))
                loaded_world).1
  = pdfHandler loaded_world.
Proof.
  split; [reflexivity|]. split; [reflexivity|]. split; [reflexivity|].
  exact (proj1 (proj2 (proj2 (proj2
           (sendMessage_failure_frame
              (Response false 500 (Some (VObj [("error", VStr "sin servicio")])))
              loaded_world createElement eq_refl eq_refl))))).
Defined.

Lemma handleFileSelect_uploads_only_pdf_witness :
  file_type notes_txt <> "application/pdf" /\
  (FileHandler.handleFileSelect {| FileHandler.files := [notes_txt] |} loaded_world).2
  = Normal None /\
  requests (FileHandler.handleFileSelect {| FileHandler.files := [notes_txt] |}
              loaded_world).1 = [] /\
  file_type informe_pdf = "application/pdf" /\
  requests (FileHandler.handleFileSelect {| FileHandler.files := [informe_pdf] |}
              loaded_world).1 = [FileHandler.upload_request informe_pdf] /\
  FileHandler.uploads_are_pdf
    (foldl FileHandler.perform loaded_world
       [ FileHandler.HandleFileSelect {| FileHandler.files := [notes_txt] |};
         FileHandler.HandleFileSelect {| FileHandler.files := [informe_pdf] |};
         FileHandler.UploadFileResume (Response true 200 (Some (VObj [])));
         FileHandler.HandleUpload ]).
Proof.
  assert (Hnotes : file_type notes_txt <> "application/pdf") by discriminate.
  assert (Hstart : FileHandler.uploads_are_pdf loaded_world).
  { split; [discriminate|]. intros r Hr. by apply elem_of_nil in Hr. }
  destruct handleFileSelect_uploads_only_pdf as (Hreject & Hupload & Htrace).
  destruct (Hreject {| FileHandler.files := [notes_txt] |} notes_txt [] loaded_world
              eq_refl Hnotes) as (Hnone & Hrequests & _).
  destruct (Hupload {| FileHandler.files := [informe_pdf] |} informe_pdf []
              loaded_world eq_refl eq_refl eq_refl) as (_ & Hsent & _).
  split; [exact Hnotes|]. split; [exact Hnone|]. split; [exact Hrequests|].
  split; [reflexivity|]. split; [exact Hsent|].
  by apply Htrace.
Defined.

(** * Further properties of the handlers *)

(** ** Handlers that work on the page only *)

Lemma same_off_page_refl w : same_off_page w w.
Proof. by repeat split. Qed.

Lemma same_off_page_with_page w0 f w :
  same_off_page w0 w -> same_off_page w0 (with_page f w).
Proof. by destruct w. Qed.

Section OnThePage.

Context (P : World -> Prop).
Hypothesis P_page : forall f w, P w -> P (with_page f w).

Lemma on_page_update_if_present id f : maintains P (update_if_present id f).
Proof. apply maintains_modify. intros w. apply P_page. Qed.

Lemma on_page_update id missing f : maintains P (update id missing f).
Proof.
  intros w Hw. unfold update. destruct (page w !! id); [|done].
  by apply P_page.
Qed.

Lemma on_page_addMessage text sender : maintains P (ChatHandler.addMessage text sender).
Proof.
  unfold ChatHandler.addMessage.
  apply maintains_bind; [apply maintains_gets|]. intros [panel|]; [|apply maintains_ret].
  apply maintains_bind; [apply maintains_lift|intros textContent].
  apply on_page_update_if_present.
Qed.

Lemma on_page_setLoading loading : maintains P (ChatHandler.setLoading loading).
Proof.
  apply maintains_bind; [|intros _]; apply on_page_update_if_present.
Qed.

Lemma on_page_sendMessage_try o : maintains P (ChatHandler.sendMessage_try o).
Proof.
  destruct o as [|ok status [data|]]; try apply maintains_throw.
  cbn [ChatHandler.sendMessage_try].
  apply maintains_bind.
  { destruct ok; [|apply maintains_ret].
    apply maintains_bind; [apply maintains_lift|intros r; apply maintains_ret]. }
  intros [|].
  - apply maintains_bind; [apply maintains_lift|intros r]. apply on_page_addMessage.
  - apply maintains_bind; [apply maintains_lift|intros e].
    apply maintains_bind; [apply maintains_lift|intros reason].
    apply on_page_addMessage.
Qed.

Lemma on_page_sendMessage_resume o : maintains P (ChatHandler.sendMessage_resume o).
Proof.
  apply maintains_try_finally; [|apply on_page_setLoading].
  apply maintains_try_catch; [apply on_page_sendMessage_try|].
  intros _. apply on_page_addMessage.
Qed.

End OnThePage.

(** ** The chat panel, whatever the reply *)

Lemma setLoading_never_throws loading w :
  (ChatHandler.setLoading loading w).2 = Normal tt.
Proof. reflexivity. Qed.

Lemma addMessage_string_returns s sender w :
  (ChatHandler.addMessage (VStr s) sender w).2 = Normal tt.
Proof. by rewrite addMessage_string. Qed.

Lemma setLoading_button loading w button :
  page (ChatHandler.setLoading loading w).1 !! "sendChatBtn" = Some button ->
  el_disabled button = loading /\
  el_content button = [TextNode (if loading then "Enviando..." else "Enviar")].
Proof.
  destruct w as [p c wp wc pg a r co]. simpl.
  rewrite lookup_alter_ne, lookup_alter_eq by done.
  destruct (pg !! "sendChatBtn"); [|done]. by intros [= <-].
Qed.

Lemma setLoading_input loading w input :
  page (ChatHandler.setLoading loading w).1 !! "chatInput" = Some input ->
  el_disabled input = loading.
Proof.
  destruct w as [p c wp wc pg a r co]. simpl.
  rewrite lookup_alter_eq, lookup_alter_ne by done.
  destruct (pg !! "chatInput"); [|done]. by intros [= <-].
Qed.

(** X1: whatever comes back for a question (an answer, an error reply, a
    body that is not JSON, no reply at all) and whatever the page holds,
    the continuation of [sendMessage] returns without an exception, leaves
    the input and the send button enabled, the button reading [Enviar],
    and changes nothing but the page: no request is sent, and the current
    document id and the fields of the PdfHandler stay as they were. *)
Theorem sendMessage_resume_releases o w :
  let w' := (ChatHandler.sendMessage_resume o w).1 in
  (ChatHandler.sendMessage_resume o w).2 = Normal tt /\
  (forall input, page w' !! "chatInput" = Some input -> el_disabled input = false) /\
  (forall button,
     page w' !! "sendChatBtn" = Some button ->
     el_disabled button = false /\ el_content button = [TextNode "Enviar"]) /\
  same_off_page w w'.
Proof.
  intros w'. subst w'. split; [|split; [|split]].
  - unfold ChatHandler.sendMessage_resume, try_finally, try_catch.
    destruct (ChatHandler.sendMessage_try o w) as [w1 [[]|e]]; [done|].
    pose proof (addMessage_string_returns "Error de conexión" "assistant" w1) as Hcatch.
    destruct (ChatHandler.addMessage _ _ w1) as [w2 r]. simpl in Hcatch.
    by rewrite Hcatch.
  - intros input. unfold ChatHandler.sendMessage_resume, try_finally.
    destruct (try_catch _ _ w) as [w1 r].
    pose proof (setLoading_input false w1 input) as Hinput.
    pose proof (setLoading_never_throws false w1) as Hnormal.
    destruct (ChatHandler.setLoading false w1) as [w2 r2]. simpl in *.
    by rewrite Hnormal.
  - intros button. unfold ChatHandler.sendMessage_resume, try_finally.
    destruct (try_catch _ _ w) as [w1 r].
    pose proof (setLoading_button false w1 button) as Hbutton.
    pose proof (setLoading_never_throws false w1) as Hnormal.
    destruct (ChatHandler.setLoading false w1) as [w2 r2]. simpl in *.
    by rewrite Hnormal.
  - apply (on_page_sendMessage_resume (same_off_page w)).
    + intros f w1. apply same_off_page_with_page.
    + apply same_off_page_refl.
Qed.

Lemma Get_of_truthy_optional v k r :
  Get_optional v k = r -> truthy r = true -> Get v k = Normal r.
Proof.
  unfold Get_optional. destruct (Get v k) as [x|e]; [by intros ->|].
  by intros <-.
Qed.

Lemma addMessage_run text sender w panel :
  page w !! "chatMessages" = Some panel ->
  ChatHandler.addMessage text sender w
  = match textContent_of text with
    | Normal t =>
        (set_element "chatMessages"
           (appendChild (MessageDiv ("message " +:+ sender) t) panel) w, Normal tt)
    | Throw e => (w, Throw e)
    end.
Proof.
  intros Hpanel. unfold ChatHandler.addMessage, bind, getElementById, gets, lift.
  rewrite Hpanel. destruct (textContent_of text) as [t|e]; [|done].
  by apply update_if_present_Some.
Qed.

Lemma sendMessage_resume_messages o w w1 :
  try_catch (ChatHandler.sendMessage_try o)
    (fun _ => ChatHandler.addMessage (VStr "Error de conexión") "assistant") w
  = (w1, Normal tt) ->
  page (ChatHandler.sendMessage_resume o w).1 !! "chatMessages"
  = page w1 !! "chatMessages".
Proof.
  intros Hcatch. unfold ChatHandler.sendMessage_resume, try_finally.
  rewrite Hcatch.
  destruct (setLoading_effect false w1) as (Hnormal & _ & _ & _ & Hmessages & _).
  destruct (ChatHandler.setLoading false w1) as [w2 r]. cbn [fst snd] in *.
  by rewrite Hnormal.
Qed.

(** X2: when the reply to a question is ok and carries a truthy
    [response], the chat panel gains exactly one assistant message whose
    text is that value as [textContent] stores it (a string as it is).  When
    the value cannot be turned into text the exception is caught, and the
    one message added reads [Error de conexión]. *)
Theorem sendMessage_shows_answer status data r w panel :
  Get_optional data "response" = r ->
  truthy r = true ->
  page w !! "chatMessages" = Some panel ->
  let w' := (ChatHandler.sendMessage_resume (Response true status (Some data)) w).1 in
  (forall text,
     textContent_of r = Normal text ->
     page w' !! "chatMessages"
     = Some (appendChild (MessageDiv "message assistant" text) panel)) /\
  (forall e,
     textContent_of r = Throw e ->
     page w' !! "chatMessages"
     = Some (appendChild (MessageDiv "message assistant" "Error de conexión") panel)).
Proof.
  intros Hr Htruthy Hpanel w'. subst w'.
  pose proof (Get_of_truthy_optional data "response" r Hr Htruthy) as Hget.
  assert (Htry : ChatHandler.sendMessage_try (Response true status (Some data)) w
                 = ChatHandler.addMessage r "assistant" w).
  { unfold ChatHandler.sendMessage_try, bind, lift, ret.
    by rewrite Hget, Htruthy. }
  split.
  - intros text Htext.
    rewrite (sendMessage_resume_messages _ w
               (set_element "chatMessages"
                  (appendChild (MessageDiv "message assistant" text) panel) w)).
    + apply page_set_element.
    + unfold try_catch. rewrite Htry, (addMessage_run _ _ _ panel Hpanel), Htext.
      done.
  - intros e Hthrow.
    rewrite (sendMessage_resume_messages _ w
               (set_element "chatMessages"
                  (appendChild (MessageDiv "message assistant" "Error de conexión")
                     panel) w)).
    + apply page_set_element.
    + unfold try_catch. rewrite Htry, (addMessage_run _ _ _ panel Hpanel), Hthrow.
      by rewrite (addMessage_effect _ _ _ panel).
Qed.

Lemma sendMessage_shows_answer_witness :
  Get_optional (VObj [("response", VStr "Tres páginas.")]) "response"
  = VStr "Tres páginas." /\
  page (ChatHandler.sendMessage_resume
          (Response true 200 (Some (VObj [("response", VStr "Tres páginas.")])))
          loaded_world).1 !! "chatMessages"
  = Some (appendChild (MessageDiv "message assistant" "Tres páginas.") createElement).
Proof.
  split; [reflexivity|].
  exact (proj1 (sendMessage_shows_answer 200
                  (VObj [("response", VStr "Tres páginas.")])
                  (VStr "Tres páginas.") loaded_world createElement
                  eq_refl eq_refl eq_refl)
           "Tres páginas." eq_refl).
Defined.

(** The state in which [sendMessage] waits for the reply. *)
Lemma sendMessage_start_sent w input :
  page w !! "chatInput" = Some input ->
  trim (el_value input) <> "" ->
  truthy (currentDocumentId w) = true ->
  let w1 := (ChatHandler.sendMessage_start w).1 in
  requests w1
  = requests w ++ [ChatHandler.chat_request (trim (el_value input)) (currentDocumentId w)] /\
  alerts w1 = alerts w /\
  currentDocumentId w1 = currentDocumentId w /\
  page w1 !! "chatInput" = Some (set_disabled true (set_value "" input)).
Proof.
  intros Hinput Hmessage%String.eqb_neq Hid w1. subst w1.
  destruct w as [p c wp wc pg a r co]. cbn [page currentDocumentId] in *.
  unfold ChatHandler.sendMessage_start, bind, getElementById, gets.
  cbn [page]. rewrite Hinput, Hmessage. cbn [currentDocumentId]. rewrite Hid.
  cbn [negb]. rewrite addMessage_string. simpl.
  repeat split.
  rewrite lookup_alter_eq, lookup_alter_ne, lookup_alter_eq, lookup_alter_ne by done.
  by rewrite Hinput.
Qed.

(** X3: a question that is sent leaves the input empty and disabled while
    the reply is awaited, so a second [sendMessage] before the reply (a
    second click, or Enter again) sends nothing: it finds no text, alerts
    [Escribe una pregunta] and returns. *)
Theorem sendMessage_second_submit w input :
  page w !! "chatInput" = Some input ->
  trim (el_value input) <> "" ->
  truthy (currentDocumentId w) = true ->
  let w1 := (ChatHandler.sendMessage_start w).1 in
  let w2 := (ChatHandler.sendMessage_start w1).1 in
  requests w1
  = requests w ++ [ChatHandler.chat_request (trim (el_value input)) (currentDocumentId w)] /\
  page w1 !! "chatInput" = Some (set_disabled true (set_value "" input)) /\
  (ChatHandler.sendMessage_start w1).2 = Normal None /\
  requests w2 = requests w1 /\
  alerts w2 = alerts w ++ ["Escribe una pregunta"].
Proof.
  intros Hinput Hmessage Hid w1 w2.
  destruct (sendMessage_start_sent w input Hinput Hmessage Hid)
    as (Hsent & Halerts & _ & Hinput1).
  fold w1 in Hsent, Halerts, Hinput1.
  split; [exact Hsent|]. split; [exact Hinput1|].
  subst w2. revert Halerts Hinput1. generalize w1. clear.
  intros [p c wp wc pg a r co]. cbn [alerts page]. intros -> Hinput1.
  unfold ChatHandler.sendMessage_start, bind, getElementById, gets.
  cbn [page]. rewrite Hinput1. done.
Qed.

Lemma sendMessage_second_submit_witness :
  let w := (ChatHandler.enableChat (VNum 7) (typing "hola" loaded_world)).1 in
  page w !! "chatInput"
  = Some (set_placeholder "Escribe tu pregunta sobre el documento..."
            (set_value "hola" createElement)) /\
  requests (ChatHandler.sendMessage_start (ChatHandler.sendMessage_start w).1).1
  = [ChatHandler.chat_request "hola" (VNum 7)].
Proof.
  intros w. split; [reflexivity|].
  destruct (sendMessage_second_submit w
              (set_placeholder "Escribe tu pregunta sobre el documento..."
                 (set_value "hola" createElement))
              eq_refl ltac:(discriminate) eq_refl)
    as (Hsent & _ & _ & Hkept & _).
  rewrite Hkept. exact Hsent.
Defined.

(** ** Enabling and disabling the chat *)

Lemma alter_overwritten (f g : element -> element) k (m : gmap string element) :
  (forall e, g (f e) = g e) -> alter g k (alter f k m) = alter g k m.
Proof.
  intros Hgf. rewrite alter_alter_eq. apply alter_ext. intros e _. apply Hgf.
Qed.

(** Four elements are updated, and then updated again by functions that
    overwrite what the first round did. *)
Lemma four_overwritten (k1 k2 k3 k4 : string)
    (f1 f2 f3 f4 g1 g2 g3 g4 : element -> element) (m : gmap string element) :
  k1 <> k2 -> k1 <> k3 -> k1 <> k4 -> k2 <> k3 -> k2 <> k4 -> k3 <> k4 ->
  (forall e, g1 (f1 e) = g1 e) -> (forall e, g2 (f2 e) = g2 e) ->
  (forall e, g3 (f3 e) = g3 e) -> (forall e, g4 (f4 e) = g4 e) ->
  alter g4 k4 (alter g3 k3 (alter g2 k2 (alter g1 k1
    (alter f4 k4 (alter f3 k3 (alter f2 k2 (alter f1 k1 m)))))))
  = alter g4 k4 (alter g3 k3 (alter g2 k2 (alter g1 k1 m))).
Proof.
  intros H12 H13 H14 H23 H24 H34 H1 H2 H3 H4.
  rewrite (alter_alter_ne g1 f4), (alter_alter_ne g2 f4), (alter_alter_ne g3 f4)
    by done.
  rewrite (alter_overwritten f4 g4) by done.
  rewrite (alter_alter_ne g1 f3), (alter_alter_ne g2 f3) by done.
  rewrite (alter_overwritten f3 g3) by done.
  rewrite (alter_alter_ne g1 f2) by done.
  rewrite (alter_overwritten f2 g2) by done.
  by rewrite (alter_overwritten f1 g1).
Qed.

(** X4: the state that [enableChat] and [disableChat] leave does not
    depend on an [enableChat] that came before: enabling for a second
    document after a first is the same as enabling for the second alone,
    and disabling after enabling is the same as disabling alone.  In
    particular no message and no document id of the earlier call
    survives. *)
Theorem chat_last_call_wins first second w :
  bind (ChatHandler.enableChat first) (fun _ => ChatHandler.enableChat second) w
  = ChatHandler.enableChat second w /\
  bind (ChatHandler.enableChat first) (fun _ => ChatHandler.disableChat) w
  = ChatHandler.disableChat w.
Proof.
  destruct w as [p c wp wc pg a r co].
  split;
    cbv [ChatHandler.enableChat ChatHandler.disableChat ChatHandler.clearMessages
         bind update_if_present modify with_page with_currentDocumentId
         page pdfHandler currentDocumentId window_pdfHandler window_chatHandler
         alerts requests console];
    do 2 f_equal; apply four_overwritten; try done; by intros [].
Qed.


(** ** Looking a document up by its id *)

Lemma loose_eq_identifiers a b :
  identifier a = true -> identifier b = true -> exists c, loose_eq a b = Normal c.
Proof.
  destruct a as [| | |n|s| | |], b as [| | |m|t| | |]; try discriminate;
    intros _ _; by eexists.
Qed.

Lemma id_test_document docId d :
  is_document d = true -> identifier docId = true ->
  (id <~ Get d "id" ;; loose_eq id docId) = Normal (has_id docId d).
Proof.
  intros Hd HdocId. unfold has_id.
  destruct (is_document_fields d Hd) as (fields & ->).
  simpl in Hd. repeat (apply andb_prop in Hd as [Hd ?]).
  cbn [Get cbind].
  by destruct (loose_eq_identifiers (get_member fields "id") docId Hd HdocId)
    as [c ->].
Qed.

Lemma findM_no_match docId docs :
  Forall (fun d => is_document d = true) docs -> identifier docId = true ->
  Forall (fun d => has_id docId d = false) docs ->
  findM (fun d => id <~ Get d "id" ;; loose_eq id docId) docs = Normal VUndefined.
Proof.
  intros Hdocs HdocId. induction Hdocs as [|d docs Hd _ IH]; [done|].
  intros [Hno Hrest]%Forall_cons. cbn [findM].
  rewrite (id_test_document docId d Hd HdocId), Hno. by apply IH.
Qed.

Lemma findM_first_match docId before doc after :
  Forall (fun d => is_document d = true) before -> identifier docId = true ->
  is_document doc = true ->
  Forall (fun d => has_id docId d = false) before ->
  has_id docId doc = true ->
  findM (fun d => id <~ Get d "id" ;; loose_eq id docId) (before ++ doc :: after)
  = Normal doc.
Proof.
  intros Hbefore HdocId Hdoc. induction Hbefore as [|d docs Hd _ IH].
  - intros _ Hyes. cbn [app findM].
    by rewrite (id_test_document docId doc Hdoc HdocId), Hyes.
  - intros [Hno Hrest]%Forall_cons Hyes. cbn [app findM].
    rewrite (id_test_document docId d Hd HdocId), Hno. by apply IH.
Qed.

(** ** Selecting a document *)

(** X5: when no document of the loaded list has the given id,
    [selectDocument] alerts [Documento no encontrado] and does nothing
    else: the selection, the chat, the page and the requests stay as they
    were. *)
Theorem selectDocument_unknown_id docId docs w :
  documents (pdfHandler w) = VArr docs ->
  Forall (fun d => is_document d = true) docs ->
  identifier docId = true ->
  Forall (fun d => has_id docId d = false) docs ->
  PdfHandler.selectDocument docId w
  = (with_alert "Documento no encontrado" w, Normal tt).
Proof.
  intros Hlist Hdocs HdocId Hno.
  unfold PdfHandler.selectDocument, bind, gets, lift. rewrite Hlist.
  cbn [array_find]. by rewrite (findM_no_match docId docs).
Qed.

Lemma selectDocument_unknown_id_witness :
  let w := with_pdfHandler (set_documents (VArr [informe; acta])) loaded_world in
  Forall (fun d => has_id (VNum 3) d = false) [informe; acta] /\
  alerts (PdfHandler.selectDocument (VNum 3) w).1 = ["Documento no encontrado"] /\
  selectedDocument (pdfHandler (PdfHandler.selectDocument (VNum 3) w).1) = VNull.
Proof.
  intros w.
  assert (Hno : Forall (fun d => has_id (VNum 3) d = false) [informe; acta])
    by (repeat constructor).
  split; [exact Hno|].
  rewrite (selectDocument_unknown_id (VNum 3) [informe; acta] w eq_refl
             ltac:(repeat constructor) eq_refl Hno).
  split; reflexivity.
Defined.

Lemma guarded_update {A} id (c : completion string) (f : string -> element -> element)
    (k : unit -> M A) text w :
  c = Normal text ->
  bind (getElementById id)
    (fun el =>
       bind (when (bool_decide (is_Some el))
               (bind (lift c) (fun t => update_if_present id (f t)))) k) w
  = k tt (update_if_present id (f text) w).1.
Proof.
  intros ->. unfold bind at 1. unfold getElementById, gets.
  destruct (page w !! id) as [el|] eqn:Hel.
  - rewrite bool_decide_eq_true_2 by by eexists.
    by unfold when, bind, lift, update_if_present, modify.
  - rewrite bool_decide_eq_false_2 by by intros [? [=]].
    unfold when, bind, ret. by rewrite update_if_present_None.
Qed.

Lemma enableChat_state documentId w :
  let w' := (ChatHandler.enableChat documentId w).1 in
  pdfHandler w' = pdfHandler w /\
  currentDocumentId w' = documentId /\
  alerts w' = alerts w /\
  requests w' = requests w /\
  page w' !! "chatMessages" = set_content [] <$> page w !! "chatMessages" /\
  page w' !! "chatInput"
  = (fun e => set_placeholder "Escribe tu pregunta sobre el documento..."
                (set_disabled false e)) <$> page w !! "chatInput".
Proof.
  destruct w as [p c wp wc pg a r co]. simpl. repeat split.
  - rewrite lookup_alter_eq. by rewrite !lookup_alter_ne by done.
  - rewrite !lookup_alter_ne by done. by rewrite lookup_alter_eq.
Qed.

Lemma showMessage_state message type w :
  let w' := (PdfHandler.showMessage message type w).1 in
  same_off_page w w' /\
  forall id, id <> "messageContainer" -> page w' !! id = page w !! id.
Proof.
  split.
  - apply (on_page_update (same_off_page w)).
    + intros f w1. apply same_off_page_with_page.
    + apply same_off_page_refl.
  - intros id Hid. unfold PdfHandler.showMessage, update.
    destruct (page w !! "messageContainer"); [|done].
    destruct w; simpl. by rewrite lookup_alter_ne.
Qed.

Lemma document_names fields :
  is_document (VObj fields) = true ->
  exists title name,
    ToString (or_else (get_member fields "nombre_pdf")
                (or_else (get_member fields "filename") (VStr "Sin nombre")))
    = Normal title /\
    ToString (or_else (get_member fields "nombre_pdf") (get_member fields "filename"))
    = Normal name.
Proof.
  intros Hdoc. simpl in Hdoc. repeat (apply andb_prop in Hdoc as [Hdoc ?]).
  destruct (ToString_scalar
              (or_else (get_member fields "nombre_pdf")
                 (or_else (get_member fields "filename") (VStr "Sin nombre"))))
    as [title Htitle]; [auto using scalar_or_else, optional_string_scalar|].
  destruct (ToString_scalar
              (or_else (get_member fields "nombre_pdf") (get_member fields "filename")))
    as [name Hname]; [auto using scalar_or_else, optional_string_scalar|].
  by exists title, name.
Qed.

(** [selectDocument] on a document that the lookup finds, up to the toast
    that ends it. *)
Lemma selectDocument_found docId fields w title name :
  array_find "this.documents.find" (fun d => id <~ Get d "id" ;; loose_eq id docId)
    (documents (pdfHandler w)) = Normal (VObj fields) ->
  ToString (or_else (get_member fields "nombre_pdf")
              (or_else (get_member fields "filename") (VStr "Sin nombre")))
  = Normal title ->
  ToString (or_else (get_member fields "nombre_pdf") (get_member fields "filename"))
  = Normal name ->
  let w1 := with_pdfHandler (set_selectedDocument (VObj fields)) w in
  let w2 := (update_if_present "#chatSection h3"
               (set_content [TextNode ("Chat con Documento: " +:+ title)]) w1).1 in
  let w3 := (update_if_present "chatMessages"
               (set_content [SystemMessage name]) w2).1 in
  let w4 := if window_chatHandler w then (ChatHandler.enableChat docId w3).1 else w3 in
  PdfHandler.selectDocument docId w
  = PdfHandler.showMessage
      ("Documento " +:+ dquote +:+ name +:+ dquote +:+ " seleccionado para chat")
      "success" w4.
Proof.
  intros Hfind Htitle Hname w1 w2 w3 w4.
  unfold PdfHandler.selectDocument.
  unfold bind at 1. unfold gets at 1.
  unfold bind at 1. unfold lift at 1. rewrite Hfind. cbn [truthy negb].
  unfold bind at 1. unfold modify at 1. fold w1.
  unfold bind at 1. unfold lift at 1. cbn [Get].
  unfold bind at 1. unfold lift at 1.
  rewrite (guarded_update "#chatSection h3" _
             (fun t => set_content [TextNode ("Chat con Documento: " +:+ t)])
             _ title w1 Htitle).
  fold w2.
  rewrite (guarded_update "chatMessages" _
             (fun t => set_content [SystemMessage t]) _ name w2 Hname).
  fold w3.
  unfold bind at 1. unfold gets at 1.
  assert (Hchat : window_chatHandler w3 = window_chatHandler w) by by destruct w.
  rewrite Hchat. unfold bind at 1. subst w4.
  destruct (window_chatHandler w); cbn [when].
  - destruct (ChatHandler.enableChat docId w3) as [w4 [[]|e]] eqn:Henable.
    + cbn [fst]. unfold bind, lift. by rewrite Hname.
    + by unfold ChatHandler.enableChat, ChatHandler.clearMessages, bind,
        update_if_present, modify in Henable.
  - unfold ret at 1. unfold bind, lift. by rewrite Hname.
Qed.

Lemma update_if_present_off_page id f w :
  same_off_page w (update_if_present id f w).1.
Proof. by destruct w. Qed.

(** X6: [selectDocument] selects the first document of the list whose id
    equals the given one under [==], and sends no request.  With the chat
    handler installed the chat is enabled for the id as it was given, and
    the message list ends up empty: the notice [Documento seleccionado]
    that [selectDocument] writes into it is cleared by [enableChat] in the
    same call.  Without a chat handler the notice stays and the current
    document id is left alone. *)
Theorem selectDocument_first_match docId before doc after w :
  documents (pdfHandler w) = VArr (before ++ doc :: after) ->
  Forall (fun d => is_document d = true) before ->
  is_document doc = true ->
  identifier docId = true ->
  Forall (fun d => has_id docId d = false) before ->
  has_id docId doc = true ->
  let w' := (PdfHandler.selectDocument docId w).1 in
  pdfHandler w' = set_selectedDocument doc (pdfHandler w) /\
  alerts w' = alerts w /\
  requests w' = requests w /\
  (window_chatHandler w = true ->
   currentDocumentId w' = docId /\
   el_content <$> page w' !! "chatMessages"
   = (fun _ => []) <$> page w !! "chatMessages" /\
   el_disabled <$> page w' !! "chatInput"
   = (fun _ => false) <$> page w !! "chatInput") /\
  (window_chatHandler w = false ->
   currentDocumentId w' = currentDocumentId w /\
   exists name,
     el_content <$> page w' !! "chatMessages"
     = (fun _ => [SystemMessage name]) <$> page w !! "chatMessages").
Proof.
  intros Hlist Hbefore Hdoc HdocId Hno Hyes w'. subst w'.
  destruct (is_document_fields doc Hdoc) as (fields & ->).
  destruct (document_names fields Hdoc) as (title & name & Htitle & Hname).
  assert (Hfind : array_find "this.documents.find"
        (fun d => id <~ Get d "id" ;; loose_eq id docId)
                    (documents (pdfHandler w)) = Normal (VObj fields)).
  { rewrite Hlist. cbn [array_find]. by apply findM_first_match. }
  rewrite (selectDocument_found docId fields w title name Hfind Htitle Hname).
  set (w1 := with_pdfHandler (set_selectedDocument (VObj fields)) w).
  set (w2 := (update_if_present "#chatSection h3" _ w1).1).
  set (w3 := (update_if_present "chatMessages" _ w2).1).
  set (w4 := if window_chatHandler w then _ else w3).
  destruct (showMessage_state
              ("Documento " +:+ dquote +:+ name +:+ dquote
               +:+ " seleccionado para chat") "success" w4)
    as ((Hpdf & Hid & _ & _ & Halerts & Hrequests & _) & Hpage).
  rewrite Hpdf, Halerts, Hrequests, Hid, !Hpage by done.
  clear Hpdf Hid Halerts Hrequests Hpage.
  destruct (update_if_present_off_page "chatMessages"
              (set_content [SystemMessage name]) w2)
    as (Hpdf3 & Hid3 & _ & _ & Halerts3 & Hrequests3 & _).
  destruct (update_if_present_off_page "#chatSection h3"
              (set_content [TextNode ("Chat con Documento: " +:+ title)]) w1)
    as (Hpdf2 & Hid2 & _ & _ & Halerts2 & Hrequests2 & _).
  fold w2 in Hpdf2, Hid2, Halerts2, Hrequests2.
  fold w3 in Hpdf3, Hid3, Halerts3, Hrequests3.
  assert (Hmessages3 : page w3 !! "chatMessages"
                       = set_content [SystemMessage name] <$> page w !! "chatMessages").
  { subst w3. rewrite page_update_if_present_eq. subst w2.
    rewrite page_update_if_present_ne by done. by destruct w. }
  assert (Hinput3 : page w3 !! "chatInput" = page w !! "chatInput").
  { subst w3 w2. rewrite !page_update_if_present_ne by done. by destruct w. }
  assert (Hw1 : pdfHandler w1 = set_selectedDocument (VObj fields) (pdfHandler w)
                /\ alerts w1 = alerts w /\ requests w1 = requests w
                /\ currentDocumentId w1 = currentDocumentId w) by by destruct w.
  destruct Hw1 as (Hpdf1 & Halerts1 & Hrequests1 & Hid1).
  destruct (enableChat_state docId w3)
    as (Hpdf4 & Hid4 & Halerts4 & Hrequests4 & Hmessages4 & Hinput4).
  subst w4. destruct (window_chatHandler w).
  - rewrite Hpdf4, Halerts4, Hrequests4, Hid4, Hmessages4, Hinput4.
    rewrite Hpdf3, Hpdf2, Hpdf1, Halerts3, Halerts2, Halerts1.
    rewrite Hrequests3, Hrequests2, Hrequests1, Hmessages3, Hinput3.
    repeat split; try done.
    + by destruct (page w !! "chatMessages").
    + by destruct (page w !! "chatInput").
  - rewrite Hpdf3, Hpdf2, Hpdf1, Halerts3, Halerts2, Halerts1.
    rewrite Hrequests3, Hrequests2, Hrequests1, Hid3, Hid2, Hid1, Hmessages3.
    repeat split; try done.
    exists name. by destruct (page w !! "chatMessages").
Qed.

Lemma selectDocument_first_match_witness :
  let w := with_pdfHandler (set_documents (VArr [informe; acta])) loaded_world in
  has_id (VNum 2) informe = false /\
  has_id (VNum 2) acta = true /\
  selectedDocument (pdfHandler (PdfHandler.selectDocument (VNum 2) w).1) = acta /\
  currentDocumentId (PdfHandler.selectDocument (VNum 2) w).1 = VNum 2 /\
  el_content <$> page (PdfHandler.selectDocument (VNum 2) w).1 !! "chatMessages"
  = Some [].
Proof.
  intros w. split; [reflexivity|]. split; [reflexivity|].
  destruct (selectDocument_first_match (VNum 2) [informe] acta [] w eq_refl
              ltac:(repeat constructor) eq_refl eq_refl
              ltac:(repeat constructor) eq_refl)
    as (Hpdf & _ & _ & Hchat & _).
  destruct (Hchat eq_refl) as (Hid & Hmessages & _).
  split; [by rewrite Hpdf|]. split; [exact Hid|exact Hmessages].
Defined.

(** ** Deleting a document *)

Lemma update_present id missing f e w :
  page w !! id = Some e ->
  update id missing f w = (set_element id (f e) w, Normal tt).
Proof.
  intros Hid. unfold update. rewrite Hid.
  exact (update_if_present_Some id f e w Hid).
Qed.

Lemma showMessage_shown message type w container :
  page w !! "messageContainer" = Some container ->
  PdfHandler.showMessage message type w
  = (set_element "messageContainer"
       (appendChild (Toast ("message " +:+ type) message) container) w, Normal tt).
Proof. apply update_present. Qed.

Lemma disableChat_state w :
  let w' := (ChatHandler.disableChat w).1 in
  (ChatHandler.disableChat w).2 = Normal tt /\
  pdfHandler w' = pdfHandler w /\
  currentDocumentId w' = VNull /\
  alerts w' = alerts w /\
  requests w' = requests w /\
  console w' = console w /\
  page w' !! "messageContainer" = page w !! "messageContainer" /\
  page w' !! "chatInput"
  = (fun e => set_value ""
                (set_placeholder "Selecciona un documento para hacer preguntas..."
                   (set_disabled true e))) <$> page w !! "chatInput".
Proof.
  destruct w as [p c wp wc pg a r co]. simpl. repeat split.
  - by rewrite !lookup_alter_ne by done.
  - rewrite !lookup_alter_ne by done. by rewrite lookup_alter_eq.
Qed.

(** The [try] block of the callback of [deleteDocument] on a reply that is
    ok, from a page that has the message container. *)
Lemma deleteDocument_try_ok docId status json w container :
  page w !! "messageContainer" = Some container ->
  (truthy (selectedDocument (pdfHandler w)) = false \/
   is_document (selectedDocument (pdfHandler w)) = true) ->
  identifier docId = true ->
  let hit := truthy (selectedDocument (pdfHandler w))
             && has_id docId (selectedDocument (pdfHandler w)) in
  let w1 := set_element "messageContainer"
              (appendChild (Toast "message success" "Documento eliminado correctamente")
                 container) w in
  let w2 := if hit then with_pdfHandler (set_selectedDocument VNull) w1 else w1 in
  let w3 := if hit && window_chatHandler w then (ChatHandler.disableChat w2).1 else w2 in
  PdfHandler.deleteDocument_try docId (Response true status json) w
  = (with_request PdfHandler.documents_request w3, Normal tt).
Proof.
  intros Hcontainer Hselected HdocId hit w1 w2 w3.
  unfold PdfHandler.deleteDocument_try. cbn [negb].
  unfold bind at 1. rewrite (showMessage_shown _ _ _ container Hcontainer).
  change (set_element "messageContainer" _ w) with w1.
  unfold bind at 1. unfold gets at 1.
  assert (Hpdf1 : pdfHandler w1 = pdfHandler w) by by destruct w.
  assert (Hchat1 : window_chatHandler w1 = window_chatHandler w) by by destruct w.
  rewrite Hpdf1.
  assert (Htest :
    (if truthy (selectedDocument (pdfHandler w))
     then bind (lift (Get (selectedDocument (pdfHandler w)) "id"))
            (fun id => lift (loose_eq id docId))
     else ret false) w1 = (w1, Normal hit)).
  { subst hit. destruct Hselected as [Hfalsy|Hdoc].
    - by rewrite Hfalsy.
    - pose proof (id_test_document docId _ Hdoc HdocId) as Htest.
      assert (truthy (selectedDocument (pdfHandler w)) = true) as ->
        by by destruct (selectedDocument (pdfHandler w)).
      unfold bind, lift. unfold cbind in Htest.
      destruct (Get (selectedDocument (pdfHandler w)) "id") as [id|e]; [|done].
      by rewrite Htest. }
  unfold bind at 1. rewrite Htest. clear Htest.
  unfold bind at 1. subst w3 w2. destruct hit; cbn [when andb].
  - unfold bind at 1. unfold modify at 1.
    set (w2 := with_pdfHandler (set_selectedDocument VNull) w1).
    unfold bind at 1. unfold gets at 1.
    assert (window_chatHandler w2 = window_chatHandler w) as -> by by destruct w.
    destruct (window_chatHandler w); cbn [when].
    + destruct (disableChat_state w2) as (Hnormal & _).
      destruct (ChatHandler.disableChat w2) as [w3 r]. cbn [fst snd] in *.
      by rewrite Hnormal.
    + done.
  - done.
Qed.

Lemma ToString_identifier v : identifier v = true -> exists s, ToString v = Normal s.
Proof. intros Hv. apply ToString_scalar. by destruct v. Qed.

(** X7: once the user confirms, [deleteDocument] sends one [DELETE] to
    [/api/documents/<id>] for the id it was given, whether or not the
    loaded list holds such a document.  When the reply is ok (its body is
    not read) a success toast is shown and a reload of the list is
    requested, the list itself staying as it is until that reload is
    answered.  If the selected document has the deleted id (under [==])
    the selection is dropped and, with the chat handler installed, the chat
    is disabled, so that a question typed afterwards is not sent;
    otherwise the selection and the chat are left alone. *)
Theorem deleteDocument_confirmed docId status json w container :
  page w !! "messageContainer" = Some container ->
  (truthy (selectedDocument (pdfHandler w)) = false \/
   is_document (selectedDocument (pdfHandler w)) = true) ->
  identifier docId = true ->
  let hit := truthy (selectedDocument (pdfHandler w))
             && has_id docId (selectedDocument (pdfHandler w)) in
  let w' := (PdfHandler.deleteDocument_resume docId (Response true status json) w).1 in
  (exists text,
     ToString docId = Normal text /\
     PdfHandler.deleteDocument_start docId w
     = (with_request (PdfHandler.delete_request text) w,
        Normal (Some (PdfHandler.delete_request text)))) /\
  (PdfHandler.deleteDocument_resume docId (Response true status json) w).2 = Normal tt /\
  page w' !! "messageContainer"
  = Some (appendChild (Toast "message success" "Documento eliminado correctamente")
            container) /\
  requests w' = requests w ++ [PdfHandler.documents_request] /\
  documents (pdfHandler w') = documents (pdfHandler w) /\
  (hit = true ->
   selectedDocument (pdfHandler w') = VNull /\
   (window_chatHandler w = true ->
    currentDocumentId w' = VNull /\
    forall input,
      page w' !! "chatInput" = Some input ->
      el_disabled input = true /\
      (ChatHandler.sendMessage_start w').2 = Normal None /\
      requests (ChatHandler.sendMessage_start w').1 = requests w')) /\
  (hit = false ->
   selectedDocument (pdfHandler w') = selectedDocument (pdfHandler w) /\
   currentDocumentId w' = currentDocumentId w).
Proof.
  intros Hcontainer Hselected HdocId hit w'. split.
  { destruct (ToString_identifier docId HdocId) as [text Htext].
    exists text. split; [done|].
    unfold PdfHandler.deleteDocument_start, try_catch, bind, lift.
    by rewrite Htext. }
  assert (Hrun := deleteDocument_try_ok docId status json w container
                    Hcontainer Hselected HdocId).
  cbn zeta in Hrun. fold hit in Hrun.
  set (w1 := set_element "messageContainer" _ w) in Hrun.
  set (w2 := if hit then _ else w1) in Hrun.
  set (w3 := if hit && window_chatHandler w then _ else w2) in Hrun.
  assert (Hresume : PdfHandler.deleteDocument_resume docId (Response true status json) w
                    = (with_request PdfHandler.documents_request w3, Normal tt)).
  { unfold PdfHandler.deleteDocument_resume, try_catch. by rewrite Hrun. }
  subst w'. rewrite Hresume. cbn [fst snd]. clear Hrun Hresume.
  assert (H1 : pdfHandler w1 = pdfHandler w /\ requests w1 = requests w /\
               currentDocumentId w1 = currentDocumentId w /\
               page w1 !! "messageContainer"
               = Some (appendChild
                         (Toast "message success" "Documento eliminado correctamente")
                         container) /\
               page w1 !! "chatInput" = page w !! "chatInput").
  { subst w1. rewrite page_set_element, page_set_element_ne by done. by destruct w. }
  destruct H1 as (Hpdf1 & Hrequests1 & Hid1 & Htoast1 & Hinput1).
  assert (Hlast : forall w0,
            pdfHandler (with_request PdfHandler.documents_request w0) = pdfHandler w0 /\
            currentDocumentId (with_request PdfHandler.documents_request w0)
            = currentDocumentId w0 /\
            page (with_request PdfHandler.documents_request w0) = page w0 /\
            requests (with_request PdfHandler.documents_request w0)
            = requests w0 ++ [PdfHandler.documents_request]) by by intros [].
  subst w3 w2. destruct hit; cbn [andb].
  - set (w2 := with_pdfHandler (set_selectedDocument VNull) w1).
    assert (H2 : pdfHandler w2 = set_selectedDocument VNull (pdfHandler w) /\
                 requests w2 = requests w /\ page w2 = page w1).
    { subst w2. rewrite <- Hpdf1, <- Hrequests1. by destruct w1. }
    destruct H2 as (Hpdf2 & Hrequests2 & Hpage2).
    destruct (disableChat_state w2)
      as (_ & Hpdf3 & Hid3 & _ & Hrequests3 & _ & Htoast3 & Hinput3).
    destruct (window_chatHandler w).
    + destruct (Hlast (ChatHandler.disableChat w2).1) as (-> & Hid4 & Hpage4 & Hreq4).
      rewrite Hreq4, Hid4, Hpage4.
      rewrite Hpdf3, Hrequests3, Htoast3, Hpdf2, Hrequests2, Hpage2.
      split; [done|]. split; [done|]. split; [done|]. split; [done|].
      split; [|done]. split; [done|]. intros _. split; [done|].
      intros input Hinput.
      assert (Hdisabled : el_disabled input = true).
      { rewrite Hinput3, Hpage2, Hinput1 in Hinput.
        destruct (page w !! "chatInput"); [|done]. by injection Hinput as <-. }
      split; [done|].
      pose proof (sendMessage_start_cases
                    (with_request PdfHandler.documents_request
                       (ChatHandler.disableChat w2).1) input) as Hstart.
      rewrite Hpage4 in Hstart. specialize (Hstart Hinput). cbn zeta in Hstart.
      rewrite Hid4, Hid3 in Hstart. cbn [truthy negb] in Hstart.
      rewrite orb_true_r in Hstart. destruct Hstart as [Hnone Hkept].
      split; [done|]. by rewrite Hkept, Hreq4, Hrequests3, Hrequests2.
    + destruct (Hlast w2) as (-> & -> & -> & ->).
      rewrite Hpdf2, Hrequests2, Hpage2.
      split; [done|]. split; [done|]. split; [done|]. split; [done|].
      split; [|done]. split; [done|]. done.
  - destruct (Hlast w1) as (-> & -> & -> & ->).
    rewrite Hpdf1, Hrequests1, Hid1. done.
Qed.

Lemma deleteDocument_confirmed_witness :
  let w := (PdfHandler.selectDocument (VNum 1)
              (with_pdfHandler (set_documents (VArr [informe; acta])) loaded_world)).1 in
  selectedDocument (pdfHandler w) = informe /\
  has_id (VNum 1) informe = true /\
  PdfHandler.deleteDocument_start (VNum 1) w
  = (with_request (PdfHandler.delete_request "1") w,
     Normal (Some (PdfHandler.delete_request "1"))) /\
  selectedDocument
    (pdfHandler (PdfHandler.deleteDocument_resume (VNum 1) (Response true 200 None) w).1)
  = VNull.
Proof.
  intros w.
  assert (Hcontainer :
    page w !! "messageContainer"
    = Some (appendChild
              (Toast "message success"
                 ("Documento " +:+ dquote +:+ "Informe.pdf" +:+ dquote
                  +:+ " seleccionado para chat")) createElement)).
  { vm_compute. reflexivity. }
  destruct (deleteDocument_confirmed (VNum 1) 200 None w _ Hcontainer
              (or_intror eq_refl) eq_refl)
    as ((text & Htext & Hstart) & _ & _ & _ & _ & Hhit & _).
  split; [reflexivity|]. split; [reflexivity|]. split.
  - injection Htext as <-. exact Hstart.
  - exact (proj1 (Hhit eq_refl)).
Defined.

Lemma deleteDocument_failed_run error w container :
  page w !! "messageContainer" = Some container ->
  PdfHandler.deleteDocument_failed error w
  = (set_element "messageContainer"
       (appendChild
          (Toast "message error" ("Error al eliminar documento: " +:+ exn_message error))
          container)
       (with_console ("Error deleting document: " +:+ exn_message error) w),
     Normal tt).
Proof.
  intros Hcontainer. unfold PdfHandler.deleteDocument_failed, bind, console_error, modify.
  apply showMessage_shown. by destruct w.
Qed.

(** X8: when the [DELETE] request fails (no reply, or a reply that is not
    ok) the callback of [deleteDocument] returns without an exception,
    logs the error and shows an error toast, which for a reply that is not
    ok carries the HTTP status.  Nothing else changes: the document list,
    the selection and the current chat document stay, and no reload is
    requested. *)
Theorem deleteDocument_failure_frame docId o w container :
  (forall status json, o <> Response true status json) ->
  page w !! "messageContainer" = Some container ->
  let w' := (PdfHandler.deleteDocument_resume docId o w).1 in
  (PdfHandler.deleteDocument_resume docId o w).2 = Normal tt /\
  pdfHandler w' = pdfHandler w /\
  currentDocumentId w' = currentDocumentId w /\
  requests w' = requests w /\
  (exists reason,
     page w' !! "messageContainer"
     = Some (appendChild
               (Toast "message error" ("Error al eliminar documento: " +:+ reason))
               container) /\
     console w' = console w ++ ["Error deleting document: " +:+ reason] /\
     forall status json,
       o = Response false status json ->
       reason = "HTTP error! status: " +:+ pretty status).
Proof.
  intros Hfailed Hcontainer w'. subst w'.
  assert (Hthrown : exists error,
            PdfHandler.deleteDocument_try docId o w = (w, Throw error) /\
            forall status json,
              o = Response false status json ->
              exn_message error = "HTTP error! status: " +:+ pretty status).
  { destruct o as [|[] status json].
    - eexists. split; [reflexivity|]. intros ? ? [=].
    - by destruct (Hfailed status json).
    - eexists. split; [reflexivity|]. by intros ? ? [= <- _]. }
  destruct Hthrown as (error & Htry & Hreason).
  unfold PdfHandler.deleteDocument_resume, try_catch. rewrite Htry.
  rewrite (deleteDocument_failed_run error w container Hcontainer). cbn [fst snd].
  split; [done|]. rewrite page_set_element.
  split; [by destruct w|]. split; [by destruct w|]. split; [by destruct w|].
  exists (exn_message error). split; [done|]. split; [by destruct w|done].
Qed.

Lemma deleteDocument_failure_frame_witness :
  page loaded_world !! "messageContainer" = Some createElement /\
  page (PdfHandler.deleteDocument_resume (VNum 1) (Response false 404 None)
          loaded_world).1 !! "messageContainer"
  = Some (appendChild
            (Toast "message error"
               "Error al eliminar documento: HTTP error! status: 404")
            createElement) /\
  requests (PdfHandler.deleteDocument_resume (VNum 1) (Response false 404 None)
              loaded_world).1 = [].
Proof.
  split; [reflexivity|].
  destruct (deleteDocument_failure_frame (VNum 1) (Response false 404 None)
              loaded_world createElement ltac:(discriminate) eq_refl)
    as (_ & _ & _ & Hrequests & reason & Htoast & _ & Hreason).
  split; [|exact Hrequests].
  rewrite Htoast, (Hreason 404 None eq_refl). reflexivity.
Defined.

(** ** The table behind the filter, the search box and a reload *)

Lemma PdfHandler_renderTable_documents docs searchQuery w body :
  documents (pdfHandler w) = VArr docs ->
  Forall (fun d => is_document d = true) docs ->
  tableRenderer (pdfHandler w) = true ->
  page w !! TableRenderer.tbody = Some body ->
  exists content,
    PdfHandler.renderTable searchQuery w
    = (set_element TableRenderer.tbody (set_content content body) w, Normal tt) /\
    shows (List.filter (row_expected (currentFilter (pdfHandler w)) searchQuery) docs)
      content.
Proof.
  intros Hlist Hdocs Hrenderer Hbody.
  unfold PdfHandler.renderTable, bind, gets. rewrite Hrenderer, Hlist. cbn [when].
  by apply renderTable_documents.
Qed.

(** X9: with a list of documents that meet the contract loaded and the
    table on the page, choosing a value in the filter select stores it as
    the current filter and shows the documents with that status (all of
    them for [todos]), whatever text the search box holds: the search is
    not applied again.  Typing in the search box shows the documents that
    pass both the text typed, lowercased by the engine whatever its table,
    and the current filter, which it leaves as it is. *)
Theorem filter_and_search_handlers docs w body :
  documents (pdfHandler w) = VArr docs ->
  Forall (fun d => is_document d = true) docs ->
  tableRenderer (pdfHandler w) = true ->
  page w !! TableRenderer.tbody = Some body ->
  (forall chosen,
     let w' := (PdfHandler.filterSelect_change chosen w).1 in
     currentFilter (pdfHandler w') = chosen /\
     exists content,
       page w' !! TableRenderer.tbody = Some (set_content content body) /\
       shows (List.filter (row_expected chosen "") docs) content) /\
  (forall typed,
     let w' := (PdfHandler.searchInput_input typed w).1 in
     currentFilter (pdfHandler w') = currentFilter (pdfHandler w) /\
     exists content,
       page w' !! TableRenderer.tbody = Some (set_content content body) /\
       shows (List.filter (row_expected (currentFilter (pdfHandler w)) typed) docs)
         content).
Proof.
  intros Hlist Hdocs Hrenderer Hbody. split.
  - intros chosen w'. subst w'.
    set (w1 := with_pdfHandler (set_currentFilter chosen) w).
    change (PdfHandler.filterSelect_change chosen w)
      with (PdfHandler.renderTable "" w1).
    destruct (PdfHandler_renderTable_documents docs "" w1 body)
      as (content & -> & Hshows); try (by destruct w).
    cbn [fst]. split; [by destruct w|].
    exists content. split; [apply page_set_element|].
    by replace chosen with (currentFilter (pdfHandler w1)) by by destruct w.
  - intros typed w'. subst w'.
    unfold PdfHandler.searchInput_input, PdfHandler.searchDocuments.
    destruct (PdfHandler_renderTable_documents docs typed w body)
      as (content & -> & Hshows); try done.
    cbn [fst]. split; [by destruct w|].
    exists content. split; [apply page_set_element|done].
Qed.

Lemma disableChat_elsewhere id w :
  id <> "chatInput" -> id <> "sendChatBtn" -> id <> "chat-status" ->
  id <> "chatMessages" ->
  page (ChatHandler.disableChat w).1 !! id = page w !! id.
Proof.
  intros. destruct w as [p c wp wc pg a r co]. simpl.
  by rewrite !lookup_alter_ne by done.
Qed.

(** X10: when the reply to [GET /api/documents] is ok and lists documents
    that meet the contract, [loadDocuments] returns without an exception,
    stores the list, and the table shows the documents of the new list
    that pass the current filter, with no search applied.  The chat is
    disabled if no document is selected and a chat handler is installed,
    and is left as it is otherwise. *)
Theorem loadDocuments_shows_list status data docs w body :
  Get_optional (Get_optional data "data") "documentos" = VArr docs ->
  Forall (fun d => is_document d = true) docs ->
  tableRenderer (pdfHandler w) = true ->
  page w !! TableRenderer.tbody = Some body ->
  let w' := (PdfHandler.loadDocuments_resume (Response true status (Some data)) w).1 in
  (PdfHandler.loadDocuments_resume (Response true status (Some data)) w).2 = Normal tt /\
  documents (pdfHandler w') = VArr docs /\
  (exists content,
     page w' !! TableRenderer.tbody = Some (set_content content body) /\
     shows (List.filter (row_expected (currentFilter (pdfHandler w)) "") docs) content) /\
  currentDocumentId w'
  = (if negb (truthy (selectedDocument (pdfHandler w))) && window_chatHandler w
     then VNull else currentDocumentId w).
Proof.
  intros Hlisted Hdocs Hrenderer Hbody w'. subst w'.
  assert (Hdata : Get data "data" = Normal (Get_optional data "data")).
  { apply Get_not_nullish. by destruct data. }
  set (w1 := with_pdfHandler (set_documents (VArr docs)) w).
  destruct (PdfHandler_renderTable_documents docs "" w1 body)
    as (content & Hrender & Hshows); try (by destruct w).
  set (w2 := set_element TableRenderer.tbody (set_content content body) w1) in Hrender.
  set (disable := negb (truthy (selectedDocument (pdfHandler w)))
                  && window_chatHandler w).
  assert (Htry :
    PdfHandler.loadDocuments_try (Response true status (Some data)) w
    = (if disable then (ChatHandler.disableChat w2).1 else w2, Normal tt)).
  { unfold PdfHandler.loadDocuments_try. cbn [negb].
    unfold bind at 1. unfold lift at 1. rewrite Hdata, Hlisted.
    unfold bind at 1. unfold modify at 1.
    change (with_pdfHandler (set_documents (or_else (VArr docs) (VArr []))) w) with w1.
    unfold bind at 1. rewrite Hrender.
    unfold bind at 1. unfold gets at 1.
    unfold bind at 1. unfold gets at 1.
    assert (pdfHandler w2 = set_documents (VArr docs) (pdfHandler w)) as ->
      by by destruct w.
    assert (window_chatHandler w2 = window_chatHandler w) as -> by by destruct w.
    change (selectedDocument (set_documents (VArr docs) (pdfHandler w)))
      with (selectedDocument (pdfHandler w)).
    fold disable. destruct disable; cbn [when]; [|done].
    destruct (disableChat_state w2) as (Hnormal & _).
    destruct (ChatHandler.disableChat w2) as [w3 r]. cbn [fst snd] in *.
    by rewrite Hnormal. }
  unfold PdfHandler.loadDocuments_resume, try_catch. rewrite Htry. cbn [fst snd].
  assert (H2 : pdfHandler w2 = set_documents (VArr docs) (pdfHandler w) /\
               currentDocumentId w2 = currentDocumentId w /\
               page w2 !! TableRenderer.tbody = Some (set_content content body)).
  { subst w2. rewrite page_set_element. by destruct w. }
  destruct H2 as (Hpdf2 & Hid2 & Hbody2).
  split; [done|].
  replace (currentFilter (pdfHandler w1)) with (currentFilter (pdfHandler w))
    in Hshows by by destruct w.
  destruct disable.
  - destruct (disableChat_state w2) as (_ & Hpdf3 & Hid3 & _).
    rewrite Hpdf3, Hid3, Hpdf2, disableChat_elsewhere, Hbody2 by done.
    split; [done|]. split; [|done]. by exists content.
  - rewrite Hpdf2, Hid2, Hbody2.
    split; [done|]. split; [|done]. by exists content.
Qed.

Section AcrossAReload.

Context (P : World -> Prop).
Hypothesis P_page : forall f w, P w -> P (with_page f w).
Hypothesis P_documents : forall v w, P w -> P (with_pdfHandler (set_documents v) w).
Hypothesis P_chat : forall v w, P w -> P (with_currentDocumentId v w).
Hypothesis P_console : forall msg w, P w -> P (with_console msg w).

Lemma reload_forEachM f l :
  (forall x, maintains P (f x)) -> maintains P (TableRenderer.forEachM f l).
Proof.
  intros Hf. induction l as [|x l IH]; simpl; [apply maintains_ret|].
  apply maintains_bind; [apply Hf|done].
Qed.

Lemma reload_TableRenderer_renderTable docs currentFilter searchQuery :
  maintains P (TableRenderer.renderTable docs currentFilter searchQuery).
Proof.
  unfold TableRenderer.renderTable.
  apply maintains_bind; [apply maintains_gets|]. intros [body|]; [|apply maintains_ret].
  apply maintains_bind; [destruct (negb _); [apply maintains_lift|apply maintains_ret]|].
  intros filtered.
  apply maintains_bind; [destruct (negb _); [apply maintains_lift|apply maintains_ret]|].
  intros shown.
  apply maintains_bind; [by apply on_page_update_if_present|intros _].
  apply maintains_bind; [apply maintains_lift|intros len].
  destruct (strict_eq_num len 0); [by apply on_page_update_if_present|].
  unfold TableRenderer.array_forEach.
  destruct shown; try apply maintains_throw;
    try (apply maintains_bind; [apply maintains_lift|intros _; apply maintains_ret]).
  apply reload_forEachM. intros doc.
  apply maintains_bind; [apply maintains_lift|intros r].
  by apply on_page_update_if_present.
Qed.

Lemma reload_disableChat : maintains P ChatHandler.disableChat.
Proof.
  unfold ChatHandler.disableChat, ChatHandler.clearMessages.
  apply maintains_bind; [apply maintains_modify; intros w; apply P_chat|intros _].
  repeat (apply maintains_bind; [by apply on_page_update_if_present|intros _]).
  by apply on_page_update_if_present.
Qed.

Lemma reload_loadDocuments_resume o : maintains P (PdfHandler.loadDocuments_resume o).
Proof.
  apply maintains_try_catch.
  - destruct o as [|ok status json]; [apply maintains_throw|].
    cbn [PdfHandler.loadDocuments_try].
    destruct (negb ok); [apply maintains_throw|].
    destruct json as [data|]; [|apply maintains_throw].
    apply maintains_bind; [apply maintains_lift|intros inner].
    apply maintains_bind;
      [apply maintains_modify; intros w; apply P_documents|intros _].
    apply maintains_bind.
    { apply maintains_bind; [apply maintains_gets|intros this].
      apply maintains_when, reload_TableRenderer_renderTable. }
    intros _.
    apply maintains_bind; [apply maintains_gets|intros this].
    apply maintains_bind; [apply maintains_gets|intros chat].
    apply maintains_when, reload_disableChat.
  - intros error.
    apply maintains_bind; [apply maintains_modify; intros w; apply P_console|intros _].
    by apply on_page_update.
Qed.

End AcrossAReload.

(** X11: whatever the reply to [GET /api/documents], [loadDocuments]
    changes neither the selected document nor the current filter nor the
    state of the upload widget, sends no request and raises no alert.  The
    selected document stays selected also when the list that was just
    loaded no longer holds it. *)
Theorem loadDocuments_keeps_selection o w :
  let w' := (PdfHandler.loadDocuments_resume o w).1 in
  selectedDocument (pdfHandler w') = selectedDocument (pdfHandler w) /\
  currentFilter (pdfHandler w') = currentFilter (pdfHandler w) /\
  selectedFile (pdfHandler w') = selectedFile (pdfHandler w) /\
  isUploading (pdfHandler w') = isUploading (pdfHandler w) /\
  requests w' = requests w /\
  alerts w' = alerts w.
Proof.
  apply (reload_loadDocuments_resume
           (fun w' =>
              selectedDocument (pdfHandler w') = selectedDocument (pdfHandler w) /\
              currentFilter (pdfHandler w') = currentFilter (pdfHandler w) /\
              selectedFile (pdfHandler w') = selectedFile (pdfHandler w) /\
              isUploading (pdfHandler w') = isUploading (pdfHandler w) /\
              requests w' = requests w /\
              alerts w' = alerts w));
    try (by intros ? []); done.
Qed.

(** ** The upload widget *)

Lemma FileHandler_showMessage_string s type w :
  FileHandler.showMessage (VStr s) type w
  = (set_element "uploadMessage"
       (set_classes ["upload-message-compact"; type; "show"]
          (set_content [TextNode s] (default createElement (page w !! "uploadMessage"))))
       w, Normal tt).
Proof.
  unfold FileHandler.showMessage, bind, getElementById, gets, lift.
  cbn [textContent_of nullish ToString].
  destruct (page w !! "uploadMessage") as [messageEl|] eqn:HmessageEl.
  - rewrite bool_decide_eq_false_2 by done. cbn [when ret default].
    by rewrite (update_if_present_Some _ _ messageEl).
  - rewrite bool_decide_eq_true_2 by done. cbn [when modify default].
    unfold update_if_present, modify, set_element. f_equal.
    destruct w as [p c wp wc pg a r co]. unfold with_page. cbn. f_equal.
    by rewrite alter_insert_eq.
Qed.

Lemma showProgress_state show w :
  (FileHandler.showProgress show w).2 = Normal tt /\
  same_off_page w (FileHandler.showProgress show w).1 /\
  forall id, id <> "progressContainer" -> id <> "submitContainer" ->
             page (FileHandler.showProgress show w).1 !! id = page w !! id.
Proof.
  destruct w as [p c wp wc pg a r co].
  destruct show; simpl; (split; [done|]); (split; [by repeat split|]);
    intros id ? ?; by rewrite !lookup_alter_ne.
Qed.

(** X12: whatever the reply to an upload, and whatever the page holds,
    the continuations of [uploadFile] and of [handleUpload] return without
    an exception and leave the flag [isUploading] cleared, so a failed
    upload never blocks the next one. *)
Theorem upload_flag_is_released o w :
  (FileHandler.uploadFile_resume o w).2 = Normal tt /\
  isUploading (pdfHandler (FileHandler.uploadFile_resume o w).1) = false /\
  (FileHandler.handleUpload_resume o w).2 = Normal tt /\
  isUploading (pdfHandler (FileHandler.handleUpload_resume o w).1) = false.
Proof.
  assert (Hcaught : forall (m : M unit) w0,
            (try_catch m
               (fun _ => bind (console_error "Error:")
                           (fun _ => FileHandler.showMessage (VStr "Error de conexión")
                                       "error")) w0).2 = Normal tt).
  { intros m w0. unfold try_catch. destruct (m w0) as [w1 [[]|e]]; [done|].
    unfold bind, console_error, modify.
    by rewrite FileHandler_showMessage_string. }
  split; [|split; [|split]].
  - unfold FileHandler.uploadFile_resume, try_finally.
    specialize (Hcaught (FileHandler.uploadFile_try o) w).
    by destruct (try_catch _ _ w) as [w1 r].
  - unfold FileHandler.uploadFile_resume, try_finally.
    destruct (try_catch _ _ w) as [w1 r]. by destruct w1.
  - unfold FileHandler.handleUpload_resume, try_finally.
    specialize (Hcaught (FileHandler.handleUpload_try o) w).
    destruct (try_catch _ _ w) as [w1 r]. cbn [snd] in Hcaught. subst r.
    unfold bind, modify.
    destruct (showProgress_state false (with_pdfHandler (set_isUploading false) w1))
      as (Hnormal & _).
    destruct (FileHandler.showProgress false _) as [w2 r2]. cbn [snd] in Hnormal.
    by rewrite Hnormal.
  - unfold FileHandler.handleUpload_resume, try_finally.
    destruct (try_catch _ _ w) as [w1 r]. unfold bind, modify.
    destruct (showProgress_state false (with_pdfHandler (set_isUploading false) w1))
      as (Hnormal & (Hpdf & _) & _).
    destruct (FileHandler.showProgress false _) as [w2 r2]. cbn [fst snd] in *.
    rewrite Hnormal. cbn [fst]. rewrite Hpdf. by destruct w1.
Qed.

(** X13: while an upload is awaiting its reply ([isUploading] is set) no
    other upload leaves the page: choosing a file, whatever its type,
    sends nothing and keeps the flag, and submitting the form or calling
    [uploadFile] returns at once without any change.  The flag is set by
    the call that sends a request: choosing a PDF, or submitting the form
    with a file selected, while no upload is running. *)
Theorem one_upload_at_a_time w :
  (isUploading (pdfHandler w) = true ->
   (forall event,
      (FileHandler.handleFileSelect event w).2 = Normal None /\
      requests (FileHandler.handleFileSelect event w).1 = requests w /\
      isUploading (pdfHandler (FileHandler.handleFileSelect event w).1) = true) /\
   FileHandler.handleUpload_start w = (w, Normal None) /\
   (forall file, FileHandler.uploadFile_start file w = (w, Normal None))) /\
  (isUploading (pdfHandler w) = false ->
   (forall event file rest,
      FileHandler.files event = file :: rest ->
      file_type file = "application/pdf" ->
      isUploading (pdfHandler (FileHandler.handleFileSelect event w).1) = true) /\
   (forall file,
      selectedFile (pdfHandler w) = Some file ->
      (FileHandler.handleUpload_start w).2
      = Normal (Some (FileHandler.upload_request file)) /\
      requests (FileHandler.handleUpload_start w).1
      = requests w ++ [FileHandler.upload_request file] /\
      isUploading (pdfHandler (FileHandler.handleUpload_start w).1) = true)).
Proof.
  split.
  - intros Hbusy. split; [|split].
    + intros event.
      destruct (FileHandler.handleFileSelect event w) as [w' r] eqn:Hrun.
      unfold FileHandler.handleFileSelect in Hrun.
      destruct (FileHandler.files event) as [|file rest].
      { injection Hrun as <- <-. done. }
      destruct (negb (String.eqb (file_type file) "application/pdf")).
      * unfold bind at 1 in Hrun. rewrite FileHandler_showMessage_string in Hrun.
        unfold bind, update_if_present, modify, ret in Hrun.
        injection Hrun as <- <-. by destruct w.
      * unfold FileHandler.uploadFile_start, bind, modify, gets in Hrun.
        assert (isUploading
                  (pdfHandler (with_pdfHandler (set_selectedFile (Some file)) w))
                = true) as Hstill by by destruct w.
        rewrite Hstill in Hrun. injection Hrun as <- <-. by destruct w.
    + unfold FileHandler.handleUpload_start, bind, gets. by rewrite Hbusy.
    + intros file. unfold FileHandler.uploadFile_start, bind, gets. by rewrite Hbusy.
  - intros Hidle. split.
    + intros event file rest Hfiles Htype%String.eqb_eq.
      destruct (FileHandler.handleFileSelect event w) as [w' r] eqn:Hrun.
      unfold FileHandler.handleFileSelect in Hrun.
      rewrite Hfiles, Htype in Hrun. cbn [negb] in Hrun.
      unfold bind at 1 in Hrun. unfold modify at 1 in Hrun.
      unfold FileHandler.uploadFile_start in Hrun.
      unfold bind at 1 in Hrun. unfold gets at 1 in Hrun.
      assert (isUploading
                (pdfHandler (with_pdfHandler (set_selectedFile (Some file)) w))
              = false) as Hstill by by destruct w.
      rewrite Hstill in Hrun.
      unfold bind at 1 in Hrun. unfold modify at 1 in Hrun.
      unfold bind at 1 in Hrun. rewrite FileHandler_showMessage_string in Hrun.
      unfold bind, fetch, modify, ret in Hrun.
      injection Hrun as <- <-. by destruct w.
    + intros file Hselected.
      destruct (FileHandler.handleUpload_start w) as [w' r] eqn:Hrun.
      unfold FileHandler.handleUpload_start in Hrun.
      unfold bind at 1 in Hrun. unfold gets at 1 in Hrun.
      rewrite Hidle, Hselected in Hrun.
      unfold bind at 1 in Hrun. unfold modify at 1 in Hrun.
      destruct (showProgress_state true (with_pdfHandler (set_isUploading true) w))
        as (Hnormal & (Hpdf & _ & _ & _ & _ & Hrequests & _) & _).
      unfold bind at 1 in Hrun.
      destruct (FileHandler.showProgress true _) as [w2 r2]. cbn [fst snd] in *.
      rewrite Hnormal in Hrun. unfold bind, fetch, modify, ret in Hrun.
      injection Hrun as <- <-. cbn [fst snd].
      split; [done|]. split.
      * destruct w2; cbn in *. rewrite Hrequests. by destruct w.
      * destruct w2; cbn in *. rewrite Hpdf. by destruct w.
Qed.

Lemma one_upload_at_a_time_witness :
  let w := (FileHandler.handleFileSelect {| FileHandler.files := [informe_pdf] |}
              loaded_world).1 in
  isUploading (pdfHandler loaded_world) = false /\
  isUploading (pdfHandler w) = true /\
  requests (FileHandler.handleFileSelect {| FileHandler.files := [informe_pdf] |} w).1
  = requests w.
Proof.
  intros w. split; [reflexivity|].
  destruct (one_upload_at_a_time loaded_world) as [_ Hidle].
  destruct (Hidle eq_refl) as [Hselect _].
  pose proof (Hselect {| FileHandler.files := [informe_pdf] |} informe_pdf []
                eq_refl eq_refl) as Hbusy.
  split; [exact Hbusy|].
  destruct (one_upload_at_a_time w) as [Hlocked _].
  destruct (Hlocked Hbusy) as [Hevents _].
  exact (proj1 (proj2 (Hevents {| FileHandler.files := [informe_pdf] |}))).
Defined.

Lemma removeFile_state w :
  let w' := (FileHandler.removeFile w).1 in
  (FileHandler.removeFile w).2 = Normal tt /\
  pdfHandler w' = set_selectedFile None (pdfHandler w) /\
  requests w' = requests w /\
  page w' !! "uploadMessage" = classList_remove "show" <$> page w !! "uploadMessage" /\
  page w' !! "pdfFile" = set_value "" <$> page w !! "pdfFile".
Proof.
  destruct w as [p c wp wc pg a r co]. simpl. repeat split.
  - by rewrite lookup_alter_eq, !lookup_alter_ne by done.
  - rewrite !lookup_alter_ne by done. by rewrite lookup_alter_eq.
Qed.

(** The [finally] block of [handleUpload]. *)
Lemma handleUpload_finally w :
  let w' := (bind (modify (with_pdfHandler (set_isUploading false)))
               (fun _ => FileHandler.showProgress false) w).1 in
  (bind (modify (with_pdfHandler (set_isUploading false)))
     (fun _ => FileHandler.showProgress false) w).2 = Normal tt /\
  pdfHandler w' = set_isUploading false (pdfHandler w) /\
  requests w' = requests w /\
  page w' !! "uploadMessage" = page w !! "uploadMessage".
Proof.
  unfold bind, modify.
  destruct (showProgress_state false (with_pdfHandler (set_isUploading false) w))
    as (Hnormal & (Hpdf & _ & _ & _ & _ & Hrequests & _) & Hpage).
  destruct (FileHandler.showProgress false _) as [w2 r2]. cbn [fst snd] in *.
  rewrite Hnormal, Hpdf, Hrequests, Hpage by done. by destruct w.
Qed.

(** X14: [handleUpload] judges an upload by the field [success] of the
    reply and not by the HTTP status.  For a JSON reply with a truthy
    [success], whatever the status, the selected file is dropped and a
    reload of the list is requested; the message element carries
    [Documento subido exitosamente] but no longer the class [show], which
    [removeFile] takes away in the same call.  For a reply whose [success]
    is missing or falsy the message reads [Error: ] followed by the
    reply's [error] (or [No se pudo subir el archivo]) and is shown, the
    selected file is kept and no request is sent. *)
Theorem handleUpload_verdict ok status data w :
  nullish data = false ->
  let w' := (FileHandler.handleUpload_resume (Response ok status (Some data)) w).1 in
  (truthy (Get_optional data "success") = true ->
   selectedFile (pdfHandler w') = None /\
   requests w' = requests w ++ [PdfHandler.documents_request] /\
   exists messageEl,
     page w' !! "uploadMessage" = Some messageEl /\
     el_content messageEl = [TextNode "Documento subido exitosamente"] /\
     el_classes messageEl = ["upload-message-compact"; "success"]) /\
  (truthy (Get_optional data "success") = false ->
   forall reason,
     ToString (or_else (Get_optional data "error") (VStr "No se pudo subir el archivo"))
     = Normal reason ->
     selectedFile (pdfHandler w') = selectedFile (pdfHandler w) /\
     requests w' = requests w /\
     exists messageEl,
       page w' !! "uploadMessage" = Some messageEl /\
       el_content messageEl = [TextNode ("Error: " +:+ reason)] /\
       el_classes messageEl = ["upload-message-compact"; "error"; "show"]).
Proof.
  intros Hdata w'. subst w'.
  pose proof (Get_not_nullish data "success" Hdata) as Hsuccess.
  pose proof (Get_not_nullish data "error" Hdata) as Herror.
  split.
  - intros Htruthy.
    set (shown := set_element "uploadMessage"
                    (set_classes ["upload-message-compact"; "success"; "show"]
                       (set_content [TextNode "Documento subido exitosamente"]
                          (default createElement (page w !! "uploadMessage")))) w).
    destruct (removeFile_state shown) as (Hnormal & Hpdf & Hrequests & Hmessage & _).
    assert (Htry :
      FileHandler.handleUpload_try (Response ok status (Some data)) w
      = (with_request PdfHandler.documents_request (FileHandler.removeFile shown).1,
         Normal tt)).
    { unfold FileHandler.handleUpload_try.
      unfold bind at 1. unfold lift at 1. rewrite Hsuccess, Htruthy.
      unfold bind at 1. rewrite FileHandler_showMessage_string. fold shown.
      unfold bind at 1.
      destruct (FileHandler.removeFile shown) as [w2 r2]. cbn [fst snd] in *.
      by rewrite Hnormal. }
    set (w3 := with_request PdfHandler.documents_request
                 (FileHandler.removeFile shown).1) in Htry.
    destruct (handleUpload_finally w3) as (Hnormal4 & Hpdf4 & Hrequests4 & Hmessage4).
    unfold FileHandler.handleUpload_resume, try_finally, try_catch. rewrite Htry.
    destruct (bind _ _ w3) as [w4 r4]. cbn [fst snd] in *. rewrite Hnormal4.
    cbn [fst]. rewrite Hpdf4, Hrequests4, Hmessage4.
    assert (H3 : pdfHandler w3 = pdfHandler (FileHandler.removeFile shown).1 /\
                 requests w3
                 = requests (FileHandler.removeFile shown).1
                   ++ [PdfHandler.documents_request] /\
                 page w3 = page (FileHandler.removeFile shown).1)
      by (subst w3; by destruct (FileHandler.removeFile shown).1).
    destruct H3 as (-> & -> & ->).
    rewrite Hpdf, Hrequests, Hmessage. subst shown. rewrite page_set_element.
    split; [done|]. split; [by destruct w|].
    eexists. split; [reflexivity|]. split; reflexivity.
  - intros Hfalsy reason Hreason.
    set (shown := set_element "uploadMessage"
                    (set_classes ["upload-message-compact"; "error"; "show"]
                       (set_content [TextNode ("Error: " +:+ reason)]
                          (default createElement (page w !! "uploadMessage")))) w).
    assert (Htry :
      FileHandler.handleUpload_try (Response ok status (Some data)) w
      = (shown, Normal tt)).
    { unfold FileHandler.handleUpload_try.
      unfold bind at 1. unfold lift at 1. rewrite Hsuccess, Hfalsy.
      unfold bind at 1. unfold lift at 1. rewrite Herror.
      unfold bind at 1. unfold lift at 1. rewrite Hreason.
      by rewrite FileHandler_showMessage_string. }
    destruct (handleUpload_finally shown) as (Hnormal4 & Hpdf4 & Hrequests4 & Hmessage4).
    unfold FileHandler.handleUpload_resume, try_finally, try_catch. rewrite Htry.
    destruct (bind _ _ shown) as [w4 r4]. cbn [fst snd] in *. rewrite Hnormal4.
    cbn [fst]. rewrite Hpdf4, Hrequests4, Hmessage4.
    subst shown. rewrite page_set_element.
    split; [by destruct w|]. split; [by destruct w|].
    eexists. split; [reflexivity|]. split; reflexivity.
Qed.

Lemma handleUpload_verdict_witness :
  let reply := VObj [("success", VBool true)] in
  nullish reply = false /\
  truthy (Get_optional reply "success") = true /\
  el_classes <$> page (FileHandler.handleUpload_resume (Response false 500 (Some reply))
                         loaded_world).1 !! "uploadMessage"
  = Some ["upload-message-compact"; "success"].
Proof.
  intros reply. split; [reflexivity|]. split; [reflexivity|].
  destruct (proj1 (handleUpload_verdict false 500 reply loaded_world eq_refl) eq_refl)
    as (_ & _ & messageEl & -> & _ & Hclasses).
  by rewrite <- Hclasses.
Defined.

Lemma FileHandler_showMessage_text text shown type w :
  textContent_of text = Normal shown ->
  FileHandler.showMessage text type w
  = FileHandler.showMessage (VStr shown) type w.
Proof.
  intros Htext. unfold FileHandler.showMessage, bind, lift.
  rewrite Htext. reflexivity.
Qed.

(** X15: [uploadFile] judges an upload by the HTTP status and not by the
    body of the reply.  For a reply that is ok (its JSON body may be
    anything) the message [Archivo subido exitosamente] is shown, the file
    input is cleared, the selected file is dropped, and a reload of the
    list is requested if the page has a [window.pdfHandler].  For a reply
    that is not ok the message is the reply's [error] (or [Error al subir
    el archivo]), shown as an error; the selected file is kept and no
    request is sent. *)
Theorem uploadFile_verdict status result w input :
  page w !! "pdfFile" = Some input ->
  (let w' := (FileHandler.uploadFile_resume (Response true status (Some result)) w).1 in
   selectedFile (pdfHandler w') = None /\
   page w' !! "pdfFile" = Some (set_value "" input) /\
   requests w'
   = requests w ++ (if window_pdfHandler w then [PdfHandler.documents_request] else []) /\
   exists messageEl,
     page w' !! "uploadMessage" = Some messageEl /\
     el_content messageEl = [TextNode "Archivo subido exitosamente"] /\
     el_classes messageEl = ["upload-message-compact"; "success"; "show"]) /\
  (nullish result = false ->
   forall shown,
     textContent_of (or_else (Get_optional result "error")
                       (VStr "Error al subir el archivo")) = Normal shown ->
     let w' := (FileHandler.uploadFile_resume (Response false status (Some result)) w).1 in
     selectedFile (pdfHandler w') = selectedFile (pdfHandler w) /\
     requests w' = requests w /\
     exists messageEl,
       page w' !! "uploadMessage" = Some messageEl /\
       el_content messageEl = [TextNode shown] /\
       el_classes messageEl = ["upload-message-compact"; "error"; "show"]).
Proof.
  intros Hinput. split.
  - intros w'. subst w'.
    set (shown := set_element "uploadMessage"
                    (set_classes ["upload-message-compact"; "success"; "show"]
                       (set_content [TextNode "Archivo subido exitosamente"]
                          (default createElement (page w !! "uploadMessage")))) w).
    assert (Hinput1 : page shown !! "pdfFile" = Some input).
    { subst shown. by rewrite page_set_element_ne. }
    set (cleared := set_element "pdfFile" (set_value "" input) shown).
    set (dropped := with_pdfHandler (set_selectedFile None) cleared).
    assert (Htry :
      FileHandler.uploadFile_try (Response true status (Some result)) w
      = (if window_pdfHandler w
         then with_request PdfHandler.documents_request dropped else dropped,
         Normal tt)).
    { unfold FileHandler.uploadFile_try.
      unfold bind at 1. rewrite FileHandler_showMessage_string. fold shown.
      unfold bind at 1. rewrite (update_present _ _ _ input) by done. fold cleared.
      unfold bind at 1. unfold modify at 1. fold dropped.
      unfold bind at 1. unfold gets at 1.
      assert (window_pdfHandler dropped = window_pdfHandler w) as -> by by destruct w.
      by destruct (window_pdfHandler w). }
    unfold FileHandler.uploadFile_resume, try_finally, try_catch. rewrite Htry.
    unfold modify. cbn [fst].
    assert (Hdropped :
      selectedFile (pdfHandler dropped) = None /\
      page dropped !! "pdfFile" = Some (set_value "" input) /\
      requests dropped = requests w /\
      page dropped !! "uploadMessage"
      = Some (set_classes ["upload-message-compact"; "success"; "show"]
                (set_content [TextNode "Archivo subido exitosamente"]
                   (default createElement (page w !! "uploadMessage"))))).
    { subst dropped cleared.
      assert (forall w0, page (with_pdfHandler (set_selectedFile None) w0) = page w0)
        as -> by by intros [].
      rewrite page_set_element, page_set_element_ne by done.
      subst shown. rewrite page_set_element. by destruct w. }
    destruct Hdropped as (Hfile & Hcleared & Hrequests & Hmessage).
    destruct (window_pdfHandler w).
    + assert (Hsame :
        selectedFile (pdfHandler (with_pdfHandler (set_isUploading false)
                                    (with_request PdfHandler.documents_request dropped)))
        = selectedFile (pdfHandler dropped) /\
        page (with_pdfHandler (set_isUploading false)
                (with_request PdfHandler.documents_request dropped))
        = page dropped /\
        requests (with_pdfHandler (set_isUploading false)
                    (with_request PdfHandler.documents_request dropped))
        = requests dropped ++ [PdfHandler.documents_request])
        by by destruct dropped.
      destruct Hsame as (-> & -> & ->). rewrite Hfile, Hcleared, Hrequests, Hmessage.
      repeat split; try done. by eexists.
    + assert (Hsame :
        selectedFile (pdfHandler (with_pdfHandler (set_isUploading false) dropped))
        = selectedFile (pdfHandler dropped) /\
        page (with_pdfHandler (set_isUploading false) dropped) = page dropped /\
        requests (with_pdfHandler (set_isUploading false) dropped) = requests dropped)
        by by destruct dropped.
      destruct Hsame as (-> & -> & ->). rewrite Hfile, Hcleared, Hrequests, Hmessage.
      rewrite app_nil_r. repeat split; try done. by eexists.
  - intros Hresult shown Hshown w'. subst w'.
    assert (Htry :
      FileHandler.uploadFile_try (Response false status (Some result)) w
      = (set_element "uploadMessage"
           (set_classes ["upload-message-compact"; "error"; "show"]
              (set_content [TextNode shown]
                 (default createElement (page w !! "uploadMessage")))) w,
         Normal tt)).
    { unfold FileHandler.uploadFile_try.
      unfold bind at 1. unfold lift at 1.
      rewrite (Get_not_nullish result "error" Hresult).
      rewrite (FileHandler_showMessage_text _ shown) by done.
      by rewrite FileHandler_showMessage_string. }
    unfold FileHandler.uploadFile_resume, try_finally, try_catch. rewrite Htry.
    unfold modify. cbn [fst].
    set (after := set_element "uploadMessage" _ w).
    assert (Hafter :
      selectedFile (pdfHandler (with_pdfHandler (set_isUploading false) after))
      = selectedFile (pdfHandler w) /\
      requests (with_pdfHandler (set_isUploading false) after) = requests w /\
      page (with_pdfHandler (set_isUploading false) after) = page after)
      by by destruct w.
    destruct Hafter as (-> & -> & ->). subst after. rewrite page_set_element.
    repeat split; try done. by eexists.
Qed.

Lemma uploadFile_verdict_witness :
  page loaded_world !! "pdfFile" = Some createElement /\
  requests (FileHandler.uploadFile_resume
              (Response true 200 (Some (VObj [("success", VBool false)])))
              loaded_world).1
  = [PdfHandler.documents_request] /\
  el_content <$> page (FileHandler.uploadFile_resume
                         (Response false 413 (Some (VObj [("error", VStr "Muy grande")])))
                         loaded_world).1 !! "uploadMessage"
  = Some [TextNode "Muy grande"].
Proof.
  split; [reflexivity|].
  destruct (uploadFile_verdict 200 (VObj [("success", VBool false)]) loaded_world
              createElement eq_refl) as [(_ & _ & Hrequests & _) _].
  split; [exact Hrequests|].
  destruct (uploadFile_verdict 413 (VObj [("error", VStr "Muy grande")]) loaded_world
              createElement eq_refl) as [_ Hfailed].
  destruct (Hfailed eq_refl "Muy grande" eq_refl) as (_ & _ & messageEl & -> & <- & _).
  reflexivity.
Defined.

(** ** The table, whatever the documents *)

(** X16: whether [renderTable] returns or throws, and what the table body
    holds once it has returned, depend on the documents, the filter and the
    query alone, for any documents whatever.  When it returns, the body
    holds that content in place of what it showed before (no earlier row
    survives) and nothing else of the state has changed. *)
Theorem renderTable_replaces_content docs currentFilter searchQuery :
  exists content result,
    forall w body,
      page w !! TableRenderer.tbody = Some body ->
      (TableRenderer.renderTable docs currentFilter searchQuery w).2 = result /\
      (result = Normal tt ->
       (TableRenderer.renderTable docs currentFilter searchQuery w).1
       = set_element TableRenderer.tbody (set_content content body) w).
Proof.
  set (by_status :=
         if negb (String.eqb currentFilter "todos")
         then array_filter "filteredDocs.filter"
               (TableRenderer.status_matches currentFilter) docs
         else Normal docs).
  set (by_query := fun filtered =>
         if negb (String.eqb (trim searchQuery) "")
         then array_filter "filteredDocs.filter"
               (TableRenderer.query_matches (toLowerCase searchQuery))
                filtered
         else Normal filtered).
  set (filled := fun shown =>
         match Get shown "length" with
         | Throw e => ([], Throw e)
         | Normal len =>
             if strict_eq_num len 0 then ([EmptyState], Normal tt)
             else match shown with
                  | VArr items => rows_of items
                  | VUndefined | VNull => ([], Normal tt)
                  | _ => ([], Throw (not_a_function "filteredDocs.forEach"))
                  end
         end).
  set (outcome :=
         match by_status with
         | Throw e => ([], Throw e)
         | Normal filtered =>
             match by_query filtered with
             | Throw e => ([], Throw e)
             | Normal shown => filled shown
             end
         end).
  exists outcome.1, outcome.2. intros w body Hbody.
  destruct (TableRenderer.renderTable docs currentFilter searchQuery w)
    as [w' r] eqn:Hrun.
  unfold TableRenderer.renderTable in Hrun.
  unfold bind at 1 in Hrun. unfold getElementById at 1, gets in Hrun.
  rewrite Hbody in Hrun. unfold bind at 1 in Hrun.
  assert (Hfirst :
    (if negb (String.eqb currentFilter "todos")
     then lift (array_filter "filteredDocs.filter"
           (TableRenderer.status_matches currentFilter) docs)
     else ret docs) w = (w, by_status)).
  { subst by_status. by destruct (negb (String.eqb currentFilter "todos")). }
  rewrite Hfirst in Hrun. clear Hfirst. subst outcome.
  destruct by_status as [filtered|e]; [|by injection Hrun as <- <-].
  unfold bind at 1 in Hrun.
  assert (Hsecond :
    (if negb (String.eqb (trim searchQuery) "")
     then lift (array_filter "filteredDocs.filter"
           (TableRenderer.query_matches (toLowerCase searchQuery))
                  filtered)
     else ret filtered) w = (w, by_query filtered)).
  { subst by_query. cbv beta. by destruct (negb (String.eqb (trim searchQuery) "")). }
  rewrite Hsecond in Hrun. clear Hsecond.
  destruct (by_query filtered) as [shown|e]; [|by injection Hrun as <- <-].
  unfold bind at 1 in Hrun.
  rewrite (update_if_present_Some _ _ body) in Hrun by done.
  set (w1 := set_element TableRenderer.tbody (set_content [] body) w) in Hrun.
  assert (Hbody1 : page w1 !! TableRenderer.tbody = Some (set_content [] body))
    by apply page_set_element.
  unfold bind at 1 in Hrun. unfold lift at 1 in Hrun. subst filled. cbv beta.
  destruct (Get shown "length") as [len|e] eqn:Hlen;
    [|by injection Hrun as <- <-].
  destruct (strict_eq_num len 0).
  - unfold TableRenderer.showEmptyState in Hrun.
    rewrite (update_if_present_Some _ _ (set_content [] body)) in Hrun by done.
    injection Hrun as <- <-. cbn [fst snd]. split; [done|]. intros _.
    subst w1. by rewrite set_element_twice.
  - unfold TableRenderer.array_forEach in Hrun.
    destruct shown as [| | | | |items| |]; try discriminate Hlen;
      try (injection Hrun as <- <-; by split).
    rewrite (forEachM_rows_of items w1 (set_content [] body) Hbody1) in Hrun.
    injection Hrun as <- <-. split; [done|]. intros _.
    subst w1. by rewrite set_element_twice.
Qed.

(** ** The search and the case of the query *)


(** ** The name cell of a row *)

Lemma prefix_empty s : String.prefix "" s = true.
Proof. by destruct s. Qed.

Lemma includes_cons c x s :
  includes (String x s) (String c "")
  = if ascii_dec c x then true else includes s (String c "").
Proof.
  cbn [includes String.prefix]. destruct (ascii_dec c x); [|done].
  by rewrite prefix_empty.
Qed.

Lemma includes_char_app c a b :
  includes (a +:+ b) (String c "")
  = includes a (String c "") || includes b (String c "").
Proof.
  induction a as [|x a IH]; [done|].
  change (String x a +:+ b) with (String x (a +:+ b)).
  rewrite !includes_cons. by destruct (ascii_dec c x).
Qed.

(** Induction on a text that takes its bytes one or two at a time. *)
Lemma string_pairs_ind (P : string -> Prop) :
  P "" -> (forall x, P (String x "")) ->
  (forall x y s, P s -> P (String y s) -> P (String x (String y s))) ->
  forall s, P s.
Proof.
  intros Hempty Hone Hmore s.
  assert (P s /\ forall x, P (String x s)) as [? _]; [|done].
  induction s as [|y s [IH IH']]; [by split|].
  split; [apply IH'|]. intros x. by apply Hmore.
Qed.

Lemma escapeHtml_cons x rest :
  TableRenderer.escapeHtml (String x rest)
  = if Ascii.eqb x "&" then "&amp;" +:+ TableRenderer.escapeHtml rest
    else if Ascii.eqb x "<" then "&lt;" +:+ TableRenderer.escapeHtml rest
    else if Ascii.eqb x ">" then "&gt;" +:+ TableRenderer.escapeHtml rest
    else match rest with
         | String y rest' =>
             if Ascii.eqb x (byte 194) && Ascii.eqb y (byte 160)
             then "&nbsp;" +:+ TableRenderer.escapeHtml rest'
             else String x (TableRenderer.escapeHtml rest)
         | EmptyString => String x EmptyString
         end.
Proof. by destruct rest. Qed.

Lemma escapeHtml_no_bracket c text :
  c = "<"%char \/ c = ">"%char ->
  includes (TableRenderer.escapeHtml text) (String c "") = false.
Proof.
  intros Hc. induction text as [|x|x y text IH IH'] using string_pairs_ind;
    [done| |]; rewrite escapeHtml_cons;
    (destruct (Ascii.eqb_spec x "&");
     [rewrite includes_char_app, ?IH'; by destruct Hc as [->| ->]|]);
    (destruct (Ascii.eqb_spec x "<");
     [rewrite includes_char_app, ?IH'; by destruct Hc as [->| ->]|]);
    (destruct (Ascii.eqb_spec x ">");
     [rewrite includes_char_app, ?IH'; by destruct Hc as [->| ->]|]).
  - rewrite includes_cons. destruct (ascii_dec c x) as [<-|]; [|done].
    by destruct Hc as [->| ->].
  - destruct (Ascii.eqb x (byte 194) && Ascii.eqb y (byte 160)).
    + rewrite includes_char_app, IH. by destruct Hc as [->| ->].
    + rewrite includes_cons, IH'. destruct (ascii_dec c x) as [<-|]; [|done].
      by destruct Hc as [->| ->].
Qed.

Lemma ascii_is_no_lead_byte x :
  Nat.ltb (nat_of_ascii x) 128 = true -> Ascii.eqb x (byte 194) = false.
Proof. intros Hx. destruct (Ascii.eqb_spec x (byte 194)) as [->|]; done. Qed.

Lemma escapeHtml_plain text :
  is_ascii_text text = true ->
  includes text "&" = false -> includes text "<" = false ->
  includes text ">" = false ->
  TableRenderer.escapeHtml text = text.
Proof.
  induction text as [|x|x y text IH IH'] using string_pairs_ind; [done| |];
    rewrite !(includes_cons _ x);
    (destruct (ascii_dec "&" x) as [|Hamp]; [done|]);
    (destruct (ascii_dec "<" x) as [|Hlt]; [done|]);
    (destruct (ascii_dec ">" x) as [|Hgt]; [done|]);
    intros Hascii ? ? ?; rewrite escapeHtml_cons;
    (destruct (Ascii.eqb_spec x "&"); [done|]);
    (destruct (Ascii.eqb_spec x "<"); [done|]);
    (destruct (Ascii.eqb_spec x ">"); [done|]); [done|].
  cbn [is_ascii_text] in Hascii. apply andb_prop in Hascii as [Hx Hrest].
  rewrite (ascii_is_no_lead_byte x Hx). cbn [andb]. by rewrite IH'.
Qed.

Lemma render_row_name doc r :
  TableRenderer.render_row doc = Normal r ->
  exists name, row_name r = TableRenderer.escapeHtml name.
Proof.
  unfold TableRenderer.render_row, cbind. intros Hrow.
  repeat match type of Hrow with
         | match ?c with Normal _ => _ | Throw _ => _ end = _ =>
             destruct c; [|discriminate Hrow]
         end.
  injection Hrow as <-. by eexists.
Qed.

(** X18: the name of a document is escaped before it enters the table: the
    name cell of a row never contains [<] or [>], whatever the document
    holds, and an ASCII name without [&], [<] and [>] is shown as it is. *)
Theorem name_cell_is_escaped :
  (forall doc r,
     TableRenderer.render_row doc = Normal r ->
     includes (row_name r) "<" = false /\ includes (row_name r) ">" = false) /\
  (forall text,
     includes (TableRenderer.escapeHtml text) "<" = false /\
     includes (TableRenderer.escapeHtml text) ">" = false) /\
  (forall text,
     is_ascii_text text = true ->
     includes text "&" = false -> includes text "<" = false ->
     includes text ">" = false ->
     TableRenderer.escapeHtml text = text).
Proof.
  split; [|split].
  - intros doc r (name & ->)%render_row_name.
    split; apply escapeHtml_no_bracket; auto.
  - intros text. split; apply escapeHtml_no_bracket; auto.
  - apply escapeHtml_plain.
Qed.

Lemma name_cell_is_escaped_witness :
  let doc := VObj [("id", VNum 3); ("nombre_pdf", VStr "<b>Acta</b> & anexos.pdf")] in
  exists r,
    TableRenderer.render_row doc = Normal r /\
    row_name r = "&lt;b&gt;Acta&lt;/b&gt; &amp; anexos.pdf" /\
    includes (row_name r) "<" = false.
Proof.
  intros doc.
  destruct (TableRenderer.render_row doc) as [r|e] eqn:Hrow;
    [|by vm_compute in Hrow].
  exists r. split; [done|]. split.
  - vm_compute in Hrow. by injection Hrow as <-.
  - exact (proj1 (proj1 name_cell_is_escaped doc r Hrow)).
Defined.

(** ** The details view *)

(** X19: the content of the details view depends on nine fields of the
    document only: the two names, the status, the size, the reception
    date, the origin domain, [content_info], [processing_info] and
    [contenido_json].  Two documents that agree on these are shown alike;
    in particular [ai_info], which [generateDetailContent] reads, the id
    and the Drive link have no influence on what is shown. *)
Theorem generateDetailContent_reads doc other :
  nullish doc = false ->
  nullish other = false ->
  (forall k,
     k ∈ ["nombre_pdf"; "filename"; "estado_procesamiento"; "tamano_archivo";
          "fecha_hora_recepcion"; "dominio_origen"; "content_info";
          "processing_info"; "contenido_json"] ->
     Get_optional other k = Get_optional doc k) ->
  DocumentDetails.generateDetailContent other
  = DocumentDetails.generateDetailContent doc.
Proof.
  intros Hdoc Hother Hsame.
  unfold DocumentDetails.generateDetailContent, DocumentDetails.basic_section.
  rewrite !(Get_not_nullish doc), !(Get_not_nullish other) by done.
  cbn [cbind].
  rewrite !Hsame by (rewrite !elem_of_cons; tauto).
  reflexivity.
Qed.

Lemma generateDetailContent_reads_witness :
  let shown := VObj [("nombre_pdf", VStr "Informe.pdf");
                     ("estado_procesamiento", VStr "procesado")] in
  let served := VObj [("id", VNum 1); ("nombre_pdf", VStr "Informe.pdf");
                      ("estado_procesamiento", VStr "procesado");
                      ("ai_info", VObj [("summary", VStr "Resumen")]);
                      ("url_google_drive", VStr "https://drive.example/1")] in
  DocumentDetails.generateDetailContent served
  = DocumentDetails.generateDetailContent shown.
Proof.
  intros shown served.
  apply (generateDetailContent_reads shown served eq_refl eq_refl).
  intros k. rewrite !elem_of_cons, elem_of_nil.
  intros [->|[->|[->|[->|[->|[->|[->|[->|[->|[]]]]]]]]]]; reflexivity.
Defined.

(** X20: a processing time that is present and is not a number (a number
    served as a string, say) makes [generateDetailContent] throw, as
    [toFixed] is called on it; and [showDocumentDetails] on such a
    document then throws before it touches the modal, without any
    alert. *)
Theorem details_reject_duration doc info time :
  Get_optional doc "processing_info" = info ->
  truthy info = true ->
  Get_optional info "processing_time" = time ->
  nullish time = false ->
  (forall n, time <> VNum n) ->
  (exists e, DocumentDetails.generateDetailContent doc = Throw e) /\
  (forall docId m w,
     array_find "this.pdfHandler.documents.find"
           (fun d => id <~ Get d "id" ;; loose_eq id docId)
       (documents (pdfHandler w)) = Normal doc ->
     exists e, DocumentDetails.showDocumentDetails docId m w = (w, Throw e)).
Proof.
  intros Hinfo Htruthy Htime Hpresent Hnumber.
  assert (Hdoc : nullish doc = false).
  { destruct doc; try done; by subst info. }
  assert (Hthrows : exists e, DocumentDetails.generateDetailContent doc = Throw e).
  { unfold DocumentDetails.generateDetailContent.
    rewrite !(Get_not_nullish doc) by done. cbn [cbind]. rewrite Hinfo, Htruthy.
    destruct (DocumentDetails.basic_section doc) as [basic|e]; [|by eexists].
    cbn [cbind].
    destruct (if truthy (Get_optional doc "content_info") then _ else _)
      as [analysis|e]; [|by eexists].
    cbn [cbind].
    assert (Hsection : exists e, DocumentDetails.processing_section info = Throw e).
    { unfold DocumentDetails.processing_section, DocumentDetails.processing_time_text.
      rewrite !(Get_not_nullish info) by by destruct info.
      cbn [cbind]. rewrite Htime, Hpresent.
      destruct (DocumentDetails.formatDate _) as [date|e]; [|by eexists].
      cbn [cbind].
      destruct time as [| | |n| | | |]; try done; try (by eexists).
      by destruct (Hnumber n). }
    destruct Hsection as [e ->]. by eexists. }
  split; [exact Hthrows|].
  intros docId m w Hfind. destruct Hthrows as [e Hthrows]. exists e.
  unfold DocumentDetails.showDocumentDetails, bind, gets, lift.
  rewrite Hfind.
  assert (truthy doc = true) as -> by (destruct doc; try done; by subst info).
  cbn [negb]. by rewrite Hthrows.
Qed.

Lemma details_reject_duration_witness :
  let info := VObj [("processing_time", VStr "1.5")] in
  let doc := VObj [("id", VNum 1); ("nombre_pdf", VStr "Informe.pdf");
                   ("processing_info", info)] in
  Get_optional doc "processing_info" = info /\
  (exists e, DocumentDetails.generateDetailContent doc = Throw e) /\
  (exists sections,
     DocumentDetails.generateDetailContent
       (VObj [("id", VNum 1); ("nombre_pdf", VStr "Informe.pdf");
              ("processing_info", VObj [("processing_time", VNum 2)])])
     = Normal sections).
Proof.
  intros info doc. split; [reflexivity|]. split.
  - exact (proj1 (details_reject_duration doc info (VStr "1.5") eq_refl eq_refl
                    eq_refl eq_refl ltac:(discriminate))).
  - eexists. reflexivity.
Defined.

Lemma classList_add_has c e : c ∈ el_classes (classList_add c e).
Proof.
  unfold classList_add.
  destruct (existsb (String.eqb c) (el_classes e)) eqn:Hhas.
  - apply existsb_exists in Hhas as (c' & Hin & ->%String.eqb_eq).
    by apply list_elem_of_In.
  - destruct e. simpl. set_solver.
Qed.

Lemma classList_remove_has_not c e : c ∉ el_classes (classList_remove c e).
Proof.
  destruct e as [v d p classes content]. simpl.
  intros [_ Hkept]%list_elem_of_In%filter_In.
  by rewrite String.eqb_refl in Hkept.
Qed.

(** X21: [showDocumentDetails] opens the modal only for an id that the
    loaded list holds: for an unknown id it alerts [Documento no
    encontrado] and leaves the modal as it is.  For a known id it fills the
    modal with the content generated for the first document with that id
    (under [==]) and adds the class [show], changing nothing else;
    [closeModal] then takes the class away and keeps the content. *)
Theorem showDocumentDetails_cases docId docs m w :
  documents (pdfHandler w) = VArr docs ->
  Forall (fun d => is_document d = true) docs ->
  identifier docId = true ->
  (Forall (fun d => has_id docId d = false) docs ->
   DocumentDetails.showDocumentDetails docId m w
   = (with_alert "Documento no encontrado" w, Normal m)) /\
  (forall before doc after details,
     docs = before ++ doc :: after ->
     Forall (fun d => has_id docId d = false) before ->
     has_id docId doc = true ->
     DocumentDetails.generateDetailContent doc = Normal details ->
     exists shown,
       DocumentDetails.showDocumentDetails docId m w = (w, Normal shown) /\
       DocumentDetails.modal_details shown = details /\
       ("show" ∈ el_classes (DocumentDetails.modal_element shown)) /\
       ("show" ∉ el_classes
                   (DocumentDetails.modal_element (DocumentDetails.closeModal shown))) /\
       DocumentDetails.modal_details (DocumentDetails.closeModal shown) = details).
Proof.
  intros Hlist Hdocs HdocId. split.
  - intros Hno.
    unfold DocumentDetails.showDocumentDetails, bind, gets, lift. rewrite Hlist.
    cbn [array_find]. by rewrite (findM_no_match docId docs).
  - intros before doc after details -> Hno Hyes Hdetails.
    apply Forall_app in Hdocs as [Hbefore [Hdoc _]%Forall_cons].
    eexists. split.
    + unfold DocumentDetails.showDocumentDetails, bind, gets, lift. rewrite Hlist.
      cbn [array_find]. rewrite (findM_first_match docId before doc after) by done.
      destruct (is_document_fields doc Hdoc) as (fields & ->).
      cbn [truthy negb]. rewrite Hdetails. reflexivity.
    + cbn [DocumentDetails.modal_details DocumentDetails.modal_element
           DocumentDetails.closeModal].
      split; [done|]. split; [apply classList_add_has|].
      split; [apply classList_remove_has_not|done].
Qed.

Lemma showDocumentDetails_cases_witness :
  let w := with_pdfHandler (set_documents (VArr [informe; acta])) loaded_world in
  alerts (DocumentDetails.showDocumentDetails (VNum 9) DocumentDetails.createModal w).1
  = ["Documento no encontrado"] /\
  exists shown,
    DocumentDetails.showDocumentDetails (VStr "2") DocumentDetails.createModal w
    = (w, Normal shown) /\
    DocumentDetails.generateDetailContent acta
    = Normal (DocumentDetails.modal_details shown) /\
    el_classes (DocumentDetails.modal_element shown) = ["document-modal"; "show"].
Proof.
  intros w.
  destruct (showDocumentDetails_cases (VNum 9) [informe; acta]
              DocumentDetails.createModal w eq_refl ltac:(repeat constructor) eq_refl)
    as [Hunknown _].
  rewrite (Hunknown ltac:(repeat constructor)). split; [reflexivity|].
  destruct (DocumentDetails.generateDetailContent acta) as [details|e] eqn:Hdetails;
    [|by vm_compute in Hdetails].
  destruct (showDocumentDetails_cases (VStr "2") [informe; acta]
              DocumentDetails.createModal w eq_refl ltac:(repeat constructor) eq_refl)
    as [_ Hknown].
  destruct (Hknown [informe] acta [] details eq_refl ltac:(repeat constructor)
              eq_refl Hdetails) as (shown & Hrun & Hcontent & _).
  exists shown. split; [exact Hrun|]. split; [by rewrite Hcontent|].
  vm_compute in Hrun. by injection Hrun as <-.
Defined.

(** ** The progress indicator of the upload form *)




(** ** The question of the delete dialog *)

(** X23: the dialog that [deleteDocument] opens names the first document
    of the list with the given id by its [nombre_pdf], or else by its
    [filename], or else as [documento].  For an id that the list does not
    hold the dialog is opened all the same and speaks of [documento]:
    there is no alert as in [selectDocument], and nothing of the state
    changes. *)
Theorem deleteDocument_question_names docId docs w :
  documents (pdfHandler w) = VArr docs ->
  Forall (fun d => is_document d = true) docs ->
  identifier docId = true ->
  (Forall (fun d => has_id docId d = false) docs ->
   PdfHandler.deleteDocument_question docId w
   = (w, Normal ("¿Estás seguro de que quieres eliminar " +:+ dquote +:+ "documento"
                 +:+ dquote +:+ "?"))) /\
  (forall before fields after,
     docs = before ++ VObj fields :: after ->
     Forall (fun d => has_id docId d = false) before ->
     has_id docId (VObj fields) = true ->
     exists name,
       ToString (or_else (get_member fields "nombre_pdf")
                   (or_else (get_member fields "filename") (VStr "documento")))
       = Normal name /\
       PdfHandler.deleteDocument_question docId w
       = (w, Normal ("¿Estás seguro de que quieres eliminar " +:+ dquote +:+ name
                     +:+ dquote +:+ "?"))).
Proof.
  intros Hlist Hdocs HdocId. split.
  - intros Hno.
    unfold PdfHandler.deleteDocument_question, bind, gets, lift. rewrite Hlist.
    cbn [array_find]. by rewrite (findM_no_match docId docs).
  - intros before fields after -> Hno Hyes.
    apply Forall_app in Hdocs as [Hbefore [Hdoc _]%Forall_cons].
    assert (Hname : exists name,
              ToString (or_else (get_member fields "nombre_pdf")
                          (or_else (get_member fields "filename") (VStr "documento")))
              = Normal name).
    { simpl in Hdoc. repeat (apply andb_prop in Hdoc as [Hdoc ?]).
      apply ToString_scalar. auto using scalar_or_else, optional_string_scalar. }
    destruct Hname as [name Hname]. exists name. split; [done|].
    unfold PdfHandler.deleteDocument_question, bind, gets, lift, ret. rewrite Hlist.
    cbn [array_find].
    rewrite (findM_first_match docId before (VObj fields) after) by done.
    cbn [truthy Get]. by rewrite Hname.
Qed.

Lemma deleteDocument_question_names_witness :
  let w := with_pdfHandler (set_documents (VArr [informe; acta])) loaded_world in
  PdfHandler.deleteDocument_question (VNum 9) w
  = (w, Normal ("¿Estás seguro de que quieres eliminar " +:+ dquote +:+ "documento"
                +:+ dquote +:+ "?")) /\
  (PdfHandler.deleteDocument_question (VNum 2) w).2
  = Normal ("¿Estás seguro de que quieres eliminar " +:+ dquote +:+ "acta.pdf"
            +:+ dquote +:+ "?").
Proof.
  intros w.
  destruct (deleteDocument_question_names (VNum 9) [informe; acta] w eq_refl
              ltac:(repeat constructor) eq_refl) as [Hunknown _].
  split; [exact (Hunknown ltac:(repeat constructor))|].
  reflexivity.
Defined.

(** ** Documents with missing fields *)

Lemma enableChat_elsewhere documentId id w :
  id <> "chatInput" -> id <> "sendChatBtn" -> id <> "chat-status" ->
  id <> "chatMessages" ->
  page (ChatHandler.enableChat documentId w).1 !! id = page w !! id.
Proof.
  intros. destruct w as [p c wp wc pg a r co]. simpl.
  by rewrite !lookup_alter_ne by done.
Qed.

(** X24: [selectDocument] names the document in two places with two
    different fallbacks.  The chat title shows [nombre_pdf], or else
    [filename], or else [Sin nombre]; the toast shows [nombre_pdf] or else
    [filename] and has no further fallback, so for a document that has
    neither name the title reads [Sin nombre] while the toast names the
    document as [undefined]. *)
Theorem selectDocument_names docId before fields after w heading container :
  documents (pdfHandler w) = VArr (before ++ VObj fields :: after) ->
  Forall (fun d => is_document d = true) before ->
  is_document (VObj fields) = true ->
  identifier docId = true ->
  Forall (fun d => has_id docId d = false) before ->
  has_id docId (VObj fields) = true ->
  page w !! "#chatSection h3" = Some heading ->
  page w !! "messageContainer" = Some container ->
  exists title name,
    ToString (or_else (get_member fields "nombre_pdf")
                (or_else (get_member fields "filename") (VStr "Sin nombre")))
    = Normal title /\
    ToString (or_else (get_member fields "nombre_pdf") (get_member fields "filename"))
    = Normal name /\
    (PdfHandler.selectDocument docId w).2 = Normal tt /\
    page (PdfHandler.selectDocument docId w).1 !! "#chatSection h3"
    = Some (set_content [TextNode ("Chat con Documento: " +:+ title)] heading) /\
    page (PdfHandler.selectDocument docId w).1 !! "messageContainer"
    = Some (appendChild
              (Toast "message success"
                 ("Documento " +:+ dquote +:+ name +:+ dquote
                  +:+ " seleccionado para chat")) container) /\
    (get_member fields "nombre_pdf" = VUndefined ->
     get_member fields "filename" = VUndefined ->
     title = "Sin nombre" /\ name = "undefined").
Proof.
  intros Hlist Hbefore Hdoc HdocId Hno Hyes Hheading Hcontainer.
  destruct (document_names fields Hdoc) as (title & name & Htitle & Hname).
  exists title, name. split; [done|]. split; [done|].
  assert (Hfind : array_find "this.documents.find"
        (fun d => id <~ Get d "id" ;; loose_eq id docId)
                    (documents (pdfHandler w)) = Normal (VObj fields)).
  { rewrite Hlist. cbn [array_find]. by apply findM_first_match. }
  rewrite (selectDocument_found docId fields w title name Hfind Htitle Hname).
  set (w1 := with_pdfHandler (set_selectedDocument (VObj fields)) w).
  set (w2 := (update_if_present "#chatSection h3" _ w1).1).
  set (w3 := (update_if_present "chatMessages" _ w2).1).
  set (w4 := if window_chatHandler w then _ else w3).
  assert (Hheading3 : page w3 !! "#chatSection h3"
                      = Some (set_content [TextNode ("Chat con Documento: " +:+ title)]
                                heading)).
  { subst w3 w2. rewrite page_update_if_present_ne by done.
    rewrite page_update_if_present_eq.
    assert (page w1 = page w) as -> by by destruct w. by rewrite Hheading. }
  assert (Hcontainer3 : page w3 !! "messageContainer" = Some container).
  { subst w3 w2. rewrite !page_update_if_present_ne by done.
    assert (page w1 = page w) as -> by by destruct w. done. }
  assert (H4 : page w4 !! "#chatSection h3"
               = Some (set_content [TextNode ("Chat con Documento: " +:+ title)] heading)
               /\ page w4 !! "messageContainer" = Some container).
  { subst w4. destruct (window_chatHandler w); [|done].
    by rewrite !enableChat_elsewhere. }
  destruct H4 as [Hheading4 Hcontainer4].
  rewrite (showMessage_shown _ _ w4 container Hcontainer4). cbn [fst snd].
  rewrite page_set_element, page_set_element_ne by done.
  split; [done|]. split; [done|]. split; [done|].
  intros Hnombre Hfilename. rewrite Hnombre, Hfilename in Htitle, Hname.
  cbn in Htitle, Hname. by injection Htitle as <-; injection Hname as <-.
Qed.

Lemma selectDocument_names_witness :
  let nameless := VObj [("id", VNum 4); ("estado_procesamiento", VStr "pendiente")] in
  let w := with_pdfHandler (set_documents (VArr [informe; nameless])) loaded_world in
  has_id (VNum 4) nameless = true /\
  el_content <$> page (PdfHandler.selectDocument (VNum 4) w).1 !! "#chatSection h3"
  = Some [TextNode "Chat con Documento: Sin nombre"] /\
  el_content <$> page (PdfHandler.selectDocument (VNum 4) w).1 !! "messageContainer"
  = Some [Toast "message success"
            ("Documento " +:+ dquote +:+ "undefined" +:+ dquote
             +:+ " seleccionado para chat")].
Proof.
  intros nameless w. split; [reflexivity|].
  destruct (selectDocument_names (VNum 4) [informe]
              [("id", VNum 4); ("estado_procesamiento", VStr "pendiente")] [] w
              createElement createElement eq_refl ltac:(repeat constructor) eq_refl
              eq_refl ltac:(repeat constructor) eq_refl eq_refl eq_refl)
    as (title & name & _ & _ & _ & Hheading & Htoast & Hnames).
  destruct (Hnames eq_refl eq_refl) as [-> ->].
  rewrite Hheading, Htoast. split; reflexivity.
Defined.

(** X25: a row of the table for a document with missing fields.  Without
    a name and a file name (missing, [null] or empty) the name cell reads
    [Sin nombre]; without a reception date the date cell reads [N/A];
    without a size, or with the size 0, the size cell reads [0 B]; without
    a Drive link the row has no Drive button.  The status has no fallback:
    when it is missing the badge reads [undefined] and carries the class
    [status-undefined]. *)
Theorem render_row_missing_fields fields r :
  TableRenderer.render_row (VObj fields) = Normal r ->
  (truthy (get_member fields "nombre_pdf") = false ->
   truthy (get_member fields "filename") = false ->
   row_name r = "Sin nombre") /\
  (truthy (get_member fields "fecha_hora_recepcion") = false ->
   row_date r = Text "N/A") /\
  (truthy (get_member fields "tamano_archivo") = false -> row_size r = "0 B") /\
  (truthy (get_member fields "url_google_drive") = false -> row_drive r = None) /\
  (get_member fields "estado_procesamiento" = VUndefined ->
   row_status_text r = "undefined" /\ row_status_class r = "status-undefined").
Proof.
  intros Hrow.
  unfold TableRenderer.render_row in Hrow. cbn [Get cbind] in Hrow.
  destruct (ToString (or_else (get_member fields "nombre_pdf") _))
    as [name|] eqn:Hname; [|done].
  cbn [cbind] in Hrow.
  destruct (ToString (get_member fields "estado_procesamiento"))
    as [status_class|] eqn:Hclass; [|done].
  cbn [cbind] in Hrow.
  destruct (TableRenderer.getStatusText _) as [status|] eqn:Hstatus; [|done].
  cbn [cbind] in Hrow.
  destruct (ToString status) as [status_text|] eqn:Htext; [|done].
  cbn [cbind] in Hrow.
  destruct (TableRenderer.formatFileSize _) as [size|] eqn:Hsize; [|done].
  cbn [cbind] in Hrow.
  destruct (TableRenderer.formatDate _) as [date|] eqn:Hdate; [|done].
  cbn [cbind] in Hrow.
  destruct (ToString (get_member fields "id")) as [id_text|] eqn:Hid; [|done].
  cbn [cbind] in Hrow.
  destruct (if truthy (get_member fields "url_google_drive") then _ else _)
    as [drive_url|] eqn:Hdrive; [|done].
  cbn [cbind] in Hrow. injection Hrow as <-.
  cbn [row_name row_date row_size row_drive row_status_text row_status_class].
  split; [|split; [|split; [|split]]].
  - intros Hnombre Hfilename. unfold or_else in Hname.
    rewrite Hnombre, Hfilename in Hname. by injection Hname as <-.
  - intros Hfecha. unfold TableRenderer.formatDate in Hdate.
    rewrite Hfecha in Hdate. by injection Hdate as <-.
  - intros Htamano. unfold TableRenderer.formatFileSize, Format.formatFileSize in Hsize.
    rewrite Htamano in Hsize. by injection Hsize as <-.
  - intros Hlink. rewrite Hlink in Hdrive. by injection Hdrive as <-.
  - intros Hestado. rewrite Hestado in Hclass, Hstatus.
    injection Hclass as <-. cbn in Hstatus. injection Hstatus as <-.
    by injection Htext as <-.
Qed.

Lemma render_row_missing_fields_witness :
  exists r,
    TableRenderer.render_row (VObj [("id", VNum 4)]) = Normal r /\
    row_name r = "Sin nombre" /\
    row_size r = "0 B" /\
    row_status_text r = "undefined".
Proof.
  destruct (TableRenderer.render_row (VObj [("id", VNum 4)])) as [r|e] eqn:Hrow;
    [|by vm_compute in Hrow].
  destruct (render_row_missing_fields [("id", VNum 4)] r Hrow)
    as (Hname & _ & Hsize & _ & Hstatus).
  exists r. split; [done|]. split; [exact (Hname eq_refl eq_refl)|].
  split; [exact (Hsize eq_refl)|exact (proj1 (Hstatus eq_refl))].
Defined.

(** ** From the selection to the question *)

(** X26: selecting a document and then asking.  With the chat handler
    installed, after [selectDocument] has found a document for a truthy
    id, a [sendMessage] on a text whose trimmed form is not empty posts
    that text with [document_id] equal to the id that was given to
    [selectDocument] (a number stays a number, a string a string), as the
    only request sent since before the selection. *)
Theorem selectDocument_then_sendMessage docId before doc after w input :
  documents (pdfHandler w) = VArr (before ++ doc :: after) ->
  Forall (fun d => is_document d = true) before ->
  is_document doc = true ->
  identifier docId = true ->
  Forall (fun d => has_id docId d = false) before ->
  has_id docId doc = true ->
  window_chatHandler w = true ->
  truthy docId = true ->
  page w !! "chatInput" = Some input ->
  trim (el_value input) <> "" ->
  let selected := (PdfHandler.selectDocument docId w).1 in
  (ChatHandler.sendMessage_start selected).2
  = Normal (Some (ChatHandler.chat_request (trim (el_value input)) docId)) /\
  requests (ChatHandler.sendMessage_start selected).1
  = requests w ++ [ChatHandler.chat_request (trim (el_value input)) docId].
Proof.
  intros Hlist Hbefore Hdoc HdocId Hno Hyes Hchat Htruthy Hinput Htext selected.
  destruct (is_document_fields doc Hdoc) as (fields & ->).
  destruct (document_names fields Hdoc) as (title & name & Htitle & Hname).
  assert (Hfind : array_find "this.documents.find"
        (fun d => id <~ Get d "id" ;; loose_eq id docId)
                    (documents (pdfHandler w)) = Normal (VObj fields)).
  { rewrite Hlist. cbn [array_find]. by apply findM_first_match. }
  assert (Hselected :
    currentDocumentId selected = docId /\
    requests selected = requests w /\
    page selected !! "chatInput"
    = Some (set_placeholder "Escribe tu pregunta sobre el documento..."
              (set_disabled false input))).
  { subst selected.
    rewrite (selectDocument_found docId fields w title name Hfind Htitle Hname).
    rewrite Hchat.
    set (w1 := with_pdfHandler (set_selectedDocument (VObj fields)) w).
    set (w2 := (update_if_present "#chatSection h3" _ w1).1).
    set (w3 := (update_if_present "chatMessages" _ w2).1).
    destruct (showMessage_state
                ("Documento " +:+ dquote +:+ name +:+ dquote
                 +:+ " seleccionado para chat") "success"
                (ChatHandler.enableChat docId w3).1)
      as ((_ & Hid & _ & _ & _ & Hrequests & _) & Hpage).
    rewrite Hid, Hrequests, Hpage by done.
    destruct (enableChat_state docId w3) as (_ & -> & _ & -> & _ & ->).
    assert (requests w3 = requests w) as -> by by destruct w.
    subst w3 w2. rewrite !page_update_if_present_ne by done.
    assert (page w1 = page w) as -> by by destruct w.
    by rewrite Hinput. }
  destruct Hselected as (Hid & Hrequests & Hinput').
  pose proof (sendMessage_start_cases selected _ Hinput') as Hstart.
  cbn zeta in Hstart. rewrite Hid, Htruthy, Hrequests in Hstart.
  change (el_value (set_placeholder "Escribe tu pregunta sobre el documento..."
                      (set_disabled false input)))
    with (el_value input) in Hstart.
  apply String.eqb_neq in Htext. by rewrite Htext in Hstart.
Qed.

Lemma selectDocument_then_sendMessage_witness :
  let w := typing " ¿Qué dice? "
             (with_pdfHandler (set_documents (VArr [informe; acta])) loaded_world) in
  has_id (VStr "2") acta = true /\
  requests (ChatHandler.sendMessage_start (PdfHandler.selectDocument (VStr "2") w).1).1
  = [ChatHandler.chat_request "¿Qué dice?" (VStr "2")].
Proof.
  intros w. split; [reflexivity|].
  exact (proj2 (selectDocument_then_sendMessage (VStr "2") [informe] acta [] w
                  (set_value " ¿Qué dice? " createElement)
                  eq_refl ltac:(repeat constructor) eq_refl eq_refl
                  ltac:(repeat constructor) eq_refl eq_refl eq_refl eq_refl
                  ltac:(discriminate))).
Defined.

(** ** A reload that fails *)

(** X27: when the reload of the list fails before a list is read (no
    reply, a reply that is not ok, or an ok reply whose body is not JSON)
    [loadDocuments] returns without an exception and shows an error toast;
    beyond the toast and the line in the console nothing changes: the
    document list, the selection, the chat, the table and every other
    element of the page stay as they were, and no request is sent. *)
Theorem loadDocuments_failure_frame o w container :
  (forall status data, o <> Response true status (Some data)) ->
  page w !! "messageContainer" = Some container ->
  let w' := (PdfHandler.loadDocuments_resume o w).1 in
  (PdfHandler.loadDocuments_resume o w).2 = Normal tt /\
  pdfHandler w' = pdfHandler w /\
  currentDocumentId w' = currentDocumentId w /\
  requests w' = requests w /\
  (forall id, id <> "messageContainer" -> page w' !! id = page w !! id) /\
  (exists reason,
     page w' !! "messageContainer"
     = Some (appendChild
               (Toast "message error" ("Error al cargar documentos: " +:+ reason))
               container)).
Proof.
  intros Hfailed Hcontainer w'. subst w'.
  assert (Hthrown : exists error,
            PdfHandler.loadDocuments_try o w = (w, Throw error)).
  { destruct o as [|[] status [data|]]; try (by eexists).
    by destruct (Hfailed status data). }
  destruct Hthrown as (error & Htry).
  unfold PdfHandler.loadDocuments_resume, try_catch. rewrite Htry.
  unfold bind, console_error, modify.
  rewrite (showMessage_shown _ _ _ container) by by destruct w.
  cbn [fst snd]. split; [done|].
  split; [by destruct w|]. split; [by destruct w|]. split; [by destruct w|].
  split.
  - intros id Hid. rewrite page_set_element_ne by done. by destruct w.
  - exists (exn_message error). by rewrite page_set_element.
Qed.

(** ** The details of a document that has nothing but an id *)

(** X28: for a document that has none of the nine fields that the details
    view reads, the view has two sections: the basic one, with the name
    [Sin nombre], the size [0 B], the date and the origin domain [N/A],
    and the status printed as [undefined], for which there is no
    fallback; and the JSON section with the notice that there is no
    processed content.  The content and the processing sections are left
    out. *)
Theorem details_of_a_bare_document fields :
  (forall k,
     k ∈ ["nombre_pdf"; "filename"; "estado_procesamiento"; "tamano_archivo";
          "fecha_hora_recepcion"; "dominio_origen"; "content_info";
          "processing_info"; "contenido_json"] ->
     get_member fields k = VUndefined) ->
  DocumentDetails.generateDetailContent (VObj fields)
  = Normal
      [ DocumentDetails.Grid "📄 Información Básica"
          [ ("Nombre:", Text "Sin nombre");
            ("Estado:", Text "undefined");
            ("Tamaño:", Text "0 B");
            ("Fecha de recepción:", Text "N/A");
            ("Dominio origen:", Text "N/A") ];
        DocumentDetails.JsonContent "🔍 Contenido JSON Procesado"
          (Text "No hay contenido procesado disponible para este documento.") ].
Proof.
  intros Hmissing.
  unfold DocumentDetails.generateDetailContent, DocumentDetails.basic_section.
  cbn [Get cbind].
  rewrite !Hmissing by (rewrite !elem_of_cons; tauto).
  reflexivity.
Qed.

Lemma details_of_a_bare_document_witness :
  exists sections,
    DocumentDetails.generateDetailContent
      (VObj [("id", VNum 4); ("ai_info", VObj [("summary", VStr "Resumen")])])
    = Normal sections /\
    length sections = 2%nat.
Proof.
  eexists. split.
  - apply (details_of_a_bare_document
             [("id", VNum 4); ("ai_info", VObj [("summary", VStr "Resumen")])]).
    intros k. rewrite !elem_of_cons, elem_of_nil.
    intros [->|[->|[->|[->|[->|[->|[->|[->|[->|[]]]]]]]]]]; reflexivity.
  - reflexivity.
Defined.

End Properties.

(** * The properties on sample data

    The closed statements below run the handlers on the sample data with
    the case table of the samples, [latin1]. *)

#[local] Existing Instance latin1.

(** C8, at the input where the code leaves the claim: an HTTP-ok response
    whose JSON body is [null].  Reading [data.data] throws, the catch
    branch reports the error, and the list loaded before stays in place
    instead of becoming empty. *)
Lemma loadDocuments_null_body :
  let before := with_pdfHandler (set_documents (VArr [informe])) loaded_world in
  let after := (PdfHandler.loadDocuments_resume (Response true 200 (Some VNull)) before).1 in
  documents (pdfHandler after) = VArr [informe] /\
  documents (pdfHandler after) <> VArr [] /\
  el_content <$> page after !! "messageContainer"
  = Some [Toast "message error"
            "Error al cargar documentos: Cannot read properties of null (reading 'data')"].
Proof. vm_compute. split; [done|]. split; [discriminate|done]. Qed.

Lemma renderTable_rows_witness :
  page loaded_world !! TableRenderer.tbody = Some createElement /\
  List.filter (row_expected "procesado" "ÍNDICE") [informe; indice; acta]
  = [indice] /\
  exists row,
    TableRenderer.renderTable (VArr [informe; indice; acta]) "procesado" "ÍNDICE"
      loaded_world
    = (set_element TableRenderer.tbody (set_content [row] createElement)
         loaded_world, Normal tt) /\
    row_of indice row.
Proof.
  assert (Hbody : page loaded_world !! TableRenderer.tbody = Some createElement)
    by reflexivity.
  split; [exact Hbody|]. split; [reflexivity|].
  destruct (proj1 (proj2 (renderTable_rows [informe; indice; acta] "procesado"
                            "ÍNDICE" loaded_world createElement Hbody))
              ltac:(repeat constructor))
    as (content & Hrun & Hrows).
  change (List.filter (row_expected "procesado" "ÍNDICE") [informe; indice; acta])
    with [indice] in Hrows.
  destruct content as [|row [|]].
  - exfalso. inversion Hrows.
  - exists row. split; [exact Hrun|]. by inversion Hrows.
  - exfalso. inversion Hrows as [|? ? ? ? ? Hrest]. inversion Hrest.
Defined.

Lemma loadDocuments_resume_documents_witness :
  nullish listing = false /\
  documents (pdfHandler
               (PdfHandler.loadDocuments_resume (Response true 200 (Some listing))
                  loaded_world).1)
  = VArr [informe; acta] /\
  page loaded_world !! "messageContainer" = Some createElement /\
  documents (pdfHandler
               (PdfHandler.loadDocuments_resume (Response false 500 None)
                  (with_pdfHandler (set_documents (VArr [informe])) loaded_world)).1)
  = VArr [informe].
Proof.
  split; [reflexivity|]. split.
  - exact (proj1 (loadDocuments_resume_documents loaded_world) 200 listing eq_refl).
  - split; [reflexivity|].
    exact (proj1 (proj2 (loadDocuments_resume_documents
                           (with_pdfHandler (set_documents (VArr [informe]))
                              loaded_world))
                    500 None createElement eq_refl)).
Defined.

Lemma filter_and_search_handlers_witness :
  let w := with_pdfHandler (set_documents (VArr [informe; acta])) loaded_world in
  List.filter (row_expected "pendiente" "") [informe; acta] = [informe] /\
  currentFilter (pdfHandler (PdfHandler.filterSelect_change "pendiente" w).1)
  = "pendiente" /\
  exists row,
    el_content <$> page (PdfHandler.filterSelect_change "pendiente" w).1
                     !! TableRenderer.tbody = Some [row] /\
    rendered informe row.
Proof.
  intros w. split; [reflexivity|].
  destruct (proj1 (filter_and_search_handlers [informe; acta] w createElement
                     eq_refl ltac:(repeat constructor) eq_refl eq_refl) "pendiente")
    as (Hfilter & content & Hpage & Hshows).
  split; [exact Hfilter|].
  change (List.filter (row_expected "pendiente" "") [informe; acta])
    with [informe] in Hshows.
  unfold shows in Hshows.
  destruct content as [|row [|]].
  - exfalso. inversion Hshows.
  - exists row. split; [by rewrite Hpage|]. by inversion Hshows.
  - exfalso. inversion Hshows as [|? ? ? ? ? Hrest]. inversion Hrest.
Defined.

Lemma loadDocuments_shows_list_witness :
  Get_optional (Get_optional listing "data") "documentos" = VArr [informe; acta] /\
  List.filter (row_expected "todos" "") [informe; acta] = [informe; acta] /\
  exists content,
    page (PdfHandler.loadDocuments_resume (Response true 200 (Some listing))
            loaded_world).1 !! TableRenderer.tbody
    = Some (set_content content createElement) /\
    Forall2 rendered [informe; acta] content.
Proof.
  split; [reflexivity|]. split; [reflexivity|].
  destruct (loadDocuments_shows_list 200 listing [informe; acta] loaded_world
              createElement eq_refl ltac:(repeat constructor) eq_refl eq_refl)
    as (_ & _ & (content & Hpage & Hshows) & _).
  exists content. split; [exact Hpage|exact Hshows].
Defined.

Lemma renderTable_replaces_content_witness :
  page loaded_world !! TableRenderer.tbody = Some createElement /\
  exists content,
    forall stale,
      (TableRenderer.renderTable (VArr [informe; acta]) "todos" ""
         (set_element TableRenderer.tbody (set_content stale createElement)
            loaded_world)).1
      = set_element TableRenderer.tbody (set_content content createElement)
          loaded_world.
Proof.
  split; [reflexivity|].
  destruct (renderTable_replaces_content (VArr [informe; acta]) "todos" "")
    as (content & result & Hrun).
  assert (Hresult : result = Normal tt).
  { by destruct (Hrun loaded_world createElement eq_refl) as [<- _]. }
  exists content. intros stale.
  destruct (Hrun (set_element TableRenderer.tbody (set_content stale createElement)
                    loaded_world)
              (set_content stale createElement) (page_set_element _ _ _))
    as [_ Hstate].
  by rewrite (Hstate Hresult), set_element_twice.
Defined.


Lemma loadDocuments_failure_frame_witness :
  let w := (PdfHandler.filterSelect_change "pendiente"
              (with_pdfHandler (set_documents (VArr [informe; acta])) loaded_world)).1 in
  page w !! "messageContainer" = Some createElement /\
  documents (pdfHandler (PdfHandler.loadDocuments_resume (Response true 200 None) w).1)
  = VArr [informe; acta] /\
  page (PdfHandler.loadDocuments_resume (Response true 200 None) w).1
    !! TableRenderer.tbody
  = page w !! TableRenderer.tbody.
Proof.
  intros w. split; [reflexivity|].
  destruct (loadDocuments_failure_frame (Response true 200 None) w createElement
              ltac:(discriminate) eq_refl)
    as (_ & Hpdf & _ & _ & Hpage & _).
  split; [by rewrite Hpdf|]. by apply Hpage.
Defined.
